(** * The accounting computation core of react-accounting-app

    A shallow embedding of the ledger aggregation, statement builders,
    cash-flow reconciler, year-end closing, financial indicators,
    depreciation-journal generation and tax calculation, of the three
    stores and of the pages that combine them (opening balances, general
    ledger, dashboard, fixed-asset ledger, carry-forward) and of the CSV
    export and import of a journal row, with the properties stated about
    them.

    Number model.  Ledger amounts are integer currency: every [number]
    that is only ever added, subtracted, negated or compared is a [Z].
    Where the source divides or multiplies by a non-integer (tax
    calculation, financial ratios) the value is an IEEE-754 binary64,
    modelled by the primitive [float] of the standard library, which is
    the arithmetic of a JavaScript [number].

    String model.  A JavaScript string is a [string] holding the UTF-8
    encoding of its text.  Equality and [includes] on well-formed text do
    not depend on the encoding; the relational operators are only used on
    ISO dates (ASCII), where byte order and UTF-16 order agree. *)

From Stdlib Require Import ZArith List String Ascii Bool Lia Permutation Sorted Floats
  DecimalString.
Import ListNotations.
Local Open Scope string_scope.
Local Open Scope Z_scope.

(** ** JavaScript built-ins used by the sources *)

Module JS.

(** [s.includes(sub)] *)
Fixpoint includes (s sub : string) : bool :=
  if String.prefix sub s then true
  else match s with
       | EmptyString => false
       | String _ s' => includes s' sub
       end.

(** Truthiness of a string: only the empty string is falsy. *)
Definition truthy (s : string) : bool :=
  match s with EmptyString => false | _ => true end.

(** [s.slice(0, n)], for the ASCII text of an identifier *)
Definition slice0 (n : nat) (s : string) : string := String.substring 0 n s.

(** [a < b] and [a <= b] on strings *)
Definition lt (a b : string) : bool := String.ltb a b.
Definition le (a b : string) : bool := String.leb a b.

(** [xs.sort(cmp)]: the sort is stable; [cmp a b > 0] puts [a] after [b]. *)
Section Sort.
Context {A : Type} (cmp : A -> A -> Z).

Fixpoint insert (x : A) (l : list A) : list A :=
  match l with
  | [] => [x]
  | y :: l' => if 0 <? cmp x y then y :: insert x l' else x :: l
  end.

Definition sort (l : list A) : list A :=
  fold_right (fun x acc => insert x acc) [] l.
End Sort.

End JS.

(** [Map<string, V>]: keys keep their insertion order, [set] on a present
    key replaces the value in place. *)
Module JSMap.
Section Defs.
Context {V : Type}.

Definition t := list (string * V).

Definition empty : t := [].

Fixpoint get (m : t) (k : string) : option V :=
  match m with
  | [] => None
  | (k', v) :: m' => if String.eqb k' k then Some v else get m' k
  end.

Definition has (m : t) (k : string) : bool :=
  match get m k with Some _ => true | None => false end.

Fixpoint set (m : t) (k : string) (v : V) : t :=
  match m with
  | [] => [(k, v)]
  | (k', v') :: m' =>
      if String.eqb k' k then (k', v) :: m' else (k', v') :: set m' k v
  end.

(** [m.get(k) || d] for a default [d] that every falsy stored value
    is equal to. *)
Definition getOr (m : t) (k : string) (d : V) : V :=
  match get m k with Some v => v | None => d end.
End Defs.
Arguments t : clear implicits.
End JSMap.

(** [Set<string>], iterated in insertion order. *)
Module JSSet.
Definition t := list string.
Definition empty : t := [].
Definition has (s : t) (x : string) : bool := existsb (String.eqb x) s.
Definition add (s : t) (x : string) : t := if has s x then s else (s ++ [x])%list.
Definition size (s : t) : nat := List.length s.
End JSSet.

(** ** Data model ([types/account.ts], [types/journal.ts],
    [types/openingBalance.ts]) *)

Inductive AccountType := asset | liability | equity | revenue | expense.

Definition AccountType_eqb (a b : AccountType) : bool :=
  match a, b with
  | asset, asset | liability, liability | equity, equity
  | revenue, revenue | expense, expense => true
  | _, _ => false
  end.

Module Account.
Record t := mk { id : string; code : string; name : string; type : AccountType }.
End Account.

(** The optional sub-account and tax fields of an entry are read by none
    of the functions below and are left out. *)
Module JournalEntry.
Record t := mk {
  id : string;
  date : string;
  description : string;
  debitAccountId : string;
  creditAccountId : string;
  amount : Z;
  createdAt : string;
  updatedAt : string
}.
End JournalEntry.

(** [amount]: positive is a debit balance, negative a credit balance. *)
Module OpeningBalance.
Record t := mk { accountId : string; amount : Z }.
End OpeningBalance.

(** [accounts.find((a) => a.id === id)] *)
Definition findAccount (accounts : list Account.t) (id : string) : option Account.t :=
  find (fun a => String.eqb (Account.id a) id) accounts.

(** [getAccountType] and [getAccountName], the same helper in
    [cashFlow.ts], [yearEndClosing.ts] and [financialIndicators.ts]. *)
Definition getAccountType (accounts : list Account.t) (id : string) : option AccountType :=
  option_map Account.type (findAccount accounts id).

Definition getAccountName (accounts : list Account.t) (id : string) : string :=
  match findAccount accounts id with
  | Some a => Account.name a
  | None => ""
  end.

(** [t === 'asset'] for a possibly undefined [t]. *)
Definition isType (t : option AccountType) (k : AccountType) : bool :=
  match t with Some x => AccountType_eqb x k | None => false end.

Definition sumZ {A : Type} (f : A -> Z) (l : list A) : Z :=
  fold_right (fun x acc => f x + acc) 0 l.

(** [balances.set(id, (balances.get(id) || 0) + delta)] *)
Definition bump (m : JSMap.t Z) (id : string) (delta : Z) : JSMap.t Z :=
  JSMap.set m id (JSMap.getOr m id 0 + delta).

(** The six balance-sheet updates of an entry, in source order: the loop
    body that [calculateCashFlow], [calculateYearEndClosing] and
    [calculateFinancialIndicators] each carry a copy of. *)
Definition postEntry (accounts : list Account.t) (balances : JSMap.t Z)
           (entry : JournalEntry.t) : JSMap.t Z :=
  let debitType := getAccountType accounts (JournalEntry.debitAccountId entry) in
  let creditType := getAccountType accounts (JournalEntry.creditAccountId entry) in
  let amount := JournalEntry.amount entry in
  let balances := if isType debitType asset
                  then bump balances (JournalEntry.debitAccountId entry) amount
                  else balances in
  let balances := if isType debitType liability
                  then bump balances (JournalEntry.debitAccountId entry) (- amount)
                  else balances in
  let balances := if isType debitType equity
                  then bump balances (JournalEntry.debitAccountId entry) (- amount)
                  else balances in
  let balances := if isType creditType asset
                  then bump balances (JournalEntry.creditAccountId entry) (- amount)
                  else balances in
  let balances := if isType creditType liability
                  then bump balances (JournalEntry.creditAccountId entry) amount
                  else balances in
  if isType creditType equity
  then bump balances (JournalEntry.creditAccountId entry) amount
  else balances.

(** The date filter shared by [TrialBalance.tsx] and
    [FinancialStatements.tsx]. *)
Definition filteredEntries (entries : list JournalEntry.t) (startDate endDate : string)
  : list JournalEntry.t :=
  filter (fun entry =>
            if JS.truthy startDate && JS.lt (JournalEntry.date entry) startDate then false
            else if JS.truthy endDate && JS.lt endDate (JournalEntry.date entry) then false
            else true) entries.

(** ** Trial balance ([components/TrialBalance.tsx]) *)

Module TrialBalance.

Record Totals := mkTotals { debit : Z; credit : Z }.

Record BalanceRow := mkRow {
  accountId : string;
  code : string;
  name : string;
  type : AccountType;
  debitTotal : Z;
  creditTotal : Z;
  debitBalance : Z;
  creditBalance : Z
}.

(** The body of [filteredEntries.forEach] in [missingAccountIds]. *)
Definition missingStep (accountIds : list string) (missing : JSSet.t)
           (entry : JournalEntry.t) : JSSet.t :=
  let missing :=
    if negb (JSSet.has accountIds (JournalEntry.debitAccountId entry))
    then JSSet.add missing (JournalEntry.debitAccountId entry)
    else missing in
  if negb (JSSet.has accountIds (JournalEntry.creditAccountId entry))
  then JSSet.add missing (JournalEntry.creditAccountId entry)
  else missing.

Definition missingAccountIds (accounts : list Account.t)
           (filtered : list JournalEntry.t) : JSSet.t :=
  let accountIds := map Account.id accounts in
  fold_left (missingStep accountIds) filtered JSSet.empty.

Definition zeroTotals : Totals := mkTotals 0 0.

(** One step of the opening-balance loop.  The object fetched from the
    map is mutated and stored back under its own key, so no two keys
    ever share an object and the update is a functional one. *)
Definition applyOpening (accountTotals : JSMap.t Totals) (balance : OpeningBalance.t)
  : JSMap.t Totals :=
  let existing := JSMap.getOr accountTotals (OpeningBalance.accountId balance) zeroTotals in
  let existing :=
    if 0 <? OpeningBalance.amount balance
    then mkTotals (debit existing + OpeningBalance.amount balance) (credit existing)
    else mkTotals (debit existing) (credit existing + Z.abs (OpeningBalance.amount balance)) in
  JSMap.set accountTotals (OpeningBalance.accountId balance) existing.

(** One step of the entry loop: debit side first, then credit side read
    back from the updated map. *)
Definition applyEntry (accountTotals : JSMap.t Totals) (entry : JournalEntry.t)
  : JSMap.t Totals :=
  let debitData := JSMap.getOr accountTotals (JournalEntry.debitAccountId entry) zeroTotals in
  let debitData := mkTotals (debit debitData + JournalEntry.amount entry) (credit debitData) in
  let accountTotals := JSMap.set accountTotals (JournalEntry.debitAccountId entry) debitData in
  let creditData := JSMap.getOr accountTotals (JournalEntry.creditAccountId entry) zeroTotals in
  let creditData := mkTotals (debit creditData) (credit creditData + JournalEntry.amount entry) in
  JSMap.set accountTotals (JournalEntry.creditAccountId entry) creditData.

Definition accountTotals (filtered : list JournalEntry.t)
           (includeOpeningBalance : bool) (balances : list OpeningBalance.t)
  : JSMap.t Totals :=
  let start :=
    if includeOpeningBalance then fold_left applyOpening balances JSMap.empty
    else JSMap.empty in
  fold_left applyEntry filtered start.

(** The last loop of [balanceData]: net balance placed in the debit or
    the credit column. *)
Definition setBalances (row : BalanceRow) : BalanceRow :=
  let isDebitNormal :=
    AccountType_eqb (type row) asset || AccountType_eqb (type row) expense in
  let netBalance := debitTotal row - creditTotal row in
  if isDebitNormal then
    mkRow (accountId row) (code row) (name row) (type row)
          (debitTotal row) (creditTotal row)
          (if 0 <=? netBalance then netBalance else 0)
          (if netBalance <? 0 then - netBalance else 0)
  else
    mkRow (accountId row) (code row) (name row) (type row)
          (debitTotal row) (creditTotal row)
          (if 0 <? netBalance then netBalance else 0)
          (if netBalance <=? 0 then - netBalance else 0).

Definition knownRow (totals : Totals) (account : Account.t) : BalanceRow :=
  mkRow (Account.id account) (Account.code account) (Account.name account)
        (Account.type account) (debit totals) (credit totals) 0 0.

Definition unknownRow (totals : Totals) (missingId : string) : BalanceRow :=
  mkRow missingId "???"
        ("不明な科目 (" ++ JS.slice0 8 missingId ++ "...)")
        asset (debit totals) (credit totals) 0 0.

Record ColumnTotals := mkColumns {
  sumDebitTotal : Z;
  sumCreditTotal : Z;
  sumDebitBalance : Z;
  sumCreditBalance : Z
}.

Section WithCollation.
(** [a.localeCompare(b)], fixed by the host's collation. *)
Variable localeCompare : string -> string -> Z.

Definition unsortedRows (totalsMap : JSMap.t Totals) (accounts : list Account.t)
           (missing : JSSet.t) : list BalanceRow :=
  (flat_map (fun account =>
               match JSMap.get totalsMap (Account.id account) with
               | Some totals => [knownRow totals account]
               | None => []
               end) accounts
   ++ flat_map (fun missingId =>
                  match JSMap.get totalsMap missingId with
                  | Some totals => [unknownRow totals missingId]
                  | None => []
                  end) missing)%list.

Definition balanceData (filtered : list JournalEntry.t) (accounts : list Account.t)
           (includeOpeningBalance : bool) (balances : list OpeningBalance.t)
  : list BalanceRow :=
  let totalsMap := accountTotals filtered includeOpeningBalance balances in
  let rows := unsortedRows totalsMap accounts (missingAccountIds accounts filtered) in
  let rows := JS.sort (fun a b => localeCompare (code a) (code b)) rows in
  map setBalances rows.

Definition totals (rows : list BalanceRow) : ColumnTotals :=
  fold_left (fun acc row =>
               mkColumns (sumDebitTotal acc + debitTotal row)
                         (sumCreditTotal acc + creditTotal row)
                         (sumDebitBalance acc + debitBalance row)
                         (sumCreditBalance acc + creditBalance row))
            rows (mkColumns 0 0 0 0).

Definition isBalanced (rows : list BalanceRow) : bool :=
  sumDebitTotal (totals rows) =? sumCreditTotal (totals rows).

(** The whole report for given filter dates; the banner is shown when
    [missingAccountIds.size > 0]. *)
Definition report (entries : list JournalEntry.t) (accounts : list Account.t)
           (startDate endDate : string)
           (includeOpeningBalance : bool) (balances : list OpeningBalance.t)
  : list BalanceRow :=
  balanceData (filteredEntries entries startDate endDate) accounts
              includeOpeningBalance balances.

Definition warning (entries : list JournalEntry.t) (accounts : list Account.t)
           (startDate endDate : string) : bool :=
  (0 <? JSSet.size (missingAccountIds accounts
                      (filteredEntries entries startDate endDate)))%nat.
End WithCollation.

End TrialBalance.

(** ** Income statement and balance sheet
       ([components/FinancialStatements.tsx]) *)

Module FinancialStatements.


(** [['asset', 'liability', 'equity'].includes(account.type)] *)
Definition isBalanceSheetType (t : AccountType) : bool :=
  match t with asset | liability | equity => true | _ => false end.

(** Opening balances reach the map only for an account that is found and
    is a balance-sheet account. *)
Definition applyOpening (accounts : list Account.t) (balances : JSMap.t Z)
           (balance : OpeningBalance.t) : JSMap.t Z :=
  match findAccount accounts (OpeningBalance.accountId balance) with
  | Some account =>
      if isBalanceSheetType (Account.type account) then
        let existing := JSMap.getOr balances (OpeningBalance.accountId balance) 0 in
        JSMap.set balances (OpeningBalance.accountId balance)
                  (existing + OpeningBalance.amount balance)
      else balances
  | None => balances
  end.

Definition applyEntry (balances : JSMap.t Z) (entry : JournalEntry.t) : JSMap.t Z :=
  let debitBalance := JSMap.getOr balances (JournalEntry.debitAccountId entry) 0 in
  let balances := JSMap.set balances (JournalEntry.debitAccountId entry)
                            (debitBalance + JournalEntry.amount entry) in
  let creditBalance := JSMap.getOr balances (JournalEntry.creditAccountId entry) 0 in
  JSMap.set balances (JournalEntry.creditAccountId entry)
            (creditBalance - JournalEntry.amount entry).

Definition rawBalances (filtered : list JournalEntry.t) (accounts : list Account.t)
           (includeOpeningBalance : bool) (openingBalances : list OpeningBalance.t)
  : JSMap.t Z :=
  let start :=
    if includeOpeningBalance
    then fold_left (applyOpening accounts) openingBalances JSMap.empty
    else JSMap.empty in
  fold_left applyEntry filtered start.

(** The raw balance the report reads for an account. *)
Definition rawBalance (balances : JSMap.t Z) (account : Account.t) : Z :=
  JSMap.getOr balances (Account.id account) 0.

Definition isDebitNormal (t : AccountType) : bool :=
  AccountType_eqb t asset || AccountType_eqb t expense.

Definition displayBalance (t : AccountType) (raw : Z) : Z :=
  if isDebitNormal t then raw else - raw.


(** The opening balance is one that [applyOpening] lets through. *)
Definition openingApplies (accounts : list Account.t) (ob : OpeningBalance.t) : bool :=
  match findAccount accounts (OpeningBalance.accountId ob) with
  | Some account => isBalanceSheetType (Account.type account)
  | None => false
  end.








Section WithCollation.
Variable localeCompare : string -> string -> Z.


End WithCollation.

End FinancialStatements.

(** ** Cash-flow statement ([utils/cashFlow.ts]) *)

Module CashFlow.

Record Operating := mkOperating {
  netProfit : Z;
  depreciation : Z;
  accountsReceivableChange : Z;
  inventoryChange : Z;
  accountsPayableChange : Z;
  otherCurrentAssetChange : Z;
  otherCurrentLiabilityChange : Z;
  op_subtotal : Z
}.

Record Investing := mkInvesting {
  fixedAssetPurchase : Z;
  fixedAssetSale : Z;
  otherInvesting : Z;
  inv_subtotal : Z
}.

Record Financing := mkFinancing {
  borrowing : Z;
  repayment : Z;
  capitalIncrease : Z;
  dividends : Z;
  otherFinancing : Z;
  fin_subtotal : Z
}.

Record CashFlowStatement := mkStatement {
  operating : Operating;
  investing : Investing;
  financing : Financing;
  totalCashFlow : Z;
  beginningCash : Z;
  endingCash : Z
}.

Definition isCashAccount (accounts : list Account.t) (id : string) : bool :=
  let name := getAccountName accounts id in
  String.eqb name "現金" || JS.includes name "預金" || String.eqb name "小口現金".

Definition isReceivable (accounts : list Account.t) (id : string) : bool :=
  let name := getAccountName accounts id in
  String.eqb name "売掛金" || String.eqb name "受取手形".

Definition isInventory (accounts : list Account.t) (id : string) : bool :=
  let name := getAccountName accounts id in
  String.eqb name "商品" || String.eqb name "製品"
  || String.eqb name "原材料" || String.eqb name "仕掛品".

Definition isPayable (accounts : list Account.t) (id : string) : bool :=
  let name := getAccountName accounts id in
  String.eqb name "買掛金" || String.eqb name "支払手形".

Definition isFixedAsset (accounts : list Account.t) (id : string) : bool :=
  let name := getAccountName accounts id in
  let fixedAssetNames :=
    ["備品"; "車両"; "建物"; "土地"; "機械"; "ソフトウェア"; "工具器具備品"] in
  existsb (fun n => JS.includes name n) fixedAssetNames.

Definition isBorrowing (accounts : list Account.t) (id : string) : bool :=
  JS.includes (getAccountName accounts id) "借入金".

Definition isDepreciation (accounts : list Account.t) (id : string) : bool :=
  JS.includes (getAccountName accounts id) "減価償却".

Definition isCapital (accounts : list Account.t) (id : string) : bool :=
  String.eqb (getAccountName accounts id) "資本金".

Definition isOtherCurrentAsset (accounts : list Account.t) (id : string) : bool :=
  let name := getAccountName accounts id in
  let type := getAccountType accounts id in
  if negb (isType type asset) then false
  else if isCashAccount accounts id then false
  else if isReceivable accounts id then false
  else if isInventory accounts id then false
  else if isFixedAsset accounts id then false
  else existsb (fun n => JS.includes name n) ["前払"; "仮払"; "未収"; "立替"; "短期貸付"].

Definition isOtherCurrentLiability (accounts : list Account.t) (id : string) : bool :=
  let name := getAccountName accounts id in
  let type := getAccountType accounts id in
  if negb (isType type liability) then false
  else if isPayable accounts id then false
  else if isBorrowing accounts id then false
  else existsb (fun n => JS.includes name n) ["未払"; "前受"; "仮受"; "預り"; "賞与引当"].

(** [beginningBalances] and [endingBalances] both start from the opening
    balances; a later record for the same account overwrites an earlier one. *)
Definition setOpening (m : JSMap.t Z) (ob : OpeningBalance.t) : JSMap.t Z :=
  JSMap.set m (OpeningBalance.accountId ob) (OpeningBalance.amount ob).

Record Ledger := mkLedger {
  endingBalances : JSMap.t Z;
  revenue_ : Z;
  expenses : Z
}.

Definition entryStep (accounts : list Account.t) (st : Ledger) (entry : JournalEntry.t)
  : Ledger :=
  let debitType := getAccountType accounts (JournalEntry.debitAccountId entry) in
  let creditType := getAccountType accounts (JournalEntry.creditAccountId entry) in
  let revenue := if isType creditType revenue
                 then revenue_ st + JournalEntry.amount entry else revenue_ st in
  let expenses := if isType debitType expense
                  then expenses st + JournalEntry.amount entry else expenses st in
  mkLedger (postEntry accounts (endingBalances st) entry) revenue expenses.

Definition depreciationStep (accounts : list Account.t) (depreciation : Z)
           (entry : JournalEntry.t) : Z :=
  if isDepreciation accounts (JournalEntry.debitAccountId entry)
  then depreciation + JournalEntry.amount entry
  else depreciation.

Record Changes := mkChanges {
  receivableChange : Z;
  inventoryChange_ : Z;
  payableChange : Z;
  fixedAssetChange : Z;
  borrowingChange : Z;
  capitalChange : Z;
  otherCurrentAssetChange_ : Z;
  otherCurrentLiabilityChange_ : Z;
  beginningCash_ : Z;
  endingCash_ : Z
}.

Definition noChanges : Changes := mkChanges 0 0 0 0 0 0 0 0 0 0.

(** The body of [accounts.forEach]: the first matching bucket takes the
    account. *)
Definition accountStep (accounts : list Account.t)
           (beginningBalances endingBalances : JSMap.t Z)
           (c : Changes) (account : Account.t) : Changes :=
  let id := Account.id account in
  let beginning := JSMap.getOr beginningBalances id 0 in
  let ending := JSMap.getOr endingBalances id 0 in
  let change := ending - beginning in
  match c with
  | mkChanges rc ic pc fc bc cc oca ocl bcash ecash =>
      if isCashAccount accounts id then
        mkChanges rc ic pc fc bc cc oca ocl (bcash + beginning) (ecash + ending)
      else if isReceivable accounts id then
        mkChanges (rc + change) ic pc fc bc cc oca ocl bcash ecash
      else if isInventory accounts id then
        mkChanges rc (ic + change) pc fc bc cc oca ocl bcash ecash
      else if isPayable accounts id then
        mkChanges rc ic (pc - change) fc bc cc oca ocl bcash ecash
      else if isFixedAsset accounts id then
        mkChanges rc ic pc (fc + change) bc cc oca ocl bcash ecash
      else if isBorrowing accounts id then
        mkChanges rc ic pc fc (bc - change) cc oca ocl bcash ecash
      else if isCapital accounts id then
        mkChanges rc ic pc fc bc (cc - change) oca ocl bcash ecash
      else if isOtherCurrentAsset accounts id then
        mkChanges rc ic pc fc bc cc (oca + change) ocl bcash ecash
      else if isOtherCurrentLiability accounts id then
        mkChanges rc ic pc fc bc cc oca (ocl - change) bcash ecash
      else c
  end.

Definition calculateCashFlow (entries : list JournalEntry.t) (accounts : list Account.t)
           (openingBalances : list OpeningBalance.t) : CashFlowStatement :=
  let beginningBalances := fold_left setOpening openingBalances JSMap.empty in
  let ledger := fold_left (entryStep accounts) entries
                          (mkLedger beginningBalances 0 0) in
  let netProfit := revenue_ ledger - expenses ledger in
  let depreciation := fold_left (depreciationStep accounts) entries 0 in
  let c := fold_left (accountStep accounts beginningBalances (endingBalances ledger))
                     accounts noChanges in
  let actualCashChange := endingCash_ c - beginningCash_ c in
  let accountsReceivableChange := - receivableChange c in
  let inventoryChangeCF := - inventoryChange_ c in
  let accountsPayableChange := payableChange c in
  let otherCurrentAssetChangeCF := - otherCurrentAssetChange_ c in
  let otherCurrentLiabilityChangeCF := otherCurrentLiabilityChange_ c in
  let fixedAssetPurchase := if 0 <? fixedAssetChange c then - fixedAssetChange c else 0 in
  let fixedAssetSale := if fixedAssetChange c <? 0 then - fixedAssetChange c else 0 in
  let investingSubtotal := fixedAssetPurchase + fixedAssetSale in
  let borrowing := if 0 <? borrowingChange c then borrowingChange c else 0 in
  let repayment := if borrowingChange c <? 0 then borrowingChange c else 0 in
  let capitalIncrease := if 0 <? capitalChange c then capitalChange c else 0 in
  let financingSubtotal := borrowing + repayment + capitalIncrease in
  let operatingSubtotal := actualCashChange - investingSubtotal - financingSubtotal in
  let calculatedOperating :=
    netProfit + depreciation + accountsReceivableChange + inventoryChangeCF
    + accountsPayableChange + otherCurrentAssetChangeCF + otherCurrentLiabilityChangeCF in
  let operatingAdjustment := operatingSubtotal - calculatedOperating in
  mkStatement
    (mkOperating netProfit depreciation accountsReceivableChange inventoryChangeCF
                 accountsPayableChange otherCurrentAssetChangeCF
                 (otherCurrentLiabilityChangeCF + operatingAdjustment)
                 operatingSubtotal)
    (mkInvesting fixedAssetPurchase fixedAssetSale 0 investingSubtotal)
    (mkFinancing borrowing repayment capitalIncrease 0 0 financingSubtotal)
    actualCashChange (beginningCash_ c) (endingCash_ c).

End CashFlow.


(** ** Year-end closing ([utils/yearEndClosing.ts]) *)

Module YearEndClosing.

Record ClosingBalance := mkClosingBalance {
  accountId : string;
  accountName : string;
  accountType : AccountType;
  balance : Z
}.

Record ClosingEntry := mkClosingEntry {
  debitAccountId : string;
  creditAccountId : string;
  amount : Z;
  description : string
}.

Record YearEndClosingResult := mkResult {
  closingBalances : list ClosingBalance;
  netProfit : Z;
  closingEntry : option ClosingEntry;
  carryForwardBalances : list OpeningBalance.t
}.

Definition isBalanceSheetAccount (type : AccountType) : bool :=
  AccountType_eqb type asset || AccountType_eqb type liability
  || AccountType_eqb type equity.

Definition isRetainedEarningsName (name : string) : bool :=
  String.eqb name "繰越利益剰余金" || String.eqb name "利益剰余金"
  || String.eqb name "繰越利益".

Definition findRetainedEarningsAccount (accounts : list Account.t) : option Account.t :=
  find (fun a => isRetainedEarningsName (Account.name a)) accounts.

Definition inPeriod (fiscalYearStart fiscalYearEnd : string) (entry : JournalEntry.t) : bool :=
  JS.le fiscalYearStart (JournalEntry.date entry)
  && JS.le (JournalEntry.date entry) fiscalYearEnd.

Record Closing := mkClosing {
  balances : JSMap.t Z;
  totalRevenue : Z;
  totalExpense : Z
}.

Definition setOpening (m : JSMap.t Z) (ob : OpeningBalance.t) : JSMap.t Z :=
  JSMap.set m (OpeningBalance.accountId ob) (OpeningBalance.amount ob).

Definition entryStep (accounts : list Account.t) (st : Closing) (entry : JournalEntry.t)
  : Closing :=
  let debitType := getAccountType accounts (JournalEntry.debitAccountId entry) in
  let creditType := getAccountType accounts (JournalEntry.creditAccountId entry) in
  let totalRevenue := if isType creditType revenue
                      then totalRevenue st + JournalEntry.amount entry
                      else totalRevenue st in
  let totalRevenue := if isType debitType revenue
                      then totalRevenue - JournalEntry.amount entry
                      else totalRevenue in
  let totalExpense := if isType debitType expense
                      then totalExpense st + JournalEntry.amount entry
                      else totalExpense st in
  let totalExpense := if isType creditType expense
                      then totalExpense - JournalEntry.amount entry
                      else totalExpense in
  mkClosing (postEntry accounts (balances st) entry) totalRevenue totalExpense.

(** The state after the entry loop. *)
Definition aggregate (entries : list JournalEntry.t) (accounts : list Account.t)
           (openingBalances : list OpeningBalance.t)
           (fiscalYearStart fiscalYearEnd : string) : Closing :=
  let periodEntries := filter (inPeriod fiscalYearStart fiscalYearEnd) entries in
  fold_left (entryStep accounts) periodEntries
            (mkClosing (fold_left setOpening openingBalances JSMap.empty) 0 0).

(** The transfer of the period's profit: the closing entry and the
    balances after the retained-earnings update. *)
Definition transferProfit (accounts : list Account.t) (balances : JSMap.t Z)
           (netProfit : Z) (fiscalYearEnd : string)
  : option ClosingEntry * JSMap.t Z :=
  match findRetainedEarningsAccount accounts with
  | Some retainedEarningsAccount =>
      if negb (netProfit =? 0) then
        let closingEntry :=
          if 0 <? netProfit then
            mkClosingEntry "" (Account.id retainedEarningsAccount) netProfit
                           ("当期純利益の振替（" ++ fiscalYearEnd ++ "）")
          else
            mkClosingEntry (Account.id retainedEarningsAccount) "" (Z.abs netProfit)
                           ("当期純損失の振替（" ++ fiscalYearEnd ++ "）") in
        let currentRetainedEarnings :=
          JSMap.getOr balances (Account.id retainedEarningsAccount) 0 in
        (Some closingEntry,
         JSMap.set balances (Account.id retainedEarningsAccount)
                   (currentRetainedEarnings - netProfit))
      else (None, balances)
  | None => (None, balances)
  end.

Definition closingRow (balances : JSMap.t Z) (account : Account.t) : list ClosingBalance :=
  if isBalanceSheetAccount (Account.type account) then
    let balance := JSMap.getOr balances (Account.id account) 0 in
    if negb (balance =? 0) then
      [mkClosingBalance (Account.id account) (Account.name account)
                        (Account.type account) balance]
    else []
  else [].

Definition carryForwardRow (balances : JSMap.t Z) (account : Account.t)
  : list OpeningBalance.t :=
  if isBalanceSheetAccount (Account.type account) then
    let balance := JSMap.getOr balances (Account.id account) 0 in
    if negb (balance =? 0) then [OpeningBalance.mk (Account.id account) balance]
    else []
  else [].

Definition calculateYearEndClosing (entries : list JournalEntry.t)
           (accounts : list Account.t) (openingBalances : list OpeningBalance.t)
           (fiscalYearStart fiscalYearEnd : string) : YearEndClosingResult :=
  let st := aggregate entries accounts openingBalances fiscalYearStart fiscalYearEnd in
  let netProfit := totalRevenue st - totalExpense st in
  let '(closingEntry, balances) :=
    transferProfit accounts (balances st) netProfit fiscalYearEnd in
  mkResult (flat_map (closingRow balances) accounts)
           netProfit closingEntry
           (flat_map (carryForwardRow balances) accounts).

End YearEndClosing.

(** ** Binary64 helpers *)

Module Number.

(** The binary64 value of an integer (rounded to nearest even beyond 2^53). *)
Definition ofZ (z : Z) : float := SF2Prim (binary_normalize prec emax z 0 false).

(** [Math.floor]: the largest integral value not above [x]; zeros,
    infinities and NaN are returned as they are.  A finite [x] is
    [±m·2^e]; with [e >= 0] it is already integral. *)
Definition Math_floor (x : float) : float :=
  match Prim2SF x with
  | S754_finite s m e =>
      if 0 <=? e then x
      else
        let q := Z.shiftr (Z.pos m) (- e) in
        let exact := Z.pos m =? Z.shiftl q (- e) in
        if s then (if exact then x else PrimFloat.opp (ofZ (q + 1)))
        else ofZ q
  | _ => x
  end.

(** [Math.trunc]: the integral part of [x], digits after the point dropped. *)
Definition Math_trunc (x : float) : float :=
  match Prim2SF x with
  | S754_finite s m e =>
      if 0 <=? e then x
      else
        let q := Z.shiftr (Z.pos m) (- e) in
        if s then PrimFloat.opp (ofZ q) else ofZ q
  | _ => x
  end.

End Number.

(** ** Financial indicators ([utils/financialIndicators.ts]) *)

Module FinancialIndicators.

Record FinancialIndicators := mkIndicators {
  grossProfitMargin : option float;
  operatingProfitMargin : option float;
  netProfitMargin : option float;
  currentRatio : option float;
  equityRatio : option float;
  debtEquityRatio : option float;
  totalAssetTurnover : option float;
  receivablesTurnover : option float;
  revenue_ : Z;
  costOfSales : Z;
  grossProfit : Z;
  operatingExpenses : Z;
  operatingProfit : Z;
  netProfit : Z;
  totalAssets : Z;
  totalLiabilities : Z;
  equity_ : Z;
  currentAssets : Z;
  currentLiabilities : Z;
  receivables : Z
}.

Definition isCostOfSales (accounts : list Account.t) (id : string) : bool :=
  let name := getAccountName accounts id in
  String.eqb name "仕入" || JS.includes name "売上原価".

Definition isCurrentAsset (accounts : list Account.t) (id : string) : bool :=
  let name := getAccountName accounts id in
  existsb (fun n => JS.includes name n)
          ["現金"; "普通預金"; "当座預金"; "売掛金"; "商品"; "受取手形"; "有価証券"; "前払"].

Definition isCurrentLiability (accounts : list Account.t) (id : string) : bool :=
  let name := getAccountName accounts id in
  existsb (fun n => JS.includes name n)
          ["買掛金"; "未払"; "前受"; "短期借入"; "支払手形"; "仮受"].

Definition isReceivable (accounts : list Account.t) (id : string) : bool :=
  let name := getAccountName accounts id in
  String.eqb name "売掛金" || String.eqb name "受取手形".

Record Ledger := mkLedger {
  balances : JSMap.t Z;
  l_revenue : Z;
  l_costOfSales : Z;
  l_operatingExpenses : Z
}.

Definition setOpening (m : JSMap.t Z) (ob : OpeningBalance.t) : JSMap.t Z :=
  JSMap.set m (OpeningBalance.accountId ob) (OpeningBalance.amount ob).

Definition entryStep (accounts : list Account.t) (st : Ledger) (entry : JournalEntry.t)
  : Ledger :=
  let debitType := getAccountType accounts (JournalEntry.debitAccountId entry) in
  let creditType := getAccountType accounts (JournalEntry.creditAccountId entry) in
  let revenue := if isType creditType revenue
                 then l_revenue st + JournalEntry.amount entry else l_revenue st in
  let isCost := isType debitType expense
                && isCostOfSales accounts (JournalEntry.debitAccountId entry) in
  let isOperating := isType debitType expense
                     && negb (isCostOfSales accounts (JournalEntry.debitAccountId entry)) in
  let costOfSales := if isCost then l_costOfSales st + JournalEntry.amount entry
                     else l_costOfSales st in
  let operatingExpenses := if isOperating
                           then l_operatingExpenses st + JournalEntry.amount entry
                           else l_operatingExpenses st in
  mkLedger (postEntry accounts (balances st) entry) revenue costOfSales operatingExpenses.

Record Sheet := mkSheet {
  s_totalAssets : Z;
  s_totalLiabilities : Z;
  s_equity : Z;
  s_currentAssets : Z;
  s_currentLiabilities : Z;
  s_receivables : Z
}.

(** The body of [balances.forEach((balance, accountId) => ...)]. *)
Definition sheetStep (accounts : list Account.t) (sh : Sheet) (kv : string * Z) : Sheet :=
  let '(accountId, balance) := kv in
  let type := getAccountType accounts accountId in
  let sh :=
    if isType type asset then
      mkSheet (s_totalAssets sh + balance) (s_totalLiabilities sh) (s_equity sh)
              (if isCurrentAsset accounts accountId
               then s_currentAssets sh + balance else s_currentAssets sh)
              (s_currentLiabilities sh)
              (if isReceivable accounts accountId
               then s_receivables sh + balance else s_receivables sh)
    else sh in
  let sh :=
    if isType type liability then
      mkSheet (s_totalAssets sh) (s_totalLiabilities sh - balance) (s_equity sh)
              (s_currentAssets sh)
              (if isCurrentLiability accounts accountId
               then s_currentLiabilities sh - balance else s_currentLiabilities sh)
              (s_receivables sh)
    else sh in
  if isType type equity then
    mkSheet (s_totalAssets sh) (s_totalLiabilities sh) (s_equity sh - balance)
            (s_currentAssets sh) (s_currentLiabilities sh) (s_receivables sh)
  else sh.

(** [d > 0 ? (n / d) * 100 : null] *)
Definition percentOf (n d : Z) : option float :=
  if 0 <? d then Some (Number.ofZ n / Number.ofZ d * 100)%float else None.

(** [d > 0 ? n / d : null] *)
Definition timesOf (n d : Z) : option float :=
  if 0 <? d then Some (Number.ofZ n / Number.ofZ d)%float else None.

Definition calculateFinancialIndicators (entries : list JournalEntry.t)
           (accounts : list Account.t) (openingBalances : list OpeningBalance.t)
  : FinancialIndicators :=
  let ledger := fold_left (entryStep accounts) entries
                  (mkLedger (fold_left setOpening openingBalances JSMap.empty) 0 0 0) in
  let sh := fold_left (sheetStep accounts) (balances ledger) (mkSheet 0 0 0 0 0 0) in
  let revenue := l_revenue ledger in
  let grossProfit := revenue - l_costOfSales ledger in
  let operatingProfit := grossProfit - l_operatingExpenses ledger in
  let netProfit := operatingProfit in
  mkIndicators
    (percentOf grossProfit revenue)
    (percentOf operatingProfit revenue)
    (percentOf netProfit revenue)
    (percentOf (s_currentAssets sh) (s_currentLiabilities sh))
    (percentOf (s_equity sh) (s_totalAssets sh))
    (percentOf (s_totalLiabilities sh) (s_equity sh))
    (timesOf revenue (s_totalAssets sh))
    (timesOf revenue (s_receivables sh))
    revenue (l_costOfSales ledger) grossProfit (l_operatingExpenses ledger)
    operatingProfit netProfit
    (s_totalAssets sh) (s_totalLiabilities sh) (s_equity sh)
    (s_currentAssets sh) (s_currentLiabilities sh) (s_receivables sh).

End FinancialIndicators.


(** ** Depreciation journals ([utils/depreciationJournal.ts]) *)

Module DepreciationJournal.

Inductive DepreciationMethod := straight_line | declining_balance.

(** [types/fixedAsset.ts]; the category, memo and time stamps are not read. *)
Record FixedAsset := mkAsset {
  a_id : string;
  a_name : string;
  a_accountId : string;
  acquisitionDate : string;
  acquisitionCost : Z;
  usefulLife : Z;
  depreciationMethod : DepreciationMethod;
  residualValue : Z;
  isDisposed : bool;
  disposalDate : option string
}.

Record DepreciationSchedule := mkSchedule {
  fiscalYear : Z;
  yearStartDate : string;
  yearEndDate : string;
  beginningBookValue : Z;
  depreciationAmount : Z;
  accumulatedDepreciation : Z;
  endingBookValue : Z;
  months : Z
}.

Record DepreciationJournalResult := mkJournals {
  entries : list JournalEntry.t;
  totalAmount : Z;
  assetCount : Z;
  errors : list string
}.

Definition findAccountByName (accounts : list Account.t) (name : string)
  : option Account.t :=
  find (fun a => String.eqb (Account.name a) name) accounts.

Definition getAccumulatedDepreciationAccount (accounts : list Account.t) :=
  findAccountByName accounts "減価償却累計額".

Definition getDepreciationExpenseAccount (accounts : list Account.t) :=
  findAccountByName accounts "減価償却費".

Definition missingExpenseMessage : string :=
  "勘定科目「減価償却費」が見つかりません。勘定科目マスタに追加してください。".

Definition missingAccumulatedMessage : string :=
  "勘定科目「減価償却累計額」が見つかりません。勘定科目マスタに追加してください。".

(** [entry] is a depreciation posting of the period, as both
    [hasDepreciationJournals] and [getDepreciationJournals] test it. *)
Definition isDepreciationPosting (expenseId fiscalYearStart fiscalYearEnd : string)
           (entry : JournalEntry.t) : bool :=
  String.eqb (JournalEntry.debitAccountId entry) expenseId
  && JS.le fiscalYearStart (JournalEntry.date entry)
  && JS.le (JournalEntry.date entry) fiscalYearEnd
  && JS.includes (JournalEntry.description entry) "減価償却費".

Definition hasDepreciationJournals (journalEntries : list JournalEntry.t)
           (accounts : list Account.t) (fiscalYearStart fiscalYearEnd : string) : bool :=
  match getDepreciationExpenseAccount accounts with
  | None => false
  | Some depreciationExpenseAccount =>
      existsb (isDepreciationPosting (Account.id depreciationExpenseAccount)
                                     fiscalYearStart fiscalYearEnd)
              journalEntries
  end.

Section Generation.
(** The schedule of an asset over a horizon ([utils/depreciation.ts]); the
    generator only reads the rows it returns. *)
Variable calculateDepreciationSchedule :
  FixedAsset -> string -> Z -> list DepreciationSchedule.
(** The identifier and the time stamp obtained for the [k]-th posted entry. *)
Variable uuidv4 : nat -> string.
Variable now : nat -> string.

(** The schedule row of the target year, if any. *)
Definition currentSchedule (asset : FixedAsset) (fiscalYearStart : string) (year : Z)
  : option DepreciationSchedule :=
  find (fun s => fiscalYear s =? year)
       (calculateDepreciationSchedule asset fiscalYearStart 50).

(** The body of [activeAssets.forEach]. *)
Definition assetStep (depreciationExpenseAccount accumulatedDepreciationAccount : Account.t)
           (fiscalYearStart : string) (year : Z)
           (acc : DepreciationJournalResult) (asset : FixedAsset)
  : DepreciationJournalResult :=
  match currentSchedule asset fiscalYearStart year with
  | None => acc
  | Some s =>
      if depreciationAmount s =? 0 then acc
      else
        let k := List.length (entries acc) in
        let entry :=
          JournalEntry.mk (uuidv4 k) (yearEndDate s)
                          (a_name asset ++ " 減価償却費")
                          (Account.id depreciationExpenseAccount)
                          (Account.id accumulatedDepreciationAccount)
                          (depreciationAmount s) (now k) (now k) in
        mkJournals (entries acc ++ [entry])%list
                   (totalAmount acc + depreciationAmount s)
                   (assetCount acc + 1)
                   (errors acc)
  end.

Definition generateDepreciationJournals (assets : list FixedAsset)
           (accounts : list Account.t) (fiscalYearStart : string) (year : Z)
  : DepreciationJournalResult :=
  match getDepreciationExpenseAccount accounts with
  | None => mkJournals [] 0 0 [missingExpenseMessage]
  | Some depreciationExpenseAccount =>
      match getAccumulatedDepreciationAccount accounts with
      | None => mkJournals [] 0 0 [missingAccumulatedMessage]
      | Some accumulatedDepreciationAccount =>
          let activeAssets := filter (fun asset => negb (isDisposed asset)) assets in
          fold_left (assetStep depreciationExpenseAccount accumulatedDepreciationAccount
                               fiscalYearStart year)
                    activeAssets (mkJournals [] 0 0 [])
      end
  end.
(** The schedule row an asset is posted for: not disposed, a row for the
    target year, a depreciation amount that is not 0. *)
Definition dueSchedule (asset : FixedAsset) (fiscalYearStart : string) (year : Z)
  : option DepreciationSchedule :=
  if isDisposed asset then None
  else match currentSchedule asset fiscalYearStart year with
       | Some s => if depreciationAmount s =? 0 then None else Some s
       | None => None
       end.

Definition dueAssets (assets : list FixedAsset) (fiscalYearStart : string) (year : Z)
  : list (FixedAsset * DepreciationSchedule) :=
  flat_map (fun asset =>
              match dueSchedule asset fiscalYearStart year with
              | Some s => [(asset, s)]
              | None => []
              end) assets.

End Generation.

(** [entry] is the draft posted for the asset and schedule row [p]. *)
Definition drafted (expense accumulated : Account.t)
           (p : FixedAsset * DepreciationSchedule) (entry : JournalEntry.t) : Prop :=
  JournalEntry.debitAccountId entry = Account.id expense
  /\ JournalEntry.creditAccountId entry = Account.id accumulated
  /\ JournalEntry.amount entry = depreciationAmount (snd p)
  /\ JournalEntry.date entry = yearEndDate (snd p)
  /\ JournalEntry.description entry = a_name (fst p) ++ " 減価償却費".

End DepreciationJournal.

(** ** Consumption tax ([utils/taxCalculation.ts]) *)

Module Tax.

(** [type TaxRate = 0 | 8 | 10] *)
Inductive TaxRate := rate0 | rate8 | rate10.

Definition rateNumber (r : TaxRate) : float :=
  match r with rate0 => 0 | rate8 => 8 | rate10 => 10 end%float.

Inductive TaxIncluded := included | excluded.

Record TaxCalculation := mkTax {
  baseAmount : float;
  taxAmount : float;
  totalAmount : float;
  taxRate : TaxRate
}.

Definition calculateTax (amount : float) (taxRate : TaxRate) (taxIncluded : TaxIncluded)
  : TaxCalculation :=
  match taxRate with
  | rate0 => mkTax amount 0 amount rate0
  | _ =>
      let rate := (rateNumber taxRate / 100)%float in
      match taxIncluded with
      | included =>
          let baseAmount := Number.Math_floor (amount / (1 + rate))%float in
          let taxAmount := (amount - baseAmount)%float in
          mkTax baseAmount taxAmount amount taxRate
      | excluded =>
          let taxAmount := Number.Math_floor (amount * rate)%float in
          let totalAmount := (amount + taxAmount)%float in
          mkTax amount taxAmount totalAmount taxRate
      end
  end.

End Tax.

(** ** Vocabulary of the statements *)

Module Ledger.

(** Debit and credit totals a totals map holds for a key (0 when absent). *)
Definition debitOf (m : JSMap.t TrialBalance.Totals) (k : string) : Z :=
  TrialBalance.debit (JSMap.getOr m k TrialBalance.zeroTotals).

Definition creditOf (m : JSMap.t TrialBalance.Totals) (k : string) : Z :=
  TrialBalance.credit (JSMap.getOr m k TrialBalance.zeroTotals).

(** Entry-sourced totals of an id: what the entries post to its debit and
    to its credit side. *)
Definition postedDebit (entries : list JournalEntry.t) (k : string) : Z :=
  sumZ (fun e => if String.eqb (JournalEntry.debitAccountId e) k
                 then JournalEntry.amount e else 0) entries.

Definition postedCredit (entries : list JournalEntry.t) (k : string) : Z :=
  sumZ (fun e => if String.eqb (JournalEntry.creditAccountId e) k
                 then JournalEntry.amount e else 0) entries.

(** Opening balances folded in for an id: positive amounts on the debit
    side, the others by absolute value on the credit side. *)
Definition openingDebit (balances : list OpeningBalance.t) (k : string) : Z :=
  sumZ (fun ob => if String.eqb (OpeningBalance.accountId ob) k
                  then (if 0 <? OpeningBalance.amount ob
                        then OpeningBalance.amount ob else 0)
                  else 0) balances.

Definition openingCredit (balances : list OpeningBalance.t) (k : string) : Z :=
  sumZ (fun ob => if String.eqb (OpeningBalance.accountId ob) k
                  then (if 0 <? OpeningBalance.amount ob
                        then 0 else Z.abs (OpeningBalance.amount ob))
                  else 0) balances.

(** The ids that can get a row of the trial balance: the chart of
    accounts, then the ids flagged as missing. *)
Definition rowIds (accounts : list Account.t) (filtered : list JournalEntry.t)
  : list string :=
  (map Account.id accounts ++ TrialBalance.missingAccountIds accounts filtered)%list.


(** Raw balance of a row. *)
Definition rawBalance (row : TrialBalance.BalanceRow) : Z :=
  TrialBalance.debitTotal row - TrialBalance.creditTotal row.

End Ledger.

Module Closing.
Import YearEndClosing.

(** What an entry contributes to the revenue and to the expense total:
    a posting on the normal side adds, one on the opposite side cancels. *)
Definition revenueEffect (accounts : list Account.t) (e : JournalEntry.t) : Z :=
  (if isType (getAccountType accounts (JournalEntry.creditAccountId e)) revenue
   then JournalEntry.amount e else 0)
  - (if isType (getAccountType accounts (JournalEntry.debitAccountId e)) revenue
     then JournalEntry.amount e else 0).

Definition expenseEffect (accounts : list Account.t) (e : JournalEntry.t) : Z :=
  (if isType (getAccountType accounts (JournalEntry.debitAccountId e)) expense
   then JournalEntry.amount e else 0)
  - (if isType (getAccountType accounts (JournalEntry.creditAccountId e)) expense
     then JournalEntry.amount e else 0).

Definition retainedEarningsLabels : list string :=
  ["繰越利益剰余金"; "利益剰余金"; "繰越利益"].

(** The balance of an id before and after the transfer of the profit. *)
Definition aggregatedBalance (entries : list JournalEntry.t) (accounts : list Account.t)
           (openingBalances : list OpeningBalance.t)
           (fiscalYearStart fiscalYearEnd : string) (k : string) : Z :=
  JSMap.getOr
    (balances (aggregate entries accounts openingBalances fiscalYearStart fiscalYearEnd))
    k 0.

Definition endingBalance (entries : list JournalEntry.t) (accounts : list Account.t)
           (openingBalances : list OpeningBalance.t)
           (fiscalYearStart fiscalYearEnd : string) (k : string) : Z :=
  let st := aggregate entries accounts openingBalances fiscalYearStart fiscalYearEnd in
  JSMap.getOr
    (snd (transferProfit accounts (balances st) (totalRevenue st - totalExpense st)
                         fiscalYearEnd))
    k 0.

(** An account that is carried forward: on the balance sheet, ending
    balance not 0. *)
Definition carried (ending : string -> Z) (a : Account.t) : bool :=
  isBalanceSheetAccount (Account.type a) && negb (ending (Account.id a) =? 0).

(** The reading under which the closing balances would be the
    carry-forward amounts with the sign flipped for credit-normal types. *)
Definition displayAdjusted (r : YearEndClosingResult) : Prop :=
  forall cb ob,
    In cb (closingBalances r) -> In ob (carryForwardBalances r) ->
    accountId cb = OpeningBalance.accountId ob ->
    balance cb
    = FinancialStatements.displayBalance (accountType cb) (OpeningBalance.amount ob).

End Closing.

(** ** Sample ledgers used to exercise the statements *)

Module Scenario.

(** A collation that orders account codes as plain strings. *)
Definition byCode (a b : string) : Z :=
  match String.compare a b with Lt => -1 | Eq => 0 | Gt => 1 end.

Definition cash : Account.t := Account.mk "acc-101" "101" "現金" asset.
Definition receivable : Account.t := Account.mk "acc-110" "110" "売掛金" asset.
Definition payable : Account.t := Account.mk "acc-201" "201" "買掛金" liability.
Definition capital : Account.t := Account.mk "acc-301" "301" "資本金" equity.
Definition retained : Account.t := Account.mk "acc-310" "310" "繰越利益剰余金" equity.
Definition sales : Account.t := Account.mk "acc-401" "401" "売上" revenue.
Definition purchases : Account.t := Account.mk "acc-501" "501" "仕入" expense.
Definition depreciationExpense : Account.t :=
  Account.mk "acc-520" "520" "減価償却費" expense.
Definition accumulatedDepreciation : Account.t :=
  Account.mk "acc-160" "160" "減価償却累計額" asset.

Definition posting (id date description debit credit : string) (amount : Z)
  : JournalEntry.t :=
  JournalEntry.mk id date description debit credit amount
                  "2025-01-01T00:00:00.000Z" "2025-01-01T00:00:00.000Z".

(** Scenario A: a cash sale of 1000. *)
Definition cashSale : JournalEntry.t :=
  posting "j-1" "2025-04-10" "現金売上" "acc-101" "acc-401" 1000.

(** Scenario B: a cash expense of 200 on opening balances 500 / -500. *)
Definition cashExpense : JournalEntry.t :=
  posting "j-2" "2025-05-01" "仕入" "acc-501" "acc-101" 200.

Definition openingB : list OpeningBalance.t :=
  [OpeningBalance.mk "acc-101" 500; OpeningBalance.mk "acc-301" (-500)].

(** Scenario D: an entry between two ids that are in no chart of accounts. *)
Definition orphan : JournalEntry.t :=
  posting "j-3" "2025-06-01" "不明" "ghost-1" "ghost-2" 100.


(** A sale dated after the closing date of fiscal year 2025. *)
Definition lateSale : JournalEntry.t :=
  posting "j-4" "2026-04-10" "現金売上" "acc-101" "acc-401" 700.

(** A purchase on credit. *)
Definition creditPurchase : JournalEntry.t :=
  posting "j-5" "2025-07-01" "掛仕入" "acc-501" "acc-201" 100.

(** Cash collected on a receivable that was never recorded. *)
Definition collection : JournalEntry.t :=
  posting "j-6" "2025-08-01" "売掛金回収" "acc-101" "acc-110" 100.

(** A depreciation posting of fiscal year 2025. *)
Definition depreciationPosting : JournalEntry.t :=
  posting "j-7" "2026-03-31" "PC 減価償却費" "acc-520" "acc-160" 40000.

Definition laptop : DepreciationJournal.FixedAsset :=
  DepreciationJournal.mkAsset "fa-1" "PC" "acc-150" "2025-04-15" 200000 4
                              DepreciationJournal.straight_line 1 false None.

Definition soldVan : DepreciationJournal.FixedAsset :=
  DepreciationJournal.mkAsset "fa-2" "車両" "acc-151" "2020-04-15" 1000000 5
                              DepreciationJournal.straight_line 1 true (Some "2024-09-30").

(** A schedule with one row, for fiscal year 2025, for every asset. *)
Definition oneRow (asset : DepreciationJournal.FixedAsset) (fiscalYearStart : string)
           (numberOfYears : Z) : list DepreciationJournal.DepreciationSchedule :=
  [DepreciationJournal.mkSchedule 2025 "2025-04-01" "2026-03-31"
     (DepreciationJournal.acquisitionCost asset) 40000 40000
     (DepreciationJournal.acquisitionCost asset - 40000) 11].

Definition ids (k : nat) : string := "draft".
Definition clock (k : nat) : string := "2026-03-31T00:00:00.000Z".

End Scenario.

(** ** Grouping of the trial balance ([components/TrialBalance.tsx],
       [groupedData]) *)

Module TrialBalanceGroups.
Import TrialBalance.

(** [Record<AccountType, BalanceRow[]>] *)
Record Groups := mkGroups {
  g_asset : list BalanceRow;
  g_liability : list BalanceRow;
  g_equity : list BalanceRow;
  g_revenue : list BalanceRow;
  g_expense : list BalanceRow
}.

Definition noGroups : Groups := mkGroups [] [] [] [] [].

(** [groups[row.type].push(row)] *)
Definition push (groups : Groups) (row : BalanceRow) : Groups :=
  match groups with
  | mkGroups a l q r x =>
      match type row with
      | asset => mkGroups (a ++ [row])%list l q r x
      | liability => mkGroups a (l ++ [row])%list q r x
      | equity => mkGroups a l (q ++ [row])%list r x
      | revenue => mkGroups a l q (r ++ [row])%list x
      | expense => mkGroups a l q r (x ++ [row])%list
      end
  end.

Definition groupedData (balanceData : list BalanceRow) : Groups :=
  fold_left push balanceData noGroups.

(** [groups[t]] *)
Definition group (groups : Groups) (t : AccountType) : list BalanceRow :=
  match t with
  | asset => g_asset groups
  | liability => g_liability groups
  | equity => g_equity groups
  | revenue => g_revenue groups
  | expense => g_expense groups
  end.

(** [accountTypeOrder] of [types/account.ts] *)
Definition accountTypeOrder : list AccountType :=
  [asset; liability; equity; revenue; expense].

End TrialBalanceGroups.

(** An id is touched by the aggregation: a filtered entry names it, or an
    included opening balance is recorded under it. *)
Definition namedBy (entries : list JournalEntry.t) (k : string) : bool :=
  existsb (fun e => String.eqb (JournalEntry.debitAccountId e) k
                    || String.eqb (JournalEntry.creditAccountId e) k) entries.

Definition openedBy (balances : list OpeningBalance.t) (k : string) : bool :=
  existsb (fun ob => String.eqb (OpeningBalance.accountId ob) k) balances.

(** A comparator that orders strings by length: a total preorder. *)
Definition byLength (a b : string) : Z :=
  Z.of_nat (String.length a) - Z.of_nat (String.length b).

(** ** Stores ([stores/openingBalanceStore.ts], [stores/journalStore.ts],
       [stores/accountStore.ts]).  The time stamp written by an update is
       passed in as [now], a fresh identifier as [uuid]. *)

Module OpeningBalanceStore.

Record OpeningBalanceSettings := mkSettings {
  fiscalYearStart : string;
  balances : list OpeningBalance.t;
  updatedAt : string
}.

(** [xs.findIndex(p)], [None] for -1 *)
Fixpoint findIndex {A : Type} (p : A -> bool) (l : list A) : option nat :=
  match l with
  | [] => None
  | x :: l' => if p x then Some O else option_map S (findIndex p l')
  end.

(** [xs.splice(i, 1)] on a copy *)
Fixpoint removeAt {A : Type} (i : nat) (l : list A) : list A :=
  match l, i with
  | [], _ => []
  | _ :: l', O => l'
  | x :: l', S i' => x :: removeAt i' l'
  end.

(** [xs[i] = y] on a copy, for an index inside the array *)
Fixpoint replaceAt {A : Type} (i : nat) (y : A) (l : list A) : list A :=
  match l, i with
  | [], _ => []
  | _ :: l', O => y :: l'
  | x :: l', S i' => x :: replaceAt i' y l'
  end.

Definition setFiscalYearStart (state : OpeningBalanceSettings) (date now : string)
  : OpeningBalanceSettings :=
  mkSettings date (balances state) now.

Definition setBalance (state : OpeningBalanceSettings) (accountId : string) (amount : Z)
           (now : string) : OpeningBalanceSettings :=
  let existingIndex :=
    findIndex (fun b => String.eqb (OpeningBalance.accountId b) accountId)
              (balances state) in
  let newBalances :=
    if amount =? 0 then
      match existingIndex with
      | Some i => removeAt i (balances state)
      | None => balances state
      end
    else
      match existingIndex with
      | Some i => replaceAt i (OpeningBalance.mk accountId amount) (balances state)
      | None => (balances state ++ [OpeningBalance.mk accountId amount])%list
      end in
  mkSettings (fiscalYearStart state) newBalances now.

Definition setBalances (state : OpeningBalanceSettings) (bs : list OpeningBalance.t)
           (now : string) : OpeningBalanceSettings :=
  mkSettings (fiscalYearStart state)
             (filter (fun b => negb (OpeningBalance.amount b =? 0)) bs) now.

Definition getBalance (state : OpeningBalanceSettings) (accountId : string) : Z :=
  match find (fun b => String.eqb (OpeningBalance.accountId b) accountId)
             (balances state) with
  | Some balance => OpeningBalance.amount balance
  | None => 0
  end.

(** The state the store is meant to be in: one record per account, none
    with amount 0. *)
Definition wellFormed (state : OpeningBalanceSettings) : Prop :=
  NoDup (map OpeningBalance.accountId (balances state))
  /\ forall b, In b (balances state) -> OpeningBalance.amount b <> 0.

(** [handleCarryForward] of [components/YearEndClosing.tsx]: the
    carry-forward balances replace the stored ones, then the fiscal year
    moves on. *)
Definition handleCarryForward (state : OpeningBalanceSettings)
           (closingResult : YearEndClosing.YearEndClosingResult)
           (nextFiscalYearStart : string) (now1 now2 : string)
  : OpeningBalanceSettings :=
  setFiscalYearStart
    (setBalances state (YearEndClosing.carryForwardBalances closingResult) now1)
    nextFiscalYearStart now2.

End OpeningBalanceStore.

Module JournalStore.

(** [Omit<JournalEntry, 'id' | 'createdAt' | 'updatedAt'>] *)
Record EntryData := mkData {
  date : string;
  description : string;
  debitAccountId : string;
  creditAccountId : string;
  amount : Z
}.

(** The data of an entry handed to [addEntry]: its own id and time stamps
    are overwritten there. *)
Definition dataOf (entry : JournalEntry.t) : EntryData :=
  mkData (JournalEntry.date entry) (JournalEntry.description entry)
         (JournalEntry.debitAccountId entry) (JournalEntry.creditAccountId entry)
         (JournalEntry.amount entry).

Definition addEntry (entries : list JournalEntry.t) (entryData : EntryData)
           (uuid now : string) : list JournalEntry.t :=
  (entries ++ [JournalEntry.mk uuid (date entryData) (description entryData)
                               (debitAccountId entryData) (creditAccountId entryData)
                               (amount entryData) now now])%list.

Definition deleteEntry (entries : list JournalEntry.t) (id : string)
  : list JournalEntry.t :=
  filter (fun entry => negb (String.eqb (JournalEntry.id entry) id)) entries.

Definition deleteEntries (entries : list JournalEntry.t) (ids : list string)
  : list JournalEntry.t :=
  let idSet := fold_left JSSet.add ids JSSet.empty in
  filter (fun entry => negb (JSSet.has idSet (JournalEntry.id entry))) entries.

(** The loop of [handleGenerateJournals]: every generated entry is added
    under a fresh id. *)
Fixpoint addAll (entries generated : list JournalEntry.t)
         (uuid now : nat -> string) (k : nat) : list JournalEntry.t :=
  match generated with
  | [] => entries
  | entry :: rest =>
      addAll (addEntry entries (dataOf entry) (uuid k) (now k)) rest uuid now (S k)
  end.

End JournalStore.

Module AccountStore.

(** [data/defaultAccounts.ts] *)
Definition defaultAccounts : list Account.t :=
  [Account.mk "acc-101" "101" "現金" asset;
   Account.mk "acc-102" "102" "普通預金" asset;
   Account.mk "acc-103" "103" "当座預金" asset;
   Account.mk "acc-110" "110" "売掛金" asset;
   Account.mk "acc-120" "120" "商品" asset;
   Account.mk "acc-150" "150" "備品" asset;
   Account.mk "acc-151" "151" "車両運搬具" asset;
   Account.mk "acc-152" "152" "建物" asset;
   Account.mk "acc-153" "153" "機械装置" asset;
   Account.mk "acc-154" "154" "ソフトウェア" asset;
   Account.mk "acc-159" "159" "減価償却累計額" asset;
   Account.mk "acc-160" "160" "仮払消費税" asset;
   Account.mk "acc-201" "201" "買掛金" liability;
   Account.mk "acc-202" "202" "未払金" liability;
   Account.mk "acc-203" "203" "仮受消費税" liability;
   Account.mk "acc-204" "204" "未払消費税" liability;
   Account.mk "acc-210" "210" "借入金" liability;
   Account.mk "acc-301" "301" "資本金" equity;
   Account.mk "acc-302" "302" "繰越利益剰余金" equity;
   Account.mk "acc-401" "401" "売上" revenue;
   Account.mk "acc-402" "402" "受取利息" revenue;
   Account.mk "acc-501" "501" "仕入" expense;
   Account.mk "acc-502" "502" "給料" expense;
   Account.mk "acc-503" "503" "通信費" expense;
   Account.mk "acc-504" "504" "消耗品費" expense;
   Account.mk "acc-505" "505" "水道光熱費" expense;
   Account.mk "acc-506" "506" "旅費交通費" expense;
   Account.mk "acc-507" "507" "広告宣伝費" expense;
   Account.mk "acc-508" "508" "減価償却費" expense].

Definition deleteAccount (accounts : list Account.t) (id : string) : list Account.t :=
  filter (fun account => negb (String.eqb (Account.id account) id)) accounts.

(** The default accounts whose name the chart lacks, each under the next
    fresh id.  [Account.t] carries no time stamps, so a copy differs from
    its default by the id only. *)
Fixpoint missingDefaults (existingNames : list string) (defaults : list Account.t)
         (uuid : nat -> string) (k : nat) : list Account.t :=
  match defaults with
  | [] => []
  | defaultAcc :: rest =>
      if negb (existsb (String.eqb (Account.name defaultAcc)) existingNames)
      then Account.mk (uuid k) (Account.code defaultAcc) (Account.name defaultAcc)
                      (Account.type defaultAcc)
           :: missingDefaults existingNames rest uuid (S k)
      else missingDefaults existingNames rest uuid k
  end.

Definition ensureRequiredAccounts (accounts : list Account.t) (uuid : nat -> string)
  : list Account.t :=
  let existingNames := map Account.name accounts in
  let missingAccounts := missingDefaults existingNames defaultAccounts uuid O in
  match missingAccounts with
  | [] => accounts
  | _ => (accounts ++ missingAccounts)%list
  end.

End AccountStore.

(** ** Fixed-asset ledger ([components/FixedAssetLedger.tsx]) and the
    journals it reads ([utils/depreciationJournal.ts]) *)

Module FixedAssetLedger.
Import DepreciationJournal.

Definition getDepreciationJournals (journalEntries : list JournalEntry.t)
           (accounts : list Account.t) (fiscalYearStart fiscalYearEnd : string)
  : list JournalEntry.t :=
  match getDepreciationExpenseAccount accounts with
  | None => []
  | Some depreciationExpenseAccount =>
      filter (isDepreciationPosting (Account.id depreciationExpenseAccount)
                                    fiscalYearStart fiscalYearEnd)
             journalEntries
  end.

Definition hasExistingJournals (journalEntries : list JournalEntry.t)
           (accounts : list Account.t) (fiscalYearStart fiscalYearEnd : string) : bool :=
  (0 <? List.length (getDepreciationJournals journalEntries accounts
                                             fiscalYearStart fiscalYearEnd))%nat.

Section Posting.
Variable calculateDepreciationSchedule :
  FixedAsset -> string -> Z -> list DepreciationSchedule.
(** Identifiers and time stamps drawn by the generator and, afterwards,
    by the journal store. *)
Variable uuidv4 : nat -> string.
Variable now : nat -> string.
Variable storeUuid : nat -> string.
Variable storeNow : nat -> string.

(** The journal after [handleGenerateJournals]: nothing is posted when the
    generation reports an error or drafts nothing. *)
Definition handleGenerateJournals (journalEntries : list JournalEntry.t)
           (assets : list FixedAsset) (accounts : list Account.t)
           (fiscalYearStart : string) (fiscalYear : Z) : list JournalEntry.t :=
  let result := generateDepreciationJournals calculateDepreciationSchedule uuidv4 now
                  assets accounts fiscalYearStart fiscalYear in
  if (0 <? List.length (errors result))%nat then journalEntries
  else if (List.length (entries result) =? 0)%nat then journalEntries
  else JournalStore.addAll journalEntries (entries result) storeUuid storeNow O.
End Posting.

End FixedAssetLedger.

(** ** The one-line helpers of [utils/taxCalculation.ts] *)

Module TaxHelpers.
Import Tax.

Definition extractBaseAmount (totalAmount : float) (taxRate : TaxRate) : float :=
  match taxRate with
  | rate0 => totalAmount
  | _ => Number.Math_floor (totalAmount / (1 + rateNumber taxRate / 100))%float
  end.

Definition calculateTotalAmount (baseAmount : float) (taxRate : TaxRate) : float :=
  match taxRate with
  | rate0 => baseAmount
  | _ => (baseAmount + Number.Math_floor (baseAmount * (rateNumber taxRate / 100)))%float
  end.

Definition calculateTaxAmount (baseAmount : float) (taxRate : TaxRate) : float :=
  match taxRate with
  | rate0 => 0%float
  | _ => Number.Math_floor (baseAmount * (rateNumber taxRate / 100))%float
  end.

(** The integer a binary64 number denotes, when it denotes one. *)
Definition integerValue (x : float) : option Z :=
  match Prim2SF x with
  | S754_zero _ => Some 0
  | S754_finite s m e =>
      if 0 <=? e then Some ((if s then -1 else 1) * Z.shiftl (Z.pos m) e)
      else
        let q := Z.shiftr (Z.pos m) (- e) in
        if Z.pos m =? Z.shiftl q (- e) then Some ((if s then -1 else 1) * q) else None
  | _ => None
  end.

Definition isInteger (x : float) (z : Z) : bool :=
  match integerValue x with Some v => v =? z | None => false end.

(** The rate in percent, as an integer. *)
Definition percent (r : TaxRate) : Z :=
  match r with rate0 => 0 | rate8 => 8 | rate10 => 10 end.

(** What the helpers are checked against for a whole amount [a]: the tax
    on a tax-excluded amount is the exact floor, the total is the amount
    plus that tax, and the base of a tax-included amount is the exact
    floor or one below it. *)
Definition wholeAmountChecks (a : Z) (r : TaxRate) : bool :=
  let x := Number.ofZ a in
  let exactTax := a * percent r / 100 in
  let exactBase := a * 100 / (100 + percent r) in
  isInteger (calculateTaxAmount x r) exactTax
  && isInteger (calculateTotalAmount x r) (a + exactTax)
  && (isInteger (extractBaseAmount x r) exactBase
      || isInteger (extractBaseAmount x r) (exactBase - 1))
  && match integerValue (extractBaseAmount x r) with
     | Some b => isInteger (taxAmount (calculateTax x r included)) (a - b)
     | None => false
     end.

(** [p] holds for the [n] integers from [a] on. *)
Fixpoint holdsFrom (a : Z) (n : nat) (p : Z -> bool) : bool :=
  match n with
  | O => true
  | S n' => p a && holdsFrom (a + 1) n' p
  end.

End TaxHelpers.

(** ** General ledger ([components/GeneralLedger.tsx]) *)

Module GeneralLedger.



Section WithCollation.
Variable localeCompare : string -> string -> Z.

End WithCollation.





End GeneralLedger.

(** ** Dashboard ([components/Dashboard.tsx]) *)

Module Dashboard.





Section WithCollation.
Variable localeCompare : string -> string -> Z.

End WithCollation.




End Dashboard.

(** ** CSV export and import of the journal ([utils/csv.ts]) *)

Module Csv.

Definition quote : ascii := "034"%char.
Definition comma : ascii := ","%char.
Definition newline : ascii := "010"%char.

(** [description.replace(/\x22/g, ...)]: every double quote is doubled. *)
Fixpoint escape (s : string) : string :=
  match s with
  | EmptyString => EmptyString
  | String c rest =>
      if Ascii.eqb c quote then String quote (String quote (escape rest))
      else String c (escape rest)
  end.

Definition quoted (s : string) : string :=
  String quote (escape s ++ String quote EmptyString).

(** [xs.join(sep)] *)
Fixpoint join (sep : string) (xs : list string) : string :=
  match xs with
  | [] => EmptyString
  | [x] => x
  | x :: rest => x ++ sep ++ join sep rest
  end.

Definition headers : list string := ["日付"; "借方科目"; "貸方科目"; "金額"; "摘要"].

Section Writing.
Variable getAccountName : string -> string.
(** [amount.toString()] *)
Variable numberToString : Z -> string.

Definition csvRow (entry : JournalEntry.t) : list string :=
  [JournalEntry.date entry;
   getAccountName (JournalEntry.debitAccountId entry);
   getAccountName (JournalEntry.creditAccountId entry);
   numberToString (JournalEntry.amount entry);
   quoted (JournalEntry.description entry)].

Definition journalToCSV (entries : list JournalEntry.t) : string :=
  join (String newline EmptyString)
       (join (String comma EmptyString) headers
        :: map (fun row => join (String comma EmptyString) row) (map csvRow entries)).
End Writing.

Section Reading.
(** [String.prototype.trim] *)
Variable trim : string -> string.

(** The loop of [parseCSVLine] from position [i] on: [line] is the rest
    of the line, [result], [current] and [inQuotes] the three variables.
    Only the comma and the double quote are told apart from other
    characters, and neither occurs inside the encoding of another
    character, so reading the line byte by byte gives the same fields. *)
Fixpoint scan (line : string) (result : list string) (current : string)
         (inQuotes : bool) : list string :=
  match line with
  | EmptyString => (result ++ [trim current])%list
  | String char rest =>
      if inQuotes then
        if Ascii.eqb char quote then
          match rest with
          | String nextChar rest' =>
              if Ascii.eqb nextChar quote
              then scan rest' result (current ++ String quote EmptyString) true
              else scan rest result current false
          | EmptyString => scan rest result current false
          end
        else scan rest result (current ++ String char EmptyString) true
      else
        if Ascii.eqb char quote then scan rest result current true
        else if Ascii.eqb char comma
             then scan rest (result ++ [trim current])%list EmptyString false
             else scan rest result (current ++ String char EmptyString) false
  end.

Definition parseCSVLine (line : string) : list string := scan line [] EmptyString false.
End Reading.

(** A field that can be written without quotes: no comma, no double
    quote. *)
Fixpoint plain (s : string) : bool :=
  match s with
  | EmptyString => true
  | String c rest => negb (Ascii.eqb c quote) && negb (Ascii.eqb c comma) && plain rest
  end.

End Csv.

(** ** Opening-balance page ([components/OpeningBalanceSettings.tsx]) *)

Module OpeningBalancePage.

Record Totals := mkTotals {
  debitTotal : Z;
  creditTotal : Z;
  isBalanced : bool
}.

Definition totals (balances : list OpeningBalance.t) : Totals :=
  let '(debitTotal, creditTotal) :=
    fold_left (fun acc balance =>
                 if 0 <? OpeningBalance.amount balance
                 then (fst acc + OpeningBalance.amount balance, snd acc)
                 else (fst acc, snd acc + Z.abs (OpeningBalance.amount balance)))
              balances (0, 0) in
  mkTotals debitTotal creditTotal (debitTotal =? creditTotal).

End OpeningBalancePage.

(** ** Vocabulary of the postings shared by the closing, the cash-flow
    statement and the indicators *)

Module Postings.

(** The direction in which [postEntry] moves the balance of an account
    that is debited: up for an asset, down for a liability or equity
    account, not at all for any other id.  A credit moves it the opposite
    way. *)
Definition side (t : option AccountType) : Z :=
  match t with
  | Some asset => 1
  | Some liability | Some equity => -1
  | _ => 0
  end.

(** The amount of the last opening balance recorded under an id. *)
Definition lastOpening (openingBalances : list OpeningBalance.t) (k : string) : Z :=
  match find (fun ob => String.eqb (OpeningBalance.accountId ob) k)
             (rev openingBalances) with
  | Some ob => OpeningBalance.amount ob
  | None => 0
  end.






End Postings.

(** ** A small set of books over two fiscal years *)

Module Books.

Definition chart : list Account.t :=
  [Scenario.cash; Scenario.capital; Scenario.retained; Scenario.sales;
   Scenario.purchases].

(** Fiscal year 2025: a cash sale and a cash purchase. *)
Definition year2025 : list JournalEntry.t :=
  [Scenario.cashSale; Scenario.cashExpense].

(** The journal in fiscal year 2026, after one more sale. *)
Definition journal2026 : list JournalEntry.t :=
  (year2025 ++ [Scenario.lateSale])%list.

(** A sale whose description holds a comma and a quoted word. *)
Definition remarkSale : JournalEntry.t :=
  Scenario.posting "j-8" "2025-09-01"
                   ("sale, " ++ String Csv.quote ("A" ++ String Csv.quote EmptyString))
                   "acc-101" "acc-401" 1000.

Definition store2025 : OpeningBalanceStore.OpeningBalanceSettings :=
  OpeningBalanceStore.mkSettings "2025-04-01" Scenario.openingB
                                 "2025-04-01T00:00:00.000Z".

Definition store2026 : OpeningBalanceStore.OpeningBalanceSettings :=
  OpeningBalanceStore.handleCarryForward
    store2025
    (YearEndClosing.calculateYearEndClosing year2025 chart Scenario.openingB
                                            "2025-04-01" "2026-03-31")
    "2026-04-01" "2026-04-01T09:00:00.000Z" "2026-04-01T09:00:00.001Z".

End Books.

(** * Properties *)

(** ** Maps, sets, sums and sorting *)

Example includes_examples :
  JS.includes "普通預金" "預金" = true
  /\ JS.includes "現金" "預金" = false
  /\ JS.includes "abc" "" = true
  /\ JS.includes "" "a" = false.
Proof. repeat split. Qed.

Example date_order_examples :
  JS.lt "2025-03-31" "2025-04-01" = true
  /\ JS.lt "2025-04-01" "2025-04-01" = false
  /\ JS.le "2025-04-01" "2025-04-01" = true
  /\ JS.le "2026-01-01" "2025-12-31" = false.
Proof. repeat split. Qed.

(** The sort orders by the comparator and keeps equal keys in place. *)
Example sort_examples :
  JS.sort (fun a b => Scenario.byCode (fst a) (fst b))
          [("30", 1); ("10", 2); ("30", 3); ("20", 4); ("10", 5)]
  = [("10", 2); ("10", 5); ("20", 4); ("30", 1); ("30", 3)].
Proof. reflexivity. Qed.

Example floor_examples :
  (Number.Math_floor 2.5 = 2
   /\ Number.Math_floor (-2.5) = -3
   /\ Number.Math_floor (-2) = -2
   /\ Number.Math_floor 0.5 = 0
   /\ Number.Math_trunc (-2.5) = -2
   /\ Number.Math_trunc 2.5 = 2)%float.
Proof. repeat split. Qed.

Section MapFacts.
Context {V : Type}.
Implicit Types (m : JSMap.t V) (k : string) (v d : V).

Lemma get_set_same m k v : JSMap.get (JSMap.set m k v) k = Some v.
Proof.
  induction m as [|[k' v'] m IH]; simpl.
  - now rewrite String.eqb_refl.
  - destruct (String.eqb k' k) eqn:E; simpl; rewrite E; auto.
Qed.

Lemma get_set_other m k k' v :
  k <> k' -> JSMap.get (JSMap.set m k v) k' = JSMap.get m k'.
Proof.
  intros N. induction m as [|[k0 v0] m IH]; simpl.
  - apply String.eqb_neq in N. now rewrite N.
  - destruct (String.eqb_spec k0 k) as [->|N0]; simpl.
    + destruct (String.eqb_spec k k'); [contradiction|reflexivity].
    + now rewrite IH.
Qed.

Lemma getOr_set_same m k v d : JSMap.getOr (JSMap.set m k v) k d = v.
Proof. unfold JSMap.getOr. now rewrite get_set_same. Qed.

Lemma getOr_set_other m k k' v d :
  k <> k' -> JSMap.getOr (JSMap.set m k v) k' d = JSMap.getOr m k' d.
Proof. intros N. unfold JSMap.getOr. now rewrite get_set_other. Qed.


End MapFacts.

Lemma set_has_iff (s : JSSet.t) (x : string) : JSSet.has s x = true <-> In x s.
Proof.
  unfold JSSet.has. rewrite existsb_exists. split.
  - intros (y & Hy & E). apply String.eqb_eq in E. now subst.
  - intros H. exists x. split; [assumption|apply String.eqb_refl].
Qed.

Lemma set_add_in (s : JSSet.t) (x y : string) :
  In y (JSSet.add s x) <-> In y s \/ y = x.
Proof.
  unfold JSSet.add. destruct (JSSet.has s x) eqn:E.
  - apply set_has_iff in E. split; [auto|]. intros [H| ->]; assumption.
  - rewrite in_app_iff. simpl. intuition.
Qed.

Lemma set_add_nodup (s : JSSet.t) (x : string) : NoDup s -> NoDup (JSSet.add s x).
Proof.
  intros H. unfold JSSet.add. destruct (JSSet.has s x) eqn:E; [assumption|].
  assert (~ In x s) as N.
  { intros Hin. apply set_has_iff in Hin. congruence. }
  clear E. induction H as [|y l Hy Hl IH]; simpl.
  - constructor; [intros []|constructor].
  - constructor.
    + rewrite in_app_iff. simpl. intros [H1|[H1|[]]]; [contradiction|].
      subst. apply N. now left.
    + apply IH. intros H1. apply N. now right.
Qed.

Section SumFacts.
Context {A : Type}.
Implicit Types (f g : A -> Z) (l : list A).


Lemma sumZ_ext f g l : (forall x, In x l -> f x = g x) -> sumZ f l = sumZ g l.
Proof.
  induction l as [|a l IH]; simpl; intros H; [reflexivity|].
  rewrite (H a), IH; auto.
Qed.

Lemma sumZ_plus f g l : sumZ (fun x => f x + g x) l = sumZ f l + sumZ g l.
Proof. induction l; simpl; lia. Qed.

Lemma sumZ_minus f g l : sumZ (fun x => f x - g x) l = sumZ f l - sumZ g l.
Proof. induction l; simpl; lia. Qed.

Lemma sumZ_zero l : sumZ (fun _ => 0) l = 0.
Proof. induction l; simpl; lia. Qed.

Lemma sumZ_all_zero f l : (forall x, In x l -> f x = 0) -> sumZ f l = 0.
Proof. intros H. rewrite <- (sumZ_zero l). now apply sumZ_ext. Qed.

Lemma sumZ_perm f l l' : Permutation l l' -> sumZ f l = sumZ f l'.
Proof. induction 1; simpl; lia. Qed.

End SumFacts.

Lemma sumZ_map {A B : Type} (f : B -> Z) (g : A -> B) (l : list A) :
  sumZ f (map g l) = sumZ (fun x => f (g x)) l.
Proof. induction l; simpl; congruence. Qed.


(** Over distinct keys, exactly one key can match [x]. *)
Lemma sumZ_indicator (K : list string) (x : string) (v : Z) :
  NoDup K ->
  sumZ (fun k => if String.eqb x k then v else 0) K = if JSSet.has K x then v else 0.
Proof.
  induction 1 as [|k K Hk HK IH]; simpl; [reflexivity|].
  unfold JSSet.has in *. simpl. rewrite IH.
  destruct (String.eqb_spec x k) as [->|N]; simpl; [|reflexivity].
  destruct (existsb (String.eqb k) K) eqn:E; [|lia].
  exfalso. apply Hk. now apply set_has_iff.
Qed.

(** Exchange of the sum over keys with the sum over postings. *)
Lemma sumZ_exchange {A : Type} (key : A -> string) (f : A -> Z)
      (K : list string) (l : list A) :
  NoDup K ->
  sumZ (fun k => sumZ (fun x => if String.eqb (key x) k then f x else 0) l) K
  = sumZ (fun x => if JSSet.has K (key x) then f x else 0) l.
Proof.
  intros HK. induction l as [|a l IH]; simpl.
  - apply sumZ_zero.
  - rewrite sumZ_plus, IH. f_equal. now apply sumZ_indicator.
Qed.

Section SortFacts.
Context {A : Type} (cmp : A -> A -> Z).

Lemma insert_perm (x : A) (l : list A) : Permutation (JS.insert cmp x l) (x :: l).
Proof.
  induction l as [|y l IH]; simpl; [reflexivity|].
  destruct (0 <? cmp x y); [|reflexivity].
  rewrite IH. apply perm_swap.
Qed.

Lemma sort_perm (l : list A) : Permutation (JS.sort cmp l) l.
Proof.
  induction l as [|x l IH]; simpl; [reflexivity|].
  rewrite insert_perm. now constructor.
Qed.
End SortFacts.

(** ** The totals map of the trial balance *)

Section TotalsFacts.
Import TrialBalance Ledger.
Implicit Types (m : JSMap.t Totals) (k : string).

Ltac by_key a b :=
  destruct (String.eqb_spec a b) as [->|?];
  rewrite ?getOr_set_same, ?getOr_set_other by congruence; simpl.

Lemma applyEntry_debitOf m e k :
  debitOf (applyEntry m e) k
  = debitOf m k + (if String.eqb (JournalEntry.debitAccountId e) k
                   then JournalEntry.amount e else 0).
Proof.
  unfold applyEntry, debitOf.
  generalize (JournalEntry.debitAccountId e) (JournalEntry.creditAccountId e).
  intros d c. by_key c k; by_key d k; lia.
Qed.

Lemma applyEntry_creditOf m e k :
  creditOf (applyEntry m e) k
  = creditOf m k + (if String.eqb (JournalEntry.creditAccountId e) k
                    then JournalEntry.amount e else 0).
Proof.
  unfold applyEntry, creditOf.
  generalize (JournalEntry.debitAccountId e) (JournalEntry.creditAccountId e).
  intros d c. by_key c k; by_key d k; lia.
Qed.

Lemma applyOpening_debitOf m ob k :
  debitOf (applyOpening m ob) k
  = debitOf m k + (if String.eqb (OpeningBalance.accountId ob) k
                   then (if 0 <? OpeningBalance.amount ob
                         then OpeningBalance.amount ob else 0)
                   else 0).
Proof.
  unfold applyOpening, debitOf.
  generalize (OpeningBalance.accountId ob). intros c. by_key c k;
    destruct (0 <? OpeningBalance.amount ob); simpl; lia.
Qed.

Lemma applyOpening_creditOf m ob k :
  creditOf (applyOpening m ob) k
  = creditOf m k + (if String.eqb (OpeningBalance.accountId ob) k
                    then (if 0 <? OpeningBalance.amount ob
                          then 0 else Z.abs (OpeningBalance.amount ob))
                    else 0).
Proof.
  unfold applyOpening, creditOf.
  generalize (OpeningBalance.accountId ob). intros c. by_key c k;
    destruct (0 <? OpeningBalance.amount ob); simpl; lia.
Qed.

Lemma entries_debitOf l m k :
  debitOf (fold_left applyEntry l m) k = debitOf m k + postedDebit l k.
Proof.
  revert m. induction l as [|e l IH]; intros m; simpl.
  - unfold postedDebit. simpl. lia.
  - rewrite IH, applyEntry_debitOf. unfold postedDebit. simpl. lia.
Qed.

Lemma entries_creditOf l m k :
  creditOf (fold_left applyEntry l m) k = creditOf m k + postedCredit l k.
Proof.
  revert m. induction l as [|e l IH]; intros m; simpl.
  - unfold postedCredit. simpl. lia.
  - rewrite IH, applyEntry_creditOf. unfold postedCredit. simpl. lia.
Qed.

Lemma openings_debitOf l m k :
  debitOf (fold_left applyOpening l m) k = debitOf m k + openingDebit l k.
Proof.
  revert m. induction l as [|ob l IH]; intros m; simpl.
  - unfold openingDebit. simpl. lia.
  - rewrite IH, applyOpening_debitOf. unfold openingDebit. simpl. lia.
Qed.

Lemma openings_creditOf l m k :
  creditOf (fold_left applyOpening l m) k = creditOf m k + openingCredit l k.
Proof.
  revert m. induction l as [|ob l IH]; intros m; simpl.
  - unfold openingCredit. simpl. lia.
  - rewrite IH, applyOpening_creditOf. unfold openingCredit. simpl. lia.
Qed.

(** What the finished map holds for an id. *)
Lemma accountTotals_debitOf filtered include balances k :
  debitOf (accountTotals filtered include balances) k
  = (if include then openingDebit balances k else 0) + postedDebit filtered k.
Proof.
  unfold accountTotals. rewrite entries_debitOf.
  destruct include; [rewrite openings_debitOf|]; reflexivity.
Qed.

Lemma accountTotals_creditOf filtered include balances k :
  creditOf (accountTotals filtered include balances) k
  = (if include then openingCredit balances k else 0) + postedCredit filtered k.
Proof.
  unfold accountTotals. rewrite entries_creditOf.
  destruct include; [rewrite openings_creditOf|]; reflexivity.
Qed.




End TotalsFacts.

(** ** Missing account ids *)

Section MissingFacts.
Import TrialBalance Ledger.

Lemma missingStep_in ids s e x :
  In x (missingStep ids s e) <->
  In x s
  \/ (x = JournalEntry.debitAccountId e /\ ~ In x ids)
  \/ (x = JournalEntry.creditAccountId e /\ ~ In x ids).
Proof.
  unfold missingStep.
  destruct (JSSet.has ids (JournalEntry.debitAccountId e)) eqn:D;
    destruct (JSSet.has ids (JournalEntry.creditAccountId e)) eqn:C; simpl;
    rewrite ?set_add_in;
    try (apply set_has_iff in D); try (apply set_has_iff in C);
    try (assert (~ In (JournalEntry.debitAccountId e) ids)
          by (rewrite <- set_has_iff; congruence));
    try (assert (~ In (JournalEntry.creditAccountId e) ids)
          by (rewrite <- set_has_iff; congruence));
    intuition (subst; auto; try contradiction).
Qed.

Lemma missingStep_nodup ids s e : NoDup s -> NoDup (missingStep ids s e).
Proof.
  intros H. unfold missingStep.
  destruct (negb (JSSet.has ids (JournalEntry.debitAccountId e)));
    destruct (negb (JSSet.has ids (JournalEntry.creditAccountId e)));
    auto using set_add_nodup.
Qed.

Lemma missing_fold_in ids l s x :
  In x (fold_left (missingStep ids) l s) <->
  In x s
  \/ (~ In x ids /\ exists e, In e l /\
        (x = JournalEntry.debitAccountId e \/ x = JournalEntry.creditAccountId e)).
Proof.
  revert s. induction l as [|e l IH]; intros s; simpl.
  - split; [auto|]. intros [H|(_ & e & [] & _)]. assumption.
  - rewrite IH, missingStep_in. split.
    + intros [[H|[[-> N]|[-> N]]]|(N & e' & He' & H)]; auto.
      * right. split; [assumption|]. exists e. auto.
      * right. split; [assumption|]. exists e. auto.
      * right. split; [assumption|]. exists e'. auto.
    + intros [H|(N & e' & [->|He'] & H)]; auto.
      * left. destruct H as [->| ->]; auto.
      * right. split; [assumption|]. exists e'. auto.
Qed.

Lemma missing_fold_nodup ids l s : NoDup s -> NoDup (fold_left (missingStep ids) l s).
Proof.
  revert s. induction l as [|e l IH]; intros s H; simpl; [assumption|].
  now apply IH, missingStep_nodup.
Qed.

(** The flagged ids are exactly the ids named by an entry and absent from
    the chart of accounts. *)
Lemma missingAccountIds_in accounts filtered x :
  In x (missingAccountIds accounts filtered) <->
  ~ In x (map Account.id accounts)
  /\ exists e, In e filtered /\
       (x = JournalEntry.debitAccountId e \/ x = JournalEntry.creditAccountId e).
Proof.
  unfold missingAccountIds. rewrite missing_fold_in. simpl. intuition.
Qed.

Lemma missingAccountIds_nodup accounts filtered :
  NoDup (missingAccountIds accounts filtered).
Proof.
  unfold missingAccountIds. apply missing_fold_nodup. constructor.
Qed.

Lemma rowIds_nodup accounts filtered :
  NoDup (map Account.id accounts) -> NoDup (rowIds accounts filtered).
Proof.
  intros H. unfold rowIds.
  apply NoDup_app; [assumption|apply missingAccountIds_nodup|].
  intros x Hx Hm. apply missingAccountIds_in in Hm. now destruct Hm.
Qed.

Lemma rowIds_sides accounts filtered e :
  In e filtered ->
  JSSet.has (rowIds accounts filtered) (JournalEntry.debitAccountId e) = true
  /\ JSSet.has (rowIds accounts filtered) (JournalEntry.creditAccountId e) = true.
Proof.
  intros He. unfold rowIds. rewrite !set_has_iff, !in_app_iff.
  split.
  - destruct (in_dec String.string_dec (JournalEntry.debitAccountId e)
                     (map Account.id accounts)) as [H|H]; [now left|right].
    apply missingAccountIds_in. split; [assumption|]. exists e. auto.
  - destruct (in_dec String.string_dec (JournalEntry.creditAccountId e)
                     (map Account.id accounts)) as [H|H]; [now left|right].
    apply missingAccountIds_in. split; [assumption|]. exists e. auto.
Qed.
End MissingFacts.

(** ** Column sums of the trial balance *)

Section ColumnFacts.
Import TrialBalance Ledger.
Variable localeCompare : string -> string -> Z.


Lemma setBalances_totals row :
  accountId (setBalances row) = accountId row
  /\ code (setBalances row) = code row
  /\ type (setBalances row) = type row
  /\ debitTotal (setBalances row) = debitTotal row
  /\ creditTotal (setBalances row) = creditTotal row.
Proof. unfold setBalances. destruct (_ || _); simpl; auto. Qed.

(** The two balance columns split the net balance of the row. *)
Lemma setBalances_net row :
  debitBalance (setBalances row) - creditBalance (setBalances row)
  = debitTotal row - creditTotal row.
Proof.
  unfold setBalances. destruct (_ || _); simpl.
  - destruct (Z.leb_spec 0 (debitTotal row - creditTotal row));
      destruct (Z.ltb_spec (debitTotal row - creditTotal row) 0); lia.
  - destruct (Z.ltb_spec 0 (debitTotal row - creditTotal row));
      destruct (Z.leb_spec (debitTotal row - creditTotal row) 0); lia.
Qed.








(** Every row shows the totals the map holds for its id. *)
Lemma balanceData_row filtered accounts include balances row :
  In row (balanceData localeCompare filtered accounts include balances) ->
  debitTotal row = debitOf (accountTotals filtered include balances) (accountId row)
  /\ creditTotal row = creditOf (accountTotals filtered include balances) (accountId row).
Proof.
  unfold balanceData. intros H. apply in_map_iff in H. destruct H as (r0 & <- & H).
  apply (Permutation_in _ (sort_perm _ _)) in H.
  destruct (setBalances_totals r0) as (-> & _ & _ & -> & ->).
  unfold unsortedRows in H. apply in_app_or in H.
  destruct H as [H|H]; apply in_flat_map in H; destruct H as (x & _ & H).
  - unfold debitOf, creditOf, JSMap.getOr.
    destruct (JSMap.get _ (Account.id x)) as [t|] eqn:G; [|destruct H].
    destruct H as [<-|[]]. simpl. now rewrite G.
  - unfold debitOf, creditOf, JSMap.getOr.
    destruct (JSMap.get _ x) as [t|] eqn:G; [|destruct H].
    destruct H as [<-|[]]. simpl. now rewrite G.
Qed.
End ColumnFacts.

(** ** Trial balance: double-entry closure *)

Section TrialBalanceClaims.
Import TrialBalance Ledger.





(** Scenario A: cash 1000 in the debit balance column, sales 1000 in the
    credit balance column, balanced. *)
Example scenario_A :
  let rows := report Scenario.byCode [Scenario.cashSale]
                     [Scenario.cash; Scenario.sales] "" "" true [] in
  map (fun r => (name r, debitBalance r, creditBalance r)) rows
  = [("現金", 1000, 0); ("売上", 0, 1000)]
  /\ isBalanced rows = true.
Proof. split; reflexivity. Qed.

(** The ids of the chart have to be distinct: an id listed twice gets two
    rows with the same totals, and the columns no longer agree. *)
Remark duplicate_id_counted_twice :
  let rows := report Scenario.byCode [Scenario.cashSale]
                     [Scenario.cash; Scenario.cash; Scenario.sales] "" "" false [] in
  sumDebitTotal (totals rows) = 2000 /\ sumCreditTotal (totals rows) = 1000.
Proof. split; reflexivity. Qed.



End TrialBalanceClaims.

(** ** Balance sheet *)

Section BalanceSheetClaims.
Import FinancialStatements.
Variable localeCompare : string -> string -> Z.








Lemma statement_entry m e k :
  JSMap.getOr (applyEntry m e) k 0
  = JSMap.getOr m k 0
    + (if String.eqb (JournalEntry.debitAccountId e) k then JournalEntry.amount e else 0)
    - (if String.eqb (JournalEntry.creditAccountId e) k then JournalEntry.amount e else 0).
Proof.
  unfold applyEntry.
  generalize (JournalEntry.debitAccountId e) (JournalEntry.creditAccountId e).
  intros d c.
  destruct (String.eqb_spec c k) as [->|?];
    rewrite ?getOr_set_same, ?getOr_set_other by congruence;
    destruct (String.eqb_spec d k) as [->|?];
    rewrite ?getOr_set_same, ?getOr_set_other by congruence; lia.
Qed.

Lemma statement_entries l m k :
  JSMap.getOr (fold_left applyEntry l m) k 0
  = JSMap.getOr m k 0 + Ledger.postedDebit l k - Ledger.postedCredit l k.
Proof.
  revert m. induction l as [|e l IH]; intros m; simpl.
  - unfold Ledger.postedDebit, Ledger.postedCredit. simpl. lia.
  - rewrite IH, statement_entry. unfold Ledger.postedDebit, Ledger.postedCredit.
    simpl. lia.
Qed.

Lemma statement_openings accounts l m k :
  JSMap.getOr (fold_left (applyOpening accounts) l m) k 0
  = JSMap.getOr m k 0
    + sumZ (fun ob => if String.eqb (OpeningBalance.accountId ob) k
                      then (if openingApplies accounts ob
                            then OpeningBalance.amount ob else 0)
                      else 0) l.
Proof.
  revert m. induction l as [|ob l IH]; intros m; simpl; [lia|].
  rewrite IH. unfold applyOpening, openingApplies.
  destruct (findAccount accounts (OpeningBalance.accountId ob)) as [a|].
  - destruct (isBalanceSheetType (Account.type a)).
    + destruct (String.eqb_spec (OpeningBalance.accountId ob) k) as [->|?];
        rewrite ?getOr_set_same, ?getOr_set_other by congruence; lia.
    + destruct (String.eqb (OpeningBalance.accountId ob) k); lia.
  - destruct (String.eqb (OpeningBalance.accountId ob) k); lia.
Qed.

Lemma findAccount_in accounts k a : findAccount accounts k = Some a -> In k (map Account.id accounts).
Proof.
  unfold findAccount. intros H. apply find_some in H. destruct H as [H E].
  apply String.eqb_eq in E. subst k. now apply in_map.
Qed.

(** Inputs for which the ledger is closed over the chart of accounts:
    distinct ids, entries between accounts of the chart, and applied
    opening balances that sum to 0 (or none included). *)
Lemma closure_from_inputs filtered accounts include openingBalances :
  NoDup (map Account.id accounts) ->
  (forall e, In e filtered ->
             In (JournalEntry.debitAccountId e) (map Account.id accounts)
             /\ In (JournalEntry.creditAccountId e) (map Account.id accounts)) ->
  (include = true ->
   sumZ (fun ob => if openingApplies accounts ob then OpeningBalance.amount ob else 0)
        openingBalances = 0) ->
  sumZ (rawBalance (rawBalances filtered accounts include openingBalances)) accounts = 0.
Proof.
  intros Hids Hknown Hopen.
  transitivity (sumZ (fun k => JSMap.getOr (rawBalances filtered accounts include
                                                        openingBalances) k 0)
                     (map Account.id accounts)).
  { rewrite sumZ_map. reflexivity. }
  unfold rawBalances.
  rewrite (sumZ_ext _ _ _ (fun k _ => statement_entries filtered _ k)).
  rewrite sumZ_minus, sumZ_plus.
  unfold Ledger.postedDebit, Ledger.postedCredit.
  rewrite !sumZ_exchange by assumption.
  assert (sumZ (fun x => if JSSet.has (map Account.id accounts) (JournalEntry.debitAccountId x)
                         then JournalEntry.amount x else 0) filtered
          = sumZ JournalEntry.amount filtered) as ->.
  { apply sumZ_ext. intros e He. destruct (Hknown e He) as [D _].
    apply set_has_iff in D. now rewrite D. }
  assert (sumZ (fun x => if JSSet.has (map Account.id accounts) (JournalEntry.creditAccountId x)
                         then JournalEntry.amount x else 0) filtered
          = sumZ JournalEntry.amount filtered) as ->.
  { apply sumZ_ext. intros e He. destruct (Hknown e He) as [_ C].
    apply set_has_iff in C. now rewrite C. }
  destruct include.
  - rewrite (sumZ_ext _ _ _ (fun k _ => statement_openings accounts openingBalances _ k)).
    rewrite sumZ_plus, sumZ_zero.
    rewrite (sumZ_exchange OpeningBalance.accountId
               (fun ob => if openingApplies accounts ob
                          then OpeningBalance.amount ob else 0)) by assumption.
    specialize (Hopen eq_refl).
    assert (sumZ (fun x => if JSSet.has (map Account.id accounts) (OpeningBalance.accountId x)
                           then (if openingApplies accounts x
                                 then OpeningBalance.amount x else 0)
                           else 0) openingBalances
            = sumZ (fun ob => if openingApplies accounts ob
                              then OpeningBalance.amount ob else 0) openingBalances) as ->.
    { apply sumZ_ext. intros ob _. unfold openingApplies.
      destruct (findAccount accounts (OpeningBalance.accountId ob)) as [a|] eqn:F.
      - apply findAccount_in, set_has_iff in F. now rewrite F.
      - now destruct (JSSet.has _ _). }
    lia.
  - rewrite sumZ_zero. lia.
Qed.


End BalanceSheetClaims.

Section BalanceSheetScenario.
Import FinancialStatements.

End BalanceSheetScenario.

(** ** Cash-flow statement *)

Section CashFlowClaims.
Import CashFlow.

Lemma accountStep_cash accounts B E c a :
  beginningCash_ (accountStep accounts B E c a)
  = beginningCash_ c
    + (if isCashAccount accounts (Account.id a)
       then JSMap.getOr B (Account.id a) 0 else 0)
  /\ endingCash_ (accountStep accounts B E c a)
     = endingCash_ c
       + (if isCashAccount accounts (Account.id a)
          then JSMap.getOr E (Account.id a) 0 else 0).
Proof.
  unfold accountStep. destruct c as [rc ic pc fc bc cc oca ocl bcash ecash].
  repeat match goal with
         | |- context [if ?b then _ else _] => destruct b
         end; simpl; split; lia.
Qed.

Lemma accounts_cash accounts B E l c :
  beginningCash_ (fold_left (accountStep accounts B E) l c)
  = beginningCash_ c
    + sumZ (fun a => if isCashAccount accounts (Account.id a)
                     then JSMap.getOr B (Account.id a) 0 else 0) l
  /\ endingCash_ (fold_left (accountStep accounts B E) l c)
     = endingCash_ c
       + sumZ (fun a => if isCashAccount accounts (Account.id a)
                        then JSMap.getOr E (Account.id a) 0 else 0) l.
Proof.
  revert c. induction l as [|a l IH]; intros c; simpl; [split; lia|].
  destruct (IH (accountStep accounts B E c a)) as [-> ->].
  destruct (accountStep_cash accounts B E c a) as [-> ->]. split; lia.
Qed.


(** Scenario E: entries that touch only cash, revenue and expense
    accounts.  The operating subtotal is the net profit, nothing is
    invested or financed, and the total cash flow is the net profit. *)
Example scenario_E :
  let cf := calculateCashFlow [Scenario.cashSale; Scenario.cashExpense]
              [Scenario.cash; Scenario.sales; Scenario.purchases] [] in
  netProfit (operating cf) = 800
  /\ op_subtotal (operating cf) = 800
  /\ inv_subtotal (investing cf) = 0
  /\ fin_subtotal (financing cf) = 0
  /\ totalCashFlow cf = 800.
Proof. repeat split. Qed.
End CashFlowClaims.

(** ** Year-end closing *)

Section ClosingClaims.
Import YearEndClosing Closing.

Lemma entryStep_totals accounts st e :
  totalRevenue (entryStep accounts st e) = totalRevenue st + revenueEffect accounts e
  /\ totalExpense (entryStep accounts st e) = totalExpense st + expenseEffect accounts e.
Proof.
  unfold entryStep, revenueEffect, expenseEffect. simpl.
  repeat match goal with
         | |- context [if ?b then _ else _] => destruct b
         end; split; lia.
Qed.

Lemma entries_totals accounts l st :
  totalRevenue (fold_left (entryStep accounts) l st)
  = totalRevenue st + sumZ (revenueEffect accounts) l
  /\ totalExpense (fold_left (entryStep accounts) l st)
     = totalExpense st + sumZ (expenseEffect accounts) l.
Proof.
  revert st. induction l as [|e l IH]; intros st; simpl; [split; lia|].
  destruct (IH (entryStep accounts st e)) as [-> ->].
  destruct (entryStep_totals accounts st e) as [-> ->]. split; lia.
Qed.

Lemma filter_idem {A : Type} (p : A -> bool) (l : list A) :
  filter p (filter p l) = filter p l.
Proof.
  induction l as [|a l IH]; simpl; [reflexivity|].
  destruct (p a) eqn:E; simpl; rewrite ?E, IH; reflexivity.
Qed.

Lemma flat_map_filter {A B : Type} (p : A -> bool) (f : A -> B) (l : list A) :
  flat_map (fun a => if p a then [f a] else []) l = map f (filter p l).
Proof.
  induction l as [|a l IH]; simpl; [reflexivity|].
  destruct (p a); simpl; now rewrite IH.
Qed.

Lemma closing_result entries accounts openingBalances fiscalYearStart fiscalYearEnd :
  let st := aggregate entries accounts openingBalances fiscalYearStart fiscalYearEnd in
  let np := totalRevenue st - totalExpense st in
  calculateYearEndClosing entries accounts openingBalances fiscalYearStart fiscalYearEnd
  = mkResult
      (flat_map (closingRow (snd (transferProfit accounts (balances st) np fiscalYearEnd)))
                accounts)
      np
      (fst (transferProfit accounts (balances st) np fiscalYearEnd))
      (flat_map (carryForwardRow
                   (snd (transferProfit accounts (balances st) np fiscalYearEnd)))
                accounts).
Proof.
  intros st np. unfold calculateYearEndClosing. fold st. fold np.
  destruct (transferProfit accounts (balances st) np fiscalYearEnd). reflexivity.
Qed.

Lemma find_label accounts :
  (forall re, findRetainedEarningsAccount accounts = Some re ->
              In re accounts /\ In (Account.name re) retainedEarningsLabels)
  /\ (findRetainedEarningsAccount accounts = None ->
      forall a, In a accounts -> ~ In (Account.name a) retainedEarningsLabels).
Proof.
  assert (forall n, isRetainedEarningsName n = true <-> In n retainedEarningsLabels) as L.
  { intros n. unfold isRetainedEarningsName, retainedEarningsLabels. simpl.
    rewrite !orb_true_iff, !String.eqb_eq. intuition. }
  unfold findRetainedEarningsAccount. split.
  - intros re H. apply find_some in H. destruct H as [H1 H2].
    split; [assumption|now apply L].
  - intros H a Ha Hl. apply L in Hl.
    pose proof (find_none _ _ H a Ha) as N. simpl in N. congruence.
Qed.

(** The transfer changes the balance of the retained-earnings account by
    the negated profit and no other balance. *)
Lemma transferProfit_balance accounts m np fiscalYearEnd k :
  JSMap.getOr (snd (transferProfit accounts m np fiscalYearEnd)) k 0
  = match findRetainedEarningsAccount accounts with
    | Some re => if String.eqb (Account.id re) k
                 then JSMap.getOr m k 0 - np else JSMap.getOr m k 0
    | None => JSMap.getOr m k 0
    end.
Proof.
  unfold transferProfit.
  destruct (findRetainedEarningsAccount accounts) as [re|]; [|reflexivity].
  destruct (Z.eqb_spec np 0) as [->|N]; simpl.
  - destruct (String.eqb (Account.id re) k); lia.
  - destruct (String.eqb_spec (Account.id re) k) as [<-|N'].
    + now rewrite getOr_set_same.
    + now rewrite getOr_set_other.
Qed.

(** Both lists are drawn from the balances after the transfer, with the
    same filter and the same signed amount. *)
Lemma closing_lists entries accounts openingBalances fiscalYearStart fiscalYearEnd :
  let r := calculateYearEndClosing entries accounts openingBalances
                                   fiscalYearStart fiscalYearEnd in
  let after := endingBalance entries accounts openingBalances
                             fiscalYearStart fiscalYearEnd in
  closingBalances r
  = map (fun a => mkClosingBalance (Account.id a) (Account.name a) (Account.type a)
                                   (after (Account.id a)))
        (filter (carried after) accounts)
  /\ carryForwardBalances r
     = map (fun a => OpeningBalance.mk (Account.id a) (after (Account.id a)))
           (filter (carried after) accounts).
Proof.
  intros r after. unfold r. rewrite closing_result. simpl.
  split; rewrite <- flat_map_filter; apply flat_map_ext; intros a;
    unfold closingRow, carryForwardRow, carried, after, endingBalance;
    destruct (isBalanceSheetAccount (Account.type a)); simpl; try reflexivity;
    destruct (negb _); reflexivity.
Qed.

(** C5: the closing only reads the entries dated inside the fiscal year;
    its net profit is the revenue total minus the expense total, a debit
    to a revenue account and a credit to an expense account counting
    negatively; the retained-earnings account is the first account whose
    name is one of the three accepted labels; when there is one, its
    balance - and no other - is lowered by the net profit before the
    closing and carry-forward lists are drawn up; when there is none, no
    closing entry is made and the lists are drawn from the unchanged
    balances. *)
Theorem year_end_closing_profit
        (entries : list JournalEntry.t) (accounts : list Account.t)
        (openingBalances : list OpeningBalance.t)
        (fiscalYearStart fiscalYearEnd : string) :
  let period := filter (inPeriod fiscalYearStart fiscalYearEnd) entries in
  let r := calculateYearEndClosing entries accounts openingBalances
                                   fiscalYearStart fiscalYearEnd in
  let before := aggregatedBalance entries accounts openingBalances
                                  fiscalYearStart fiscalYearEnd in
  let after := endingBalance entries accounts openingBalances
                             fiscalYearStart fiscalYearEnd in
  r = calculateYearEndClosing period accounts openingBalances
                              fiscalYearStart fiscalYearEnd
  /\ netProfit r
     = sumZ (revenueEffect accounts) period - sumZ (expenseEffect accounts) period
  /\ closingBalances r
     = map (fun a => mkClosingBalance (Account.id a) (Account.name a) (Account.type a)
                                      (after (Account.id a)))
           (filter (carried after) accounts)
  /\ carryForwardBalances r
     = map (fun a => OpeningBalance.mk (Account.id a) (after (Account.id a)))
           (filter (carried after) accounts)
  /\ (forall re, findRetainedEarningsAccount accounts = Some re ->
                 In re accounts
                 /\ In (Account.name re) retainedEarningsLabels
                 /\ after (Account.id re) = before (Account.id re) - netProfit r
                 /\ forall k, k <> Account.id re -> after k = before k)
  /\ (findRetainedEarningsAccount accounts = None ->
      (forall a, In a accounts -> ~ In (Account.name a) retainedEarningsLabels)
      /\ closingEntry r = None
      /\ forall k, after k = before k).
Proof.
  intros period r before after.
  assert (r = calculateYearEndClosing period accounts openingBalances
                                      fiscalYearStart fiscalYearEnd) as Hperiod.
  { unfold r, period, calculateYearEndClosing, aggregate. now rewrite filter_idem. }
  split; [exact Hperiod|].
  pose proof (closing_lists entries accounts openingBalances fiscalYearStart fiscalYearEnd)
    as [Hc Hf].
  pose proof (closing_result entries accounts openingBalances fiscalYearStart fiscalYearEnd)
    as Hr.
  cbv zeta in Hr. fold r in Hr.
  set (st := aggregate entries accounts openingBalances fiscalYearStart fiscalYearEnd) in *.
  set (np := totalRevenue st - totalExpense st) in *.
  assert (netProfit r = np) as Hn by (rewrite Hr; reflexivity).
  assert (closingEntry r = fst (transferProfit accounts (balances st) np fiscalYearEnd))
    as He by (rewrite Hr; reflexivity).
  assert (np = sumZ (revenueEffect accounts) period - sumZ (expenseEffect accounts) period)
    as Hnp.
  { unfold np, st, aggregate. fold period.
    destruct (entries_totals accounts period
                (mkClosing (fold_left setOpening openingBalances JSMap.empty) 0 0))
      as [-> ->]. simpl. lia. }
  assert (forall k, after k
                    = JSMap.getOr (snd (transferProfit accounts (balances st) np
                                                       fiscalYearEnd)) k 0) as Hafter
      by reflexivity.
  rewrite Hn.
  split; [exact Hnp|]. split; [exact Hc|]. split; [exact Hf|]. split.
  - intros re Hre. destruct (find_label accounts) as [L _].
    destruct (L re Hre) as [Hin Hlab]. repeat split; try assumption.
    + rewrite Hafter, transferProfit_balance, Hre, String.eqb_refl. reflexivity.
    + intros k Hk. rewrite Hafter, transferProfit_balance, Hre.
      destruct (String.eqb_spec (Account.id re) k); [congruence|reflexivity].
  - intros Hnone. destruct (find_label accounts) as [_ L].
    split; [now apply L|]. split.
    + rewrite He. unfold transferProfit. now rewrite Hnone.
    + intros k. rewrite Hafter, transferProfit_balance, Hnone. reflexivity.
Qed.

(** One sale inside the year and one after it, with a retained-earnings
    account: the profit of 1000 lowers its balance from 0 to -1000. *)
Lemma year_end_closing_profit_witness :
  let accounts := [Scenario.cash; Scenario.retained; Scenario.sales] in
  let entries := [Scenario.cashSale; Scenario.lateSale] in
  let r := calculateYearEndClosing entries accounts [] "2025-04-01" "2026-03-31" in
  netProfit r = 1000
  /\ carryForwardBalances r
     = [OpeningBalance.mk "acc-101" 1000; OpeningBalance.mk "acc-310" (-1000)]
  /\ endingBalance entries accounts [] "2025-04-01" "2026-03-31" "acc-310"
     = aggregatedBalance entries accounts [] "2025-04-01" "2026-03-31" "acc-310"
       - netProfit r.
Proof.
  split; [reflexivity|]. split; [reflexivity|].
  destruct (year_end_closing_profit
              [Scenario.cashSale; Scenario.lateSale]
              [Scenario.cash; Scenario.retained; Scenario.sales] []
              "2025-04-01" "2026-03-31") as (_ & _ & _ & _ & H & _).
  destruct (H Scenario.retained eq_refl) as (_ & _ & E & _). exact E.
Defined.

(** Keeping part of a chart of accounts keeps its ids distinct. *)
Lemma kept_ids_distinct (keep : Account.t -> bool) (chart : list Account.t) :
  NoDup (map Account.id chart) -> NoDup (map Account.id (filter keep chart)).
Proof.
  intros H. induction chart as [|a chart IH]; simpl; [constructor|].
  simpl in H. apply NoDup_cons_iff in H. destruct H as [Ha Hrest].
  destruct (keep a); simpl; [|now apply IH].
  constructor; [|now apply IH].
  rewrite in_map_iff. intros (b & E & Hb).
  apply filter_In in Hb. apply Ha. rewrite <- E. apply in_map. tauto.
Qed.

(** In a chart with distinct ids an id names one account. *)
Lemma same_id_same_account (chart : list Account.t) (a b : Account.t) :
  NoDup (map Account.id chart) -> In a chart -> In b chart ->
  Account.id a = Account.id b -> a = b.
Proof.
  intros H. induction chart as [|x chart IH]; simpl; intros Ha Hb E; [destruct Ha|].
  simpl in H. apply NoDup_cons_iff in H. destruct H as [Hx Hrest].
  destruct Ha as [->|Ha], Hb as [->|Hb]; auto.
  - exfalso. apply Hx. rewrite E. now apply in_map.
  - exfalso. apply Hx. rewrite <- E. now apply in_map.
Qed.

(** C6, as stated, fails: the closing balances are not sign-flipped.  An
    equity account opened at -500 (a credit balance of 500) is reported
    with balance -500, the very amount that is carried forward. *)
Lemma closing_display_counterexample :
  ~ displayAdjusted
      (calculateYearEndClosing [] [Scenario.capital]
                               [OpeningBalance.mk "acc-301" (-500)]
                               "2025-04-01" "2026-03-31").
Proof.
  intros H.
  specialize (H (mkClosingBalance "acc-301" "資本金" equity (-500))
                (OpeningBalance.mk "acc-301" (-500))).
  vm_compute in H.
  specialize (H (or_introl eq_refl) (or_introl eq_refl) eq_refl). discriminate H.
Qed.

(** C6 (amended): the closing balances and the carry-forward balances
    hold the same signed amount per account, the balance after the profit
    transfer, with no flip by account type; the carry-forward list is in
    opening-balance format and has, in the order of the chart, exactly
    one record for each asset, liability or equity account whose ending
    balance is not 0; and with distinct account ids no id occurs twice
    and no revenue or expense account occurs at all. *)
Theorem carry_forward_records
        (entries : list JournalEntry.t) (accounts : list Account.t)
        (openingBalances : list OpeningBalance.t)
        (fiscalYearStart fiscalYearEnd : string) :
  let r := calculateYearEndClosing entries accounts openingBalances
                                   fiscalYearStart fiscalYearEnd in
  let ending := endingBalance entries accounts openingBalances
                              fiscalYearStart fiscalYearEnd in
  carryForwardBalances r
  = map (fun a => OpeningBalance.mk (Account.id a) (ending (Account.id a)))
        (filter (carried ending) accounts)
  /\ map (fun cb => OpeningBalance.mk (accountId cb) (balance cb)) (closingBalances r)
     = carryForwardBalances r
  /\ (forall ob, In ob (carryForwardBalances r) ->
                 OpeningBalance.amount ob <> 0
                 /\ exists a, In a accounts
                              /\ Account.id a = OpeningBalance.accountId ob
                              /\ isBalanceSheetAccount (Account.type a) = true)
  /\ (NoDup (map Account.id accounts) ->
      NoDup (map OpeningBalance.accountId (carryForwardBalances r))
      /\ forall a, In a accounts ->
                   Account.type a = revenue \/ Account.type a = expense ->
                   ~ In (Account.id a)
                        (map OpeningBalance.accountId (carryForwardBalances r))).
Proof.
  intros r ending.
  destruct (closing_lists entries accounts openingBalances fiscalYearStart fiscalYearEnd)
    as [Hc Hf].
  fold r in Hc, Hf. fold ending in Hc, Hf.
  split; [exact Hf|]. rewrite Hc, Hf. split; [|split].
  - rewrite map_map. reflexivity.
  - intros ob Hob. apply in_map_iff in Hob. destruct Hob as (a & <- & Ha).
    apply filter_In in Ha. destruct Ha as [Ha Hcar]. unfold carried in Hcar.
    apply andb_true_iff in Hcar. destruct Hcar as [Hbs Hnz]. simpl. split.
    + apply negb_true_iff, Z.eqb_neq in Hnz. exact Hnz.
    + exists a. auto.
  - intros Hids. rewrite map_map. simpl. split.
    + now apply kept_ids_distinct.
    + intros a Ha Htype Hin. apply in_map_iff in Hin.
      destruct Hin as (b & E & Hb). apply filter_In in Hb. destruct Hb as [Hb Hcar].
      assert (b = a) as -> by (eapply same_id_same_account; eauto).
      unfold carried in Hcar. apply andb_true_iff in Hcar. destruct Hcar as [Hbs _].
      destruct Htype as [T|T]; rewrite T in Hbs; discriminate.
Qed.

(** The cash sale of scenario A closed with a retained-earnings account:
    cash and retained earnings are carried, the revenue account is not. *)
Lemma carry_forward_records_witness :
  let accounts := [Scenario.cash; Scenario.retained; Scenario.sales] in
  let r := calculateYearEndClosing [Scenario.cashSale] accounts []
                                   "2025-04-01" "2026-03-31" in
  carryForwardBalances r
  = [OpeningBalance.mk "acc-101" 1000; OpeningBalance.mk "acc-310" (-1000)]
  /\ map balance (closingBalances r) = [1000; -1000]
  /\ ~ In (Account.id Scenario.sales)
          (map OpeningBalance.accountId (carryForwardBalances r)).
Proof.
  split; [reflexivity|]. split; [reflexivity|].
  destruct (carry_forward_records [Scenario.cashSale]
              [Scenario.cash; Scenario.retained; Scenario.sales] []
              "2025-04-01" "2026-03-31") as (_ & _ & _ & H).
  destruct H as [_ H].
  - repeat constructor; simpl; intuition discriminate.
  - apply (H Scenario.sales).
    + simpl. tauto.
    + left. reflexivity.
Defined.

(** The amounts carried forward follow the sign of the opening-balance
    format only for postings to asset accounts.  After a purchase on
    credit the liability is carried with a positive amount, and a trial
    balance opened on the carried amounts does not balance. *)
Remark carry_forward_credit_posting :
  let accounts := [Scenario.payable; Scenario.retained; Scenario.purchases] in
  let r := calculateYearEndClosing [Scenario.creditPurchase] accounts []
                                   "2025-04-01" "2026-03-31" in
  carryForwardBalances r
  = [OpeningBalance.mk "acc-201" 100; OpeningBalance.mk "acc-310" 100]
  /\ TrialBalance.isBalanced
       (TrialBalance.report Scenario.byCode [] accounts "" "" true
                            (carryForwardBalances r)) = false.
Proof. split; reflexivity. Qed.
End ClosingClaims.

(** ** Financial indicators *)

Section IndicatorClaims.
Import FinancialIndicators.

Lemma entries_revenue accounts l st :
  (forall e, In e l -> 0 < JournalEntry.amount e) ->
  l_revenue st <= l_revenue (fold_left (entryStep accounts) l st).
Proof.
  revert st. induction l as [|e l IH]; intros st H; simpl; [lia|].
  etransitivity; [|apply IH; intros x Hx; apply H; now right].
  unfold entryStep. simpl.
  pose proof (H e (or_introl eq_refl)).
  destruct (isType _ revenue); lia.
Qed.

Lemma percentOf_none n d : percentOf n d = None <-> d <= 0.
Proof. unfold percentOf. destruct (Z.ltb_spec 0 d); split; intros; try lia; congruence. Qed.

Lemma timesOf_none n d : timesOf n d = None <-> d <= 0.
Proof. unfold timesOf. destruct (Z.ltb_spec 0 d); split; intros; try lia; congruence. Qed.

Lemma percentOf_some n d :
  0 < d -> percentOf n d = Some (Number.ofZ n / Number.ofZ d * 100)%float.
Proof. intros H. unfold percentOf. destruct (Z.ltb_spec 0 d); [reflexivity|lia]. Qed.

Lemma timesOf_some n d :
  0 < d -> timesOf n d = Some (Number.ofZ n / Number.ofZ d)%float.
Proof. intros H. unfold timesOf. destruct (Z.ltb_spec 0 d); [reflexivity|lia]. Qed.

(** C9, as stated, fails: the guards test for a positive denominator, so
    a negative one gives null as well.  Cash collected on a receivable
    that was never recorded leaves receivables at -100, not 0, and the
    receivables turnover is null although revenue is 1000. *)
Lemma indicator_null_counterexample :
  let fi := calculateFinancialIndicators
              [Scenario.cashSale; Scenario.collection]
              [Scenario.cash; Scenario.receivable; Scenario.sales] [] in
  revenue_ fi = 1000
  /\ receivables fi = -100
  /\ receivables fi <> 0
  /\ receivablesTurnover fi = None.
Proof. vm_compute. repeat split; congruence. Qed.

(** C9 (amended): each of the three profit margins is null exactly when
    revenue is not positive - which, for strictly positive entry amounts,
    means revenue is 0 - and otherwise the profit divided by revenue,
    times 100; the current ratio is null exactly when current liabilities
    are not positive, the debt-equity ratio exactly when equity is not
    positive, the receivables turnover exactly when receivables are not
    positive; otherwise each is the quotient of the aggregated totals
    (times 100 for the two ratios). *)
Theorem indicator_nulls
        (entries : list JournalEntry.t) (accounts : list Account.t)
        (openingBalances : list OpeningBalance.t) :
  let fi := calculateFinancialIndicators entries accounts openingBalances in
  ((grossProfitMargin fi = None <-> revenue_ fi <= 0)
   /\ (operatingProfitMargin fi = None <-> revenue_ fi <= 0)
   /\ (netProfitMargin fi = None <-> revenue_ fi <= 0)
   /\ (currentRatio fi = None <-> currentLiabilities fi <= 0)
   /\ (debtEquityRatio fi = None <-> equity_ fi <= 0)
   /\ (receivablesTurnover fi = None <-> receivables fi <= 0))
  /\ ((forall e, In e entries -> 0 < JournalEntry.amount e) ->
      0 <= revenue_ fi /\ (grossProfitMargin fi = None <-> revenue_ fi = 0))
  /\ (0 < revenue_ fi ->
      grossProfitMargin fi
      = Some (Number.ofZ (grossProfit fi) / Number.ofZ (revenue_ fi) * 100)%float
      /\ operatingProfitMargin fi
         = Some (Number.ofZ (operatingProfit fi) / Number.ofZ (revenue_ fi) * 100)%float
      /\ netProfitMargin fi
         = Some (Number.ofZ (netProfit fi) / Number.ofZ (revenue_ fi) * 100)%float)
  /\ (0 < currentLiabilities fi ->
      currentRatio fi
      = Some (Number.ofZ (currentAssets fi) / Number.ofZ (currentLiabilities fi) * 100)%float)
  /\ (0 < equity_ fi ->
      debtEquityRatio fi
      = Some (Number.ofZ (totalLiabilities fi) / Number.ofZ (equity_ fi) * 100)%float)
  /\ (0 < receivables fi ->
      receivablesTurnover fi
      = Some (Number.ofZ (revenue_ fi) / Number.ofZ (receivables fi))%float).
Proof.
  intros fi. subst fi. unfold calculateFinancialIndicators.
  cbv zeta.
  cbn [grossProfitMargin operatingProfitMargin netProfitMargin currentRatio
       debtEquityRatio receivablesTurnover revenue_ currentLiabilities equity_
       receivables grossProfit operatingProfit netProfit currentAssets
       totalLiabilities].
  split; [|split; [|split; [|split; [|split]]]].
  - repeat split; intros H;
      try (apply percentOf_none in H; exact H);
      try (apply timesOf_none in H; exact H);
      try (apply percentOf_none; exact H);
      try (apply timesOf_none; exact H).
  - intros Hpos.
    pose proof (entries_revenue accounts entries
                  (mkLedger (fold_left setOpening openingBalances JSMap.empty) 0 0 0)
                  Hpos) as R.
    simpl in R. split; [exact R|]. rewrite percentOf_none. lia.
  - intros H. rewrite !percentOf_some by assumption. auto.
  - apply percentOf_some.
  - apply percentOf_some.
  - apply timesOf_some.
Qed.

(** A cash sale and a purchase for cash: the gross margin is
    (1000 - 200) / 1000 * 100 = 80. *)
Lemma indicator_nulls_witness :
  let fi := calculateFinancialIndicators
              [Scenario.cashSale; Scenario.cashExpense]
              [Scenario.cash; Scenario.sales; Scenario.purchases] [] in
  revenue_ fi = 1000
  /\ grossProfitMargin fi = Some 80%float
  /\ currentRatio fi = None
  /\ grossProfitMargin fi
     = Some (Number.ofZ (grossProfit fi) / Number.ofZ (revenue_ fi) * 100)%float.
Proof.
  split; [reflexivity|]. split; [reflexivity|]. split; [reflexivity|].
  apply (indicator_nulls [Scenario.cashSale; Scenario.cashExpense]
           [Scenario.cash; Scenario.sales; Scenario.purchases] []).
  reflexivity.
Defined.
End IndicatorClaims.

(** ** Depreciation journals *)

Section DepreciationClaims.
Import DepreciationJournal.
Variable calculateDepreciationSchedule :
  FixedAsset -> string -> Z -> list DepreciationSchedule.
Variable uuidv4 : nat -> string.
Variable now : nat -> string.

(** The loop appends one draft per due asset and leaves the rest of the
    accumulator in step with the drafts. *)
Lemma assetStep_fold expense accumulated fiscalYearStart year l acc :
  exists new,
    entries (fold_left (assetStep calculateDepreciationSchedule uuidv4 now
                                  expense accumulated fiscalYearStart year)
                       (filter (fun asset => negb (isDisposed asset)) l) acc)
    = (entries acc ++ new)%list
    /\ Forall2 (drafted expense accumulated)
               (dueAssets calculateDepreciationSchedule l fiscalYearStart year) new
    /\ totalAmount (fold_left (assetStep calculateDepreciationSchedule uuidv4 now
                                  expense accumulated fiscalYearStart year)
                              (filter (fun asset => negb (isDisposed asset)) l) acc)
       = totalAmount acc + sumZ JournalEntry.amount new
    /\ assetCount (fold_left (assetStep calculateDepreciationSchedule uuidv4 now
                                  expense accumulated fiscalYearStart year)
                             (filter (fun asset => negb (isDisposed asset)) l) acc)
       = assetCount acc + Z.of_nat (List.length new)
    /\ errors (fold_left (assetStep calculateDepreciationSchedule uuidv4 now
                                  expense accumulated fiscalYearStart year)
                         (filter (fun asset => negb (isDisposed asset)) l) acc)
       = errors acc.
Proof.
  revert acc. induction l as [|a l IH]; intros acc.
  - exists []. simpl. rewrite app_nil_r. repeat split; try lia. constructor.
  - unfold dueAssets. simpl. unfold dueSchedule at 1.
    destruct (isDisposed a); simpl.
    + apply IH.
    + unfold assetStep at 2 4 6 8.
      destruct (currentSchedule calculateDepreciationSchedule a fiscalYearStart year)
        as [s|]; [|apply IH].
      destruct (depreciationAmount s =? 0); [apply IH|].
      match goal with
      | |- context [fold_left _ _ ?acc'] => destruct (IH acc') as (new & E & F & T & C & R)
      end.
      simpl in E, T, C, R.
      exists (JournalEntry.mk (uuidv4 (List.length (entries acc))) (yearEndDate s)
                              (a_name a ++ " 減価償却費")
                              (Account.id expense) (Account.id accumulated)
                              (depreciationAmount s)
                              (now (List.length (entries acc)))
                              (now (List.length (entries acc))) :: new).
      rewrite E, T, C, R. rewrite <- app_assoc. simpl.
      repeat split; try lia.
      constructor; [|exact F]. unfold drafted. simpl. auto.
Qed.


(** C10: without an account named 減価償却費, [hasDepreciationJournals]
    answers false for every entry list and period, while generation for
    the same chart of accounts fails with the missing-account error. *)
Theorem has_depreciation_journals_vacuous
        (journalEntries : list JournalEntry.t) (accounts : list Account.t)
        (fiscalYearStart fiscalYearEnd : string)
        (assets : list FixedAsset) (year : Z) :
  getDepreciationExpenseAccount accounts = None ->
  hasDepreciationJournals journalEntries accounts fiscalYearStart fiscalYearEnd = false
  /\ generateDepreciationJournals calculateDepreciationSchedule uuidv4 now
       assets accounts fiscalYearStart year
     = mkJournals [] 0 0 [missingExpenseMessage].
Proof.
  intros H. unfold hasDepreciationJournals, generateDepreciationJournals.
  rewrite H. split; reflexivity.
Qed.
End DepreciationClaims.

Section DepreciationScenario.
Import DepreciationJournal.


(** A depreciation posting dated inside the period goes undetected once
    the expense account has been renamed away. *)
Lemma has_depreciation_journals_vacuous_witness :
  let accounts := [Scenario.cash; Scenario.accumulatedDepreciation] in
  JS.includes (JournalEntry.description Scenario.depreciationPosting) "減価償却費" = true
  /\ hasDepreciationJournals [Scenario.depreciationPosting]
       (Scenario.depreciationExpense :: accounts) "2025-04-01" "2026-03-31" = true
  /\ hasDepreciationJournals [Scenario.depreciationPosting] accounts
       "2025-04-01" "2026-03-31" = false
  /\ generateDepreciationJournals Scenario.oneRow Scenario.ids Scenario.clock
       [Scenario.laptop] accounts "2025-04-01" 2025
     = mkJournals [] 0 0 [missingExpenseMessage].
Proof.
  split; [reflexivity|]. split; [reflexivity|].
  apply (has_depreciation_journals_vacuous Scenario.oneRow Scenario.ids Scenario.clock
           [Scenario.depreciationPosting]
           [Scenario.cash; Scenario.accumulatedDepreciation]
           "2025-04-01" "2026-03-31" [Scenario.laptop] 2025).
  reflexivity.
Defined.
End DepreciationScenario.

(** ** Consumption tax *)

Section TaxClaims.
Import Tax Number.





(** The quotient is a binary64 quotient: 1 + 10/100 is slightly above
    1.1, so 110 / 1.1 falls just short of 100 and the base of a
    tax-included 110 comes out as 99, with a tax of 11. *)
Remark included_base_binary64 :
  calculateTax 110 rate10 included = mkTax 99 11 110 rate10
  /\ calculateTax 1080 rate8 included = mkTax 999 81 1080 rate8.
Proof. split; reflexivity. Qed.
End TaxClaims.

(** * Further properties of the code *)

(** ** Trial balance: rows, columns and groups *)

Section TrialBalanceRows.
Import TrialBalance Ledger TrialBalanceGroups.
Variable localeCompare : string -> string -> Z.

Lemma applyEntry_has m e k :
  JSMap.has (applyEntry m e) k
  = JSMap.has m k
    || String.eqb (JournalEntry.debitAccountId e) k
    || String.eqb (JournalEntry.creditAccountId e) k.
Proof.
  unfold applyEntry, JSMap.has.
  generalize (JournalEntry.debitAccountId e) (JournalEntry.creditAccountId e).
  intros d c.
  destruct (String.eqb_spec c k) as [->|Nc].
  - rewrite get_set_same. now rewrite orb_true_r.
  - rewrite get_set_other by assumption.
    destruct (String.eqb_spec d k) as [->|Nd].
    + rewrite get_set_same. now rewrite orb_true_r.
    + rewrite get_set_other by assumption. now rewrite !orb_false_r.
Qed.

Lemma applyOpening_has m ob k :
  JSMap.has (applyOpening m ob) k
  = JSMap.has m k || String.eqb (OpeningBalance.accountId ob) k.
Proof.
  unfold applyOpening, JSMap.has.
  generalize (OpeningBalance.accountId ob). intros c.
  destruct (String.eqb_spec c k) as [->|Nc].
  - rewrite get_set_same. now rewrite orb_true_r.
  - rewrite get_set_other by assumption. now rewrite orb_false_r.
Qed.

Lemma entries_has l m k :
  JSMap.has (fold_left applyEntry l m) k = JSMap.has m k || namedBy l k.
Proof.
  revert m. induction l as [|e l IH]; intros m; simpl.
  - now rewrite orb_false_r.
  - rewrite IH, applyEntry_has. now rewrite <- !orb_assoc.
Qed.

Lemma openings_has l m k :
  JSMap.has (fold_left applyOpening l m) k = JSMap.has m k || openedBy l k.
Proof.
  revert m. induction l as [|ob l IH]; intros m; simpl.
  - now rewrite orb_false_r.
  - rewrite IH, applyOpening_has. now rewrite <- !orb_assoc.
Qed.

(** The map has an object for exactly the touched ids. *)
Lemma accountTotals_has filtered include balances k :
  JSMap.has (accountTotals filtered include balances) k
  = (include && openedBy balances k) || namedBy filtered k.
Proof.
  unfold accountTotals. rewrite entries_has.
  destruct include; [rewrite openings_has|]; reflexivity.
Qed.

Lemma namedBy_in l k :
  namedBy l k = true <->
  exists e, In e l /\ (JournalEntry.debitAccountId e = k
                       \/ JournalEntry.creditAccountId e = k).
Proof.
  unfold namedBy. rewrite existsb_exists. split.
  - intros (e & He & H). exists e. split; [assumption|].
    apply orb_true_iff in H. now rewrite !String.eqb_eq in H.
  - intros (e & He & H). exists e. split; [assumption|].
    apply orb_true_iff. now rewrite !String.eqb_eq.
Qed.

Lemma openedBy_in l k :
  openedBy l k = true <-> exists ob, In ob l /\ OpeningBalance.accountId ob = k.
Proof.
  unfold openedBy. rewrite existsb_exists.
  split; intros (ob & Hob & H); exists ob; (split; [assumption|]);
    now apply String.eqb_eq.
Qed.

(** The ids of the rows, before sorting, are the row ids the map has an
    object for. *)
Lemma unsortedRows_ids m accounts missing :
  map accountId (unsortedRows m accounts missing)
  = filter (JSMap.has m) (map Account.id accounts ++ missing).
Proof.
  unfold unsortedRows. rewrite map_app, filter_app. f_equal.
  - induction accounts as [|a l IH]; simpl; [reflexivity|].
    rewrite map_app, IH. unfold JSMap.has.
    destruct (JSMap.get m (Account.id a)); reflexivity.
  - induction missing as [|x l IH]; simpl; [reflexivity|].
    rewrite map_app, IH. unfold JSMap.has.
    destruct (JSMap.get m x); reflexivity.
Qed.

Lemma balanceData_ids filtered accounts include balances :
  Permutation
    (map accountId (balanceData localeCompare filtered accounts include balances))
    (filter (JSMap.has (accountTotals filtered include balances))
            (rowIds accounts filtered)).
Proof.
  unfold balanceData, rowIds. rewrite <- unsortedRows_ids, map_map.
  erewrite map_ext; [|intros r; destruct (setBalances_totals r) as [E _]; exact E].
  apply Permutation_map, sort_perm.
Qed.

(** X1: with distinct account ids the report has at most one row per id,
    and an id has a row exactly when a filtered entry names it, or
    opening balances are included and one is recorded under an id of the
    chart; an opening balance under an id that is neither in the chart
    nor named by a filtered entry gets no row. *)
Theorem trial_balance_row_ids
        (entries : list JournalEntry.t) (accounts : list Account.t)
        (startDate endDate : string)
        (includeOpeningBalance : bool) (balances : list OpeningBalance.t) :
  NoDup (map Account.id accounts) ->
  let filtered := filteredEntries entries startDate endDate in
  let rows := report localeCompare entries accounts startDate endDate
                     includeOpeningBalance balances in
  NoDup (map accountId rows)
  /\ forall k,
       In k (map accountId rows) <->
       namedBy filtered k = true
       \/ (includeOpeningBalance = true
           /\ In k (map Account.id accounts)
           /\ openedBy balances k = true).
Proof.
  intros Hids filtered rows. subst rows. unfold report. fold filtered.
  pose proof (balanceData_ids filtered accounts includeOpeningBalance balances) as P.
  split.
  - apply (Permutation_NoDup (Permutation_sym P)).
    apply NoDup_filter, rowIds_nodup, Hids.
  - intros k. split.
    + intros H. apply (Permutation_in _ P) in H. apply filter_In in H.
      destruct H as [Hk Hhas]. rewrite accountTotals_has in Hhas.
      apply orb_true_iff in Hhas. destruct Hhas as [Ho|Hn]; [|now left].
      apply andb_true_iff in Ho. destruct Ho as [-> Ho].
      unfold rowIds in Hk. apply in_app_or in Hk. destruct Hk as [Hk|Hk].
      * right. auto.
      * left. apply missingAccountIds_in in Hk. destruct Hk as [_ (e & He & Hx)].
        apply namedBy_in. exists e. split; [assumption|]. destruct Hx; auto.
    + intros H. apply (Permutation_in _ (Permutation_sym P)). apply filter_In.
      rewrite accountTotals_has. destruct H as [Hn|(-> & Hk & Ho)].
      * split; [|now rewrite Hn, orb_true_r].
        apply namedBy_in in Hn. destruct Hn as (e & He & Hx).
        destruct (rowIds_sides accounts filtered e He) as [D C].
        apply set_has_iff in D, C. destruct Hx as [<-|<-]; assumption.
      * split; [|now rewrite Ho].
        unfold rowIds. apply in_or_app. now left.
Qed.

(** X2: every row shows its net balance in one column only: both balance
    columns are non-negative, at least one of them is 0, and their
    difference is the debit total minus the credit total. *)
Theorem trial_balance_row_columns
        (entries : list JournalEntry.t) (accounts : list Account.t)
        (startDate endDate : string)
        (includeOpeningBalance : bool) (balances : list OpeningBalance.t)
        (row : BalanceRow) :
  In row (report localeCompare entries accounts startDate endDate
                 includeOpeningBalance balances) ->
  0 <= debitBalance row
  /\ 0 <= creditBalance row
  /\ (debitBalance row = 0 \/ creditBalance row = 0)
  /\ debitBalance row - creditBalance row = debitTotal row - creditTotal row.
Proof.
  unfold report, balanceData. intros H. apply in_map_iff in H.
  destruct H as (r & <- & _).
  pose proof (setBalances_net r) as N.
  destruct (setBalances_totals r) as (_ & _ & _ & Ed & Ec). rewrite Ed, Ec.
  split; [|split; [|split; [|exact N]]]; clear N Ed Ec;
    unfold setBalances; destruct (_ || _); simpl;
    repeat match goal with
           | |- context [if ?a <=? ?b then _ else _] => destruct (Z.leb_spec a b)
           | |- context [if ?a <? ?b then _ else _] => destruct (Z.ltb_spec a b)
           end; lia.
Qed.

Lemma posted_nonneg (l : list JournalEntry.t) k :
  (forall e, In e l -> 0 < JournalEntry.amount e) ->
  0 <= postedDebit l k /\ 0 <= postedCredit l k.
Proof.
  intros H. unfold postedDebit, postedCredit.
  induction l as [|e l IH]; simpl; [lia|].
  pose proof (H e (or_introl eq_refl)).
  destruct IH as [I1 I2]; [intros x Hx; apply H; now right|].
  destruct (String.eqb _ k); destruct (String.eqb _ k); lia.
Qed.

Lemma opening_nonneg (l : list OpeningBalance.t) k :
  0 <= openingDebit l k /\ 0 <= openingCredit l k.
Proof.
  unfold openingDebit, openingCredit.
  induction l as [|ob l IH]; simpl; [lia|].
  destruct IH as [I1 I2].
  destruct (String.eqb _ k); [|lia].
  destruct (Z.ltb_spec 0 (OpeningBalance.amount ob)); lia.
Qed.

(** X3: when every filtered entry has a positive amount, the debit total
    and the credit total of every row are non-negative, whatever the
    signs of the opening balances. *)
Theorem trial_balance_totals_nonneg
        (entries : list JournalEntry.t) (accounts : list Account.t)
        (startDate endDate : string)
        (includeOpeningBalance : bool) (balances : list OpeningBalance.t)
        (row : BalanceRow) :
  (forall e, In e (filteredEntries entries startDate endDate) ->
             0 < JournalEntry.amount e) ->
  In row (report localeCompare entries accounts startDate endDate
                 includeOpeningBalance balances) ->
  0 <= debitTotal row /\ 0 <= creditTotal row.
Proof.
  intros Hpos H. unfold report in H. apply balanceData_row in H.
  destruct H as [-> ->]. rewrite accountTotals_debitOf, accountTotals_creditOf.
  destruct (posted_nonneg _ (accountId row) Hpos) as [P1 P2].
  destruct (opening_nonneg balances (accountId row)) as [O1 O2].
  destruct includeOpeningBalance; lia.
Qed.

(** X4: the missing-account warning is raised exactly when some filtered
    entry names, on either side, an id that is not in the chart. *)
Theorem warning_iff
        (entries : list JournalEntry.t) (accounts : list Account.t)
        (startDate endDate : string) :
  warning entries accounts startDate endDate = true <->
  exists e, In e (filteredEntries entries startDate endDate)
            /\ (~ In (JournalEntry.debitAccountId e) (map Account.id accounts)
                \/ ~ In (JournalEntry.creditAccountId e) (map Account.id accounts)).
Proof.
  unfold warning, JSSet.size.
  set (filtered := filteredEntries entries startDate endDate).
  split.
  - intros H.
    destruct (missingAccountIds accounts filtered) as [|x l] eqn:M; [discriminate|].
    assert (In x (missingAccountIds accounts filtered)) as Hx by (rewrite M; now left).
    apply missingAccountIds_in in Hx. destruct Hx as [N (e & He & [->| ->])];
      exists e; auto.
  - intros (e & He & H).
    assert (exists x, In x (missingAccountIds accounts filtered)) as (x & Hx).
    { destruct H as [H|H]; eexists; apply missingAccountIds_in;
        (split; [exact H|]); exists e; auto. }
    destruct (missingAccountIds accounts filtered); [destruct Hx|reflexivity].
Qed.

Lemma push_group g row t :
  group (push g row) t
  = (group g t ++ (if AccountType_eqb (type row) t then [row] else []))%list.
Proof.
  destruct g as [a l q r x]. unfold push.
  destruct (type row), t; simpl; rewrite ?app_nil_r; reflexivity.
Qed.

Lemma groupedData_from rows g t :
  group (fold_left push rows g) t
  = (group g t ++ filter (fun row => AccountType_eqb (type row) t) rows)%list.
Proof.
  revert g. induction rows as [|row rows IH]; intros g; simpl.
  - now rewrite app_nil_r.
  - rewrite IH, push_group, <- app_assoc.
    destruct (AccountType_eqb (type row) t); reflexivity.
Qed.

(** X5: grouping partitions the rows: the group of a type holds exactly
    the rows of that type, in report order, and the five groups in the
    fixed type order are a rearrangement of all rows. *)
Theorem groupedData_partition (rows : list BalanceRow) :
  (forall t, group (groupedData rows) t
             = filter (fun row => AccountType_eqb (type row) t) rows)
  /\ Permutation (flat_map (group (groupedData rows)) accountTypeOrder) rows.
Proof.
  assert (forall t, group (groupedData rows) t
                    = filter (fun row => AccountType_eqb (type row) t) rows) as G.
  { intros t. unfold groupedData. rewrite groupedData_from. now destruct t. }
  split; [exact G|].
  unfold accountTypeOrder. cbn [flat_map]. rewrite !G, app_nil_r. clear G.
  induction rows as [|row rows IH]; simpl; [constructor|].
  destruct (type row); simpl.
  - now constructor.
  - symmetry. apply Permutation_cons_app. symmetry. exact IH.
  - rewrite app_assoc. symmetry. apply Permutation_cons_app.
    rewrite <- app_assoc. symmetry. exact IH.
  - rewrite 2 app_assoc. symmetry. apply Permutation_cons_app.
    rewrite <- 2 app_assoc. symmetry. exact IH.
  - rewrite 3 app_assoc. symmetry. apply Permutation_cons_app.
    rewrite <- 3 app_assoc. symmetry. exact IH.
Qed.
End TrialBalanceRows.

Section TrialBalanceRowsScenario.
Import TrialBalance Ledger TrialBalanceGroups.

(** A chart of three accounts, a sale, an orphan entry and an opening
    balance under an id nobody names. *)
Lemma trial_balance_row_ids_witness :
  let accounts := [Scenario.cash; Scenario.capital; Scenario.sales] in
  let rows := report Scenario.byCode [Scenario.cashSale; Scenario.orphan] accounts
                     "" "" true
                     (OpeningBalance.mk "acc-999" 300 :: Scenario.openingB) in
  map accountId rows = ["acc-101"; "acc-301"; "acc-401"; "ghost-1"; "ghost-2"]
  /\ NoDup (map accountId rows)
  /\ ~ In "acc-999" (map accountId rows).
Proof.
  split; [reflexivity|].
  destruct (trial_balance_row_ids Scenario.byCode
              [Scenario.cashSale; Scenario.orphan]
              [Scenario.cash; Scenario.capital; Scenario.sales] "" "" true
              (OpeningBalance.mk "acc-999" 300 :: Scenario.openingB)) as [N I].
  - repeat constructor; simpl; intuition discriminate.
  - split; [exact N|]. intros H. apply I in H.
    destruct H as [H|(_ & H & _)]; [discriminate H|].
    simpl in H. intuition discriminate.
Defined.

Lemma trial_balance_row_columns_witness :
  let row := mkRow "acc-401" "401" "売上" revenue 0 1000 0 1000 in
  0 <= debitBalance row
  /\ 0 <= creditBalance row
  /\ (debitBalance row = 0 \/ creditBalance row = 0)
  /\ debitBalance row - creditBalance row = debitTotal row - creditTotal row.
Proof.
  apply (trial_balance_row_columns Scenario.byCode [Scenario.cashSale]
           [Scenario.cash; Scenario.sales] "" "" true []).
  simpl. right. left. reflexivity.
Defined.

Lemma trial_balance_totals_nonneg_witness :
  let row := mkRow "acc-301" "301" "資本金" equity 0 500 0 500 in
  0 <= debitTotal row /\ 0 <= creditTotal row.
Proof.
  apply (trial_balance_totals_nonneg Scenario.byCode [Scenario.cashSale]
           [Scenario.cash; Scenario.capital; Scenario.sales] "" "" true
           Scenario.openingB).
  - intros e [<-|[]]. reflexivity.
  - simpl. right. left. reflexivity.
Defined.
End TrialBalanceRowsScenario.

(** ** Sorting *)

Section SortedFacts.
Context {A : Type} (cmp : A -> A -> Z).
Hypothesis cmp_trans : forall a b c, cmp a b <= 0 -> cmp b c <= 0 -> cmp a c <= 0.
Hypothesis cmp_flip : forall a b, 0 < cmp a b -> cmp b a <= 0.

Lemma insert_sorted (x : A) (l : list A) :
  StronglySorted (fun a b => cmp a b <= 0) l ->
  StronglySorted (fun a b => cmp a b <= 0) (JS.insert cmp x l).
Proof.
  induction 1 as [|y l Hl IH Hy]; simpl.
  - constructor; constructor.
  - destruct (Z.ltb_spec 0 (cmp x y)) as [G|G].
    + constructor; [exact IH|].
      apply (Permutation_Forall (Permutation_sym (insert_perm cmp x l))).
      constructor; [now apply cmp_flip|exact Hy].
    + constructor; [now constructor|].
      constructor; [exact G|].
      eapply Forall_impl; [|exact Hy]. intros z Hz. now apply (cmp_trans x y z).
Qed.

Lemma sort_sorted (l : list A) :
  StronglySorted (fun a b => cmp a b <= 0) (JS.sort cmp l).
Proof.
  induction l as [|x l IH]; simpl; [constructor|]. now apply insert_sorted.
Qed.
End SortedFacts.

Lemma sorted_map {A B : Type} (R : B -> B -> Prop) (f : A -> B) (l : list A) :
  StronglySorted (fun a b => R (f a) (f b)) l -> StronglySorted R (map f l).
Proof.
  induction 1 as [|x l Hl IH Hx]; simpl; constructor; [exact IH|].
  apply Forall_map. exact Hx.
Qed.

(** X6: when the collation is a total preorder, the rows of the trial
    balance come out in ascending order of account code: no row is
    followed, anywhere later, by a row whose code collates before it. *)
Theorem report_sorted_by_code
        (localeCompare : string -> string -> Z)
        (entries : list JournalEntry.t) (accounts : list Account.t)
        (startDate endDate : string)
        (includeOpeningBalance : bool) (balances : list OpeningBalance.t) :
  (forall a b c, localeCompare a b <= 0 -> localeCompare b c <= 0 ->
                 localeCompare a c <= 0) ->
  (forall a b, 0 < localeCompare a b -> localeCompare b a <= 0) ->
  StronglySorted (fun c1 c2 => localeCompare c1 c2 <= 0)
                 (map TrialBalance.code
                      (TrialBalance.report localeCompare entries accounts
                                           startDate endDate
                                           includeOpeningBalance balances)).
Proof.
  intros Ht Hf. unfold TrialBalance.report, TrialBalance.balanceData.
  rewrite map_map.
  erewrite map_ext;
    [|intros r; destruct (setBalances_totals r) as (_ & E & _); exact E].
  apply sorted_map.
  apply (sort_sorted (fun a b => localeCompare (TrialBalance.code a) (TrialBalance.code b))).
  - intros a b c. apply Ht.
  - intros a b. apply Hf.
Qed.

Lemma report_sorted_by_code_witness :
  StronglySorted (fun c1 c2 => byLength c1 c2 <= 0)
                 (map TrialBalance.code
                      (TrialBalance.report byLength
                         [Scenario.cashSale; Scenario.orphan]
                         [Scenario.sales; Scenario.cash] "" "" false [])).
Proof.
  apply (report_sorted_by_code byLength [Scenario.cashSale; Scenario.orphan]
           [Scenario.sales; Scenario.cash] "" "" false []).
  - unfold byLength. intros a b c. lia.
  - unfold byLength. intros a b. lia.
Defined.

(** ** The opening-balance store *)

Section OpeningStoreFacts.
Import OpeningBalanceStore.

Lemma findIndex_none {A : Type} (p : A -> bool) (l : list A) :
  findIndex p l = None -> forall x, In x l -> p x = false.
Proof.
  induction l as [|y l IH]; simpl; intros H x Hx; [destruct Hx|].
  destruct (p y) eqn:E; [discriminate|].
  destruct (findIndex p l); [discriminate|].
  destruct Hx as [<-|Hx]; auto.
Qed.

(** A found index splits the array at the first match. *)
Lemma findIndex_some {A : Type} (p : A -> bool) (l : list A) (i : nat) :
  findIndex p l = Some i ->
  exists l1 x l2,
    l = (l1 ++ x :: l2)%list /\ p x = true
    /\ (forall y, In y l1 -> p y = false)
    /\ (forall z, removeAt i l = (l1 ++ l2)%list
                  /\ replaceAt i z l = (l1 ++ z :: l2)%list).
Proof.
  revert i. induction l as [|y l IH]; simpl; intros i H; [discriminate|].
  destruct (p y) eqn:E.
  - inversion H; subst. exists [], y, l. simpl. repeat split; auto.
    intros ? [].
  - destruct (findIndex p l) as [j|]; [|discriminate].
    inversion H; subst. destruct (IH j eq_refl) as (l1 & x & l2 & -> & Hx & Hl1 & Hr).
    exists (y :: l1), x, l2. simpl. repeat split; auto.
    + intros z [<-|Hz]; auto.
    + now destruct (Hr z) as [-> _].
    + now destruct (Hr z) as [_ ->].
Qed.

Lemma find_skip {A : Type} (p : A -> bool) (l1 l2 : list A) :
  (forall y, In y l1 -> p y = false) -> find p (l1 ++ l2) = find p l2.
Proof.
  induction l1 as [|y l1 IH]; simpl; intros H; [reflexivity|].
  rewrite (H y (or_introl eq_refl)). apply IH. intros z Hz. apply H. now right.
Qed.

Lemma find_app_other {A : Type} (p : A -> bool) (l1 l2 : list A) (x : A) :
  p x = false -> find p (l1 ++ x :: l2) = find p (l1 ++ l2).
Proof.
  intros H. induction l1 as [|y l1 IH]; simpl; [now rewrite H|].
  destruct (p y); [reflexivity|exact IH].
Qed.

Lemma find_absent {A : Type} (p : A -> bool) (l : list A) :
  (forall y, In y l -> p y = false) -> find p l = None.
Proof.
  induction l as [|y l IH]; simpl; intros H; [reflexivity|].
  rewrite (H y (or_introl eq_refl)). apply IH. intros z Hz. apply H. now right.
Qed.

(** X7: [setBalance] keeps the store well formed - one record per
    account id and no record with amount 0 - whatever id and amount it
    is given. *)
Theorem setBalance_wellFormed
        (state : OpeningBalanceSettings) (accountId : string) (amount : Z)
        (now : string) :
  wellFormed state -> wellFormed (setBalance state accountId amount now).
Proof.
  intros [Hnd Hnz]. unfold wellFormed, setBalance. simpl.
  destruct (findIndex (fun b => String.eqb (OpeningBalance.accountId b) accountId)
                      (balances state)) as [i|] eqn:F.
  - apply findIndex_some in F. destruct F as (l1 & x & l2 & E & Hx & Hl1 & Hr).
    rewrite E in Hnd, Hnz. apply String.eqb_eq in Hx.
    rewrite map_app in Hnd. simpl in Hnd.
    destruct (Z.eqb_spec amount 0) as [Z0|Z0].
    + destruct (Hr x) as [-> _]. split.
      * rewrite map_app. now apply NoDup_remove_1 in Hnd.
      * intros b Hb. apply Hnz. apply in_app_or in Hb. apply in_or_app.
        destruct Hb; [now left|right; now right].
    + destruct (Hr (OpeningBalance.mk accountId amount)) as [_ ->]. split.
      * rewrite map_app. simpl. now rewrite <- Hx.
      * intros b Hb. apply in_app_or in Hb. destruct Hb as [Hb|[<-|Hb]].
        -- apply Hnz, in_or_app. now left.
        -- exact Z0.
        -- apply Hnz, in_or_app. right. now right.
  - pose proof (findIndex_none _ _ F) as Habs.
    destruct (Z.eqb_spec amount 0) as [Z0|Z0]; [split; assumption|]. split.
    + rewrite map_app. simpl. apply NoDup_app; [assumption|repeat constructor; intros []|].
      intros k Hk [<-|[]]. apply in_map_iff in Hk. destruct Hk as (b & Eb & Hb).
      apply Habs in Hb. apply String.eqb_neq in Hb. contradiction.
    + intros b Hb. apply in_app_or in Hb. destruct Hb as [Hb|[<-|[]]]; auto.
Qed.

(** X8: what [setBalance] stores, [getBalance] reads back: in a store
    with one record per account the balance of the account is afterwards
    the amount given (0 removes the record), and the balance of every
    other account is what it was. *)
Theorem getBalance_setBalance
        (state : OpeningBalanceSettings) (accountId other : string) (amount : Z)
        (now : string) :
  NoDup (map OpeningBalance.accountId (balances state)) ->
  getBalance (setBalance state accountId amount now) accountId = amount
  /\ (other <> accountId ->
      getBalance (setBalance state accountId amount now) other
      = getBalance state other).
Proof.
  intros Hnd. unfold getBalance, setBalance. simpl.
  destruct (findIndex (fun b => String.eqb (OpeningBalance.accountId b) accountId)
                      (balances state)) as [i|] eqn:F.
  - apply findIndex_some in F. destruct F as (l1 & x & l2 & E & Hx & Hl1 & Hr).
    rewrite E in *. pose proof Hx as Hxid. apply String.eqb_eq in Hxid.
    rewrite map_app in Hnd. simpl in Hnd.
    assert (forall y, In y l2 -> String.eqb (OpeningBalance.accountId y) accountId = false)
      as Hl2.
    { intros y Hy. apply String.eqb_neq. intros Ey.
      apply NoDup_remove_2 in Hnd. apply Hnd. apply in_or_app. right.
      rewrite Hxid, <- Ey. now apply in_map. }
    destruct (Z.eqb_spec amount 0) as [Z0|Z0].
    + destruct (Hr x) as [-> _]. split.
      * rewrite find_absent; [now rewrite Z0|].
        intros y Hy. apply in_app_or in Hy. destruct Hy; auto.
      * intros Ho. rewrite (find_app_other _ l1 l2 x); [reflexivity|].
        apply String.eqb_neq. congruence.
    + destruct (Hr (OpeningBalance.mk accountId amount)) as [_ ->]. split.
      * rewrite find_skip by assumption. simpl. now rewrite String.eqb_refl.
      * intros Ho.
        rewrite (find_app_other _ l1 l2 (OpeningBalance.mk accountId amount)),
                (find_app_other _ l1 l2 x); [reflexivity| |];
          apply String.eqb_neq; simpl; congruence.
  - pose proof (findIndex_none _ _ F) as Habs.
    destruct (Z.eqb_spec amount 0) as [Z0|Z0].
    + split; [|reflexivity]. rewrite find_absent by assumption. now rewrite Z0.
    + split.
      * rewrite find_skip by assumption. simpl. now rewrite String.eqb_refl.
      * intros Ho.
        rewrite <- (app_nil_r (balances state)) at 2.
        rewrite (find_app_other _ (balances state) [] (OpeningBalance.mk accountId amount));
          [reflexivity|].
        apply String.eqb_neq. simpl. congruence.
Qed.
End OpeningStoreFacts.

Section OpeningStoreScenario.
Import OpeningBalanceStore.

Lemma setBalance_wellFormed_witness :
  let state := mkSettings "2025-04-01" Scenario.openingB "t0" in
  balances (setBalance state "acc-301" 0 "t1") = [OpeningBalance.mk "acc-101" 500]
  /\ balances (setBalance state "acc-101" 800 "t1")
     = [OpeningBalance.mk "acc-101" 800; OpeningBalance.mk "acc-301" (-500)]
  /\ wellFormed (setBalance state "acc-201" (-300) "t1").
Proof.
  split; [reflexivity|]. split; [reflexivity|].
  apply (setBalance_wellFormed (mkSettings "2025-04-01" Scenario.openingB "t0")).
  split.
  - repeat constructor; simpl; intuition discriminate.
  - simpl. intros b [<-|[<-|[]]]; discriminate.
Defined.

Lemma getBalance_setBalance_witness :
  let state := mkSettings "2025-04-01" Scenario.openingB "t0" in
  getBalance (setBalance state "acc-101" 0 "t1") "acc-101" = 0
  /\ (getBalance (setBalance state "acc-101" 0 "t1") "acc-301"
      = getBalance state "acc-301").
Proof.
  destruct (getBalance_setBalance
              (mkSettings "2025-04-01" Scenario.openingB "t0")
              "acc-101" "acc-301" 0 "t1") as [H1 H2].
  - repeat constructor; simpl; intuition discriminate.
  - split; [exact H1|]. apply H2. discriminate.
Defined.
End OpeningStoreScenario.

(** ** Carrying the closing forward *)

Section CarryForwardFacts.
Import YearEndClosing Closing TrialBalance Ledger.

Lemma filter_all {A : Type} (p : A -> bool) (l : list A) :
  (forall x, In x l -> p x = true) -> filter p l = l.
Proof.
  induction l as [|a l IH]; simpl; intros H; [reflexivity|].
  rewrite (H a (or_introl eq_refl)), IH; auto.
Qed.

(** The record found under the id of an account of the chart, in a list
    drawn from the accounts a filter keeps. *)
Lemma find_kept (keep : Account.t -> bool) (g : Account.t -> Z)
      (chart : list Account.t) (a : Account.t) :
  NoDup (map Account.id chart) -> In a chart ->
  find (fun b => String.eqb (OpeningBalance.accountId b) (Account.id a))
       (map (fun x => OpeningBalance.mk (Account.id x) (g x)) (filter keep chart))
  = if keep a then Some (OpeningBalance.mk (Account.id a) (g a)) else None.
Proof.
  induction chart as [|x chart IH]; simpl; intros H Ha; [destruct Ha|].
  apply NoDup_cons_iff in H. destruct H as [Hx Hrest].
  destruct Ha as [->|Ha].
  - destruct (keep a) eqn:K; simpl; [now rewrite String.eqb_refl|].
    apply find_absent. intros b Hb. apply in_map_iff in Hb.
    destruct Hb as (y & <- & Hy). simpl. apply String.eqb_neq. intros E.
    apply filter_In in Hy. apply Hx. rewrite <- E. apply in_map. tauto.
  - assert (Account.id x <> Account.id a) as N.
    { intros E. apply Hx. rewrite E. now apply in_map. }
    destruct (keep x); simpl; [|now apply IH].
    apply String.eqb_neq in N. rewrite N. now apply IH.
Qed.

Lemma opening_absent (l : list OpeningBalance.t) (k : string) :
  ~ In k (map OpeningBalance.accountId l) ->
  openingDebit l k = 0 /\ openingCredit l k = 0.
Proof.
  unfold openingDebit, openingCredit.
  induction l as [|b l IH]; simpl; intros H; [split; reflexivity|].
  destruct IH as [-> ->]; [tauto|].
  destruct (String.eqb_spec (OpeningBalance.accountId b) k) as [E|N]; [tauto|].
  split; reflexivity.
Qed.

(** With one record per account, the two opening columns of an id net to
    the amount recorded under it. *)
Lemma opening_net (l : list OpeningBalance.t) (k : string) :
  NoDup (map OpeningBalance.accountId l) ->
  openingDebit l k - openingCredit l k
  = match find (fun b => String.eqb (OpeningBalance.accountId b) k) l with
    | Some b => OpeningBalance.amount b
    | None => 0
    end.
Proof.
  induction l as [|b l IH]; simpl; intros H; [reflexivity|].
  apply NoDup_cons_iff in H. destruct H as [Hb Hl].
  specialize (IH Hl). unfold openingDebit, openingCredit in *. simpl.
  destruct (String.eqb_spec (OpeningBalance.accountId b) k) as [E|N].
  - rewrite E in Hb. destruct (opening_absent l k Hb) as [D C].
    unfold openingDebit, openingCredit in D, C. rewrite D, C.
    destruct (Z.ltb_spec 0 (OpeningBalance.amount b)); lia.
  - rewrite <- IH. lia.
Qed.

(** X9: carrying a closing forward replaces whatever opening balances
    were stored by the carry-forward list of the closing and moves the
    fiscal year to the given start; with distinct account ids the new
    store is well formed and reads back, for every account of the chart,
    its ending balance when it is a balance-sheet account and 0 when it
    is a revenue or expense account. *)
Theorem carry_forward_store
        (entries : list JournalEntry.t) (accounts : list Account.t)
        (openingBalances : list OpeningBalance.t)
        (fiscalYearStart fiscalYearEnd : string)
        (state : OpeningBalanceStore.OpeningBalanceSettings)
        (nextFiscalYearStart now1 now2 : string) :
  NoDup (map Account.id accounts) ->
  let r := calculateYearEndClosing entries accounts openingBalances
                                   fiscalYearStart fiscalYearEnd in
  let after := endingBalance entries accounts openingBalances
                             fiscalYearStart fiscalYearEnd in
  let state' := OpeningBalanceStore.handleCarryForward
                  state r nextFiscalYearStart now1 now2 in
  OpeningBalanceStore.balances state' = carryForwardBalances r
  /\ OpeningBalanceStore.fiscalYearStart state' = nextFiscalYearStart
  /\ OpeningBalanceStore.wellFormed state'
  /\ forall a, In a accounts ->
       OpeningBalanceStore.getBalance state' (Account.id a)
       = if isBalanceSheetAccount (Account.type a) then after (Account.id a) else 0.
Proof.
  intros Hids r after state'.
  destruct (closing_lists entries accounts openingBalances fiscalYearStart fiscalYearEnd)
    as [_ Hf].
  cbv zeta in Hf. fold r in Hf. fold after in Hf.
  assert (OpeningBalanceStore.balances state' = carryForwardBalances r) as Hb.
  { unfold state', OpeningBalanceStore.handleCarryForward,
      OpeningBalanceStore.setFiscalYearStart, OpeningBalanceStore.setBalances. simpl.
    apply filter_all. intros b Hb. rewrite Hf in Hb. apply in_map_iff in Hb.
    destruct Hb as (a & <- & Ha). apply filter_In in Ha. destruct Ha as [_ Ha].
    unfold carried in Ha. apply andb_true_iff in Ha. simpl. tauto. }
  split; [exact Hb|]. split; [reflexivity|]. split.
  - unfold OpeningBalanceStore.wellFormed. rewrite Hb, Hf. split.
    + rewrite map_map. simpl. now apply kept_ids_distinct.
    + intros b H. apply in_map_iff in H. destruct H as (a & <- & Ha).
      apply filter_In in Ha. destruct Ha as [_ Ha]. unfold carried in Ha.
      apply andb_true_iff in Ha. destruct Ha as [_ Ha]. simpl.
      destruct (Z.eqb_spec (after (Account.id a)) 0); [discriminate|assumption].
  - intros a Ha. unfold OpeningBalanceStore.getBalance. rewrite Hb, Hf.
    rewrite (find_kept (carried after) (fun x => after (Account.id x)) accounts a Hids Ha).
    unfold carried. destruct (isBalanceSheetAccount (Account.type a)); simpl; [|reflexivity].
    destruct (Z.eqb_spec (after (Account.id a)) 0) as [E|N]; simpl; congruence.
Qed.

Variable localeCompare : string -> string -> Z.

(** X10: after the carry-forward, the trial balance of the new year that
    includes the stored opening balances continues the old year: for
    every account of a chart with distinct ids, the row nets to what the
    filtered entries post to the account, plus its ending balance of the
    closed year when it is a balance-sheet account - revenue and expense
    accounts start from 0. *)
Theorem carry_forward_trial_balance
        (entries : list JournalEntry.t) (accounts : list Account.t)
        (openingBalances : list OpeningBalance.t)
        (fiscalYearStart fiscalYearEnd : string)
        (state : OpeningBalanceStore.OpeningBalanceSettings)
        (nextFiscalYearStart now1 now2 : string)
        (journal : list JournalEntry.t) (startDate endDate : string)
        (row : BalanceRow) (a : Account.t) :
  NoDup (map Account.id accounts) ->
  let after := endingBalance entries accounts openingBalances
                             fiscalYearStart fiscalYearEnd in
  let state' := OpeningBalanceStore.handleCarryForward
                  state
                  (calculateYearEndClosing entries accounts openingBalances
                                           fiscalYearStart fiscalYearEnd)
                  nextFiscalYearStart now1 now2 in
  let filtered := filteredEntries journal startDate endDate in
  In row (report localeCompare journal accounts startDate endDate true
                 (OpeningBalanceStore.balances state')) ->
  In a accounts -> accountId row = Account.id a ->
  debitTotal row - creditTotal row
  = (if isBalanceSheetAccount (Account.type a) then after (Account.id a) else 0)
    + postedDebit filtered (Account.id a) - postedCredit filtered (Account.id a).
Proof.
  intros Hids after state' filtered Hrow Ha Hid.
  destruct (closing_lists entries accounts openingBalances fiscalYearStart fiscalYearEnd)
    as [_ Hf].
  cbv zeta in Hf. fold after in Hf.
  assert (OpeningBalanceStore.balances state'
          = map (fun x => OpeningBalance.mk (Account.id x) (after (Account.id x)))
                (filter (carried after) accounts)) as Hb.
  { rewrite <- Hf.
    unfold state', OpeningBalanceStore.handleCarryForward,
      OpeningBalanceStore.setFiscalYearStart, OpeningBalanceStore.setBalances. simpl.
    apply filter_all. intros b Hb. rewrite Hf in Hb. apply in_map_iff in Hb.
    destruct Hb as (x & <- & Hx). apply filter_In in Hx. destruct Hx as [_ Hx].
    unfold carried in Hx. apply andb_true_iff in Hx. simpl. tauto. }
  unfold report in Hrow. fold filtered in Hrow.
  apply balanceData_row in Hrow. destruct Hrow as [-> ->].
  rewrite accountTotals_debitOf, accountTotals_creditOf, Hid.
  assert (openingDebit (OpeningBalanceStore.balances state') (Account.id a)
          - openingCredit (OpeningBalanceStore.balances state') (Account.id a)
          = if isBalanceSheetAccount (Account.type a) then after (Account.id a) else 0)
    as Hnet.
  { rewrite opening_net.
    - rewrite Hb, (find_kept (carried after) (fun x => after (Account.id x))
                             accounts a Hids Ha).
      unfold carried. destruct (isBalanceSheetAccount (Account.type a)); simpl;
        [|reflexivity].
      destruct (Z.eqb_spec (after (Account.id a)) 0) as [E|N]; simpl; congruence.
    - rewrite Hb, map_map. simpl. now apply kept_ids_distinct. }
  lia.
Qed.
End CarryForwardFacts.

Section CarryForwardScenario.
Import YearEndClosing Closing TrialBalance Ledger.

Lemma carry_forward_store_witness :
  OpeningBalanceStore.balances Books.store2026
  = [OpeningBalance.mk "acc-101" 1300; OpeningBalance.mk "acc-301" (-500);
     OpeningBalance.mk "acc-310" (-800)]
  /\ OpeningBalanceStore.wellFormed Books.store2026
  /\ OpeningBalanceStore.getBalance Books.store2026 "acc-401" = 0.
Proof.
  destruct (carry_forward_store Books.year2025 Books.chart Scenario.openingB
              "2025-04-01" "2026-03-31" Books.store2025
              "2026-04-01" "2026-04-01T09:00:00.000Z" "2026-04-01T09:00:00.001Z")
    as (Hb & _ & Hw & Hg).
  - repeat constructor; simpl; intuition discriminate.
  - split; [reflexivity|]. split; [exact Hw|].
    apply (Hg Scenario.sales). simpl. tauto.
Defined.

Lemma carry_forward_trial_balance_witness :
  let row := mkRow "acc-101" "101" "現金" asset 2000 0 2000 0 in
  In row (report Scenario.byCode Books.journal2026 Books.chart
                 "2026-04-01" "2027-03-31" true
                 (OpeningBalanceStore.balances Books.store2026))
  /\ debitTotal row - creditTotal row = 1300 + 700 - 0.
Proof.
  intros row.
  assert (In row (report Scenario.byCode Books.journal2026 Books.chart
                         "2026-04-01" "2027-03-31" true
                         (OpeningBalanceStore.balances Books.store2026))) as Hrow.
  { left. reflexivity. }
  split; [exact Hrow|].
  apply (carry_forward_trial_balance Scenario.byCode Books.year2025 Books.chart
           Scenario.openingB "2025-04-01" "2026-03-31" Books.store2025
           "2026-04-01" "2026-04-01T09:00:00.000Z" "2026-04-01T09:00:00.001Z"
           Books.journal2026 "2026-04-01" "2027-03-31" row Scenario.cash).
  - repeat constructor; simpl; intuition discriminate.
  - exact Hrow.
  - simpl. tauto.
  - reflexivity.
Defined.
End CarryForwardScenario.

(** ** The journal store *)

Section JournalStoreFacts.
Import JournalStore.

Lemma filter_filter {A : Type} (p q : A -> bool) (l : list A) :
  filter p (filter q l) = filter (fun x => q x && p x) l.
Proof.
  induction l as [|a l IH]; simpl; [reflexivity|].
  destruct (q a); simpl; [destruct (p a)|]; now rewrite IH.
Qed.

Lemma idSet_in (ids : list string) (s : JSSet.t) (x : string) :
  In x (fold_left JSSet.add ids s) <-> In x s \/ In x ids.
Proof.
  revert s. induction ids as [|i ids IH]; intros s; simpl; [tauto|].
  rewrite IH, set_add_in. intuition.
Qed.

Lemma deleteEntry_fold (ids : list string) (entries : list JournalEntry.t) :
  fold_left deleteEntry ids entries
  = filter (fun entry => negb (existsb (String.eqb (JournalEntry.id entry)) ids)) entries.
Proof.
  revert entries. induction ids as [|i ids IH]; intros entries; simpl.
  - symmetry. now apply filter_all.
  - rewrite IH. unfold deleteEntry. rewrite filter_filter.
    apply filter_ext. intros e. now rewrite negb_orb.
Qed.

(** X11: deleting a batch of ids is deleting them one after the other:
    what stays are the entries whose id is not in the batch, in their
    order. *)
Theorem deleteEntries_iterated (entries : list JournalEntry.t) (ids : list string) :
  deleteEntries entries ids = fold_left deleteEntry ids entries
  /\ forall entry,
       In entry (deleteEntries entries ids)
       <-> In entry entries /\ ~ In (JournalEntry.id entry) ids.
Proof.
  assert (forall e : JournalEntry.t,
             JSSet.has (fold_left JSSet.add ids JSSet.empty) (JournalEntry.id e)
             = existsb (String.eqb (JournalEntry.id e)) ids) as Hset.
  { intros e. apply eq_true_iff_eq.
    rewrite set_has_iff, idSet_in.
    change (existsb (String.eqb (JournalEntry.id e)) ids)
      with (JSSet.has ids (JournalEntry.id e)).
    rewrite set_has_iff. unfold JSSet.empty. simpl. tauto. }
  split.
  - rewrite deleteEntry_fold. unfold deleteEntries. apply filter_ext.
    intros e. now rewrite Hset.
  - intros e. unfold deleteEntries. rewrite filter_In, Hset.
    change (existsb (String.eqb (JournalEntry.id e)) ids)
      with (JSSet.has ids (JournalEntry.id e)).
    rewrite negb_true_iff, <- not_true_iff_false, set_has_iff. tauto.
Qed.

(** X12: an entry added under an id no stored entry has is removed again
    by deleting that id, and nothing else is: the journal is what it was
    before. *)
Theorem add_then_delete
        (entries : list JournalEntry.t) (entryData : EntryData) (uuid now : string) :
  ~ In uuid (map JournalEntry.id entries) ->
  deleteEntry (addEntry entries entryData uuid now) uuid = entries.
Proof.
  intros H. unfold deleteEntry, addEntry. rewrite filter_app. simpl.
  rewrite String.eqb_refl. simpl. rewrite app_nil_r.
  apply filter_all. intros e He. apply negb_true_iff, String.eqb_neq.
  intros E. apply H. rewrite <- E. now apply in_map.
Qed.
End JournalStoreFacts.

Section JournalStoreScenario.
Import JournalStore.

Lemma add_then_delete_witness :
  deleteEntry (addEntry Books.year2025 (dataOf Scenario.lateSale) "j-9"
                        "2026-04-10T00:00:00.000Z") "j-9"
  = Books.year2025.
Proof.
  apply (add_then_delete Books.year2025 (dataOf Scenario.lateSale) "j-9"
                         "2026-04-10T00:00:00.000Z").
  simpl. intuition discriminate.
Defined.
End JournalStoreScenario.

(** ** Posting the depreciation drafts *)

Section FixedAssetLedgerFacts.
Import DepreciationJournal FixedAssetLedger JournalStore.

Lemma includes_app (a s sub : string) :
  JS.includes s sub = true -> JS.includes (a ++ s) sub = true.
Proof.
  intros H. induction a as [|c a IH]; [exact H|].
  change (JS.includes (String c (a ++ s)) sub = true).
  cbn [JS.includes]. rewrite IH. now destruct (String.prefix sub _).
Qed.

(** Each generated entry reaches the journal with its data unchanged;
    only the id and the time stamps are drawn anew. *)
Lemma addAll_data (uuid now : nat -> string) (generated : list JournalEntry.t) :
  forall entries k,
  exists added,
    addAll entries generated uuid now k = (entries ++ added)%list
    /\ map dataOf added = map dataOf generated
    /\ map JournalEntry.id added
       = map uuid (seq k (List.length generated)).
Proof.
  induction generated as [|g generated IH]; intros entries k; simpl.
  - exists []. now rewrite app_nil_r.
  - destruct (IH (addEntry entries (dataOf g) (uuid k) (now k)) (S k))
      as (added & E & D & I).
    exists (JournalEntry.mk (uuid k) (JournalEntry.date g) (JournalEntry.description g)
                            (JournalEntry.debitAccountId g)
                            (JournalEntry.creditAccountId g)
                            (JournalEntry.amount g) (now k) (now k) :: added).
    rewrite E. unfold addEntry. rewrite <- app_assoc. simpl.
    rewrite D, I. auto.
Qed.

Lemma posting_data (p : JournalEntry.t -> bool) (added generated : list JournalEntry.t) :
  (forall x y, dataOf x = dataOf y -> p x = p y) ->
  map dataOf added = map dataOf generated ->
  (forall g, In g generated -> p g = true) ->
  filter p added = added.
Proof.
  intros Hp. revert generated.
  induction added as [|a added IH]; intros [|g generated] E H; simpl in *;
    try discriminate; [reflexivity|].
  assert (dataOf a = dataOf g) as Ea by congruence.
  assert (map dataOf added = map dataOf generated) as Er by congruence.
  rewrite (Hp a g Ea), (H g (or_introl eq_refl)). f_equal.
  apply (IH generated Er). intros x Hx. apply H. now right.
Qed.

Lemma drafted_posting expense accumulated fiscalYearStart fiscalYearEnd due new :
  Forall2 (drafted expense accumulated) due new ->
  forall g, In g new ->
    JS.le fiscalYearStart (JournalEntry.date g)
    && JS.le (JournalEntry.date g) fiscalYearEnd = true ->
    isDepreciationPosting (Account.id expense) fiscalYearStart fiscalYearEnd g = true.
Proof.
  induction 1 as [|p e due new D F IH]; intros g Hg Hd; [destruct Hg|].
  destruct Hg as [<-|Hg]; [|now apply IH].
  destruct D as (Ed & _ & _ & _ & Edesc). unfold isDepreciationPosting.
  rewrite Ed, String.eqb_refl, Edesc. simpl.
  apply andb_true_iff in Hd. destruct Hd as [-> ->]. simpl.
  now apply includes_app.
Qed.

Variable calculateDepreciationSchedule :
  FixedAsset -> string -> Z -> list DepreciationSchedule.
Variable uuidv4 : nat -> string.
Variable now : nat -> string.
Variable storeUuid : nat -> string.
Variable storeNow : nat -> string.

(** X13: the ledger's flag for existing depreciation journals is the
    answer of [hasDepreciationJournals]; the journals it lists are
    entries of the journal, each debiting the account named 減価償却費,
    dated inside the period and described as 減価償却費. *)
Theorem existing_journals_flag
        (journalEntries : list JournalEntry.t) (accounts : list Account.t)
        (fiscalYearStart fiscalYearEnd : string) :
  hasExistingJournals journalEntries accounts fiscalYearStart fiscalYearEnd
  = hasDepreciationJournals journalEntries accounts fiscalYearStart fiscalYearEnd
  /\ forall entry,
       In entry (getDepreciationJournals journalEntries accounts
                                         fiscalYearStart fiscalYearEnd) ->
       In entry journalEntries
       /\ (exists expense,
              In expense accounts /\ Account.name expense = "減価償却費"
              /\ JournalEntry.debitAccountId entry = Account.id expense)
       /\ JS.le fiscalYearStart (JournalEntry.date entry) = true
       /\ JS.le (JournalEntry.date entry) fiscalYearEnd = true
       /\ JS.includes (JournalEntry.description entry) "減価償却費" = true.
Proof.
  unfold hasExistingJournals, getDepreciationJournals, hasDepreciationJournals.
  destruct (getDepreciationExpenseAccount accounts) as [expense|] eqn:He.
  - split.
    + induction journalEntries as [|e l IH]; simpl; [reflexivity|].
      destruct (isDepreciationPosting _ _ _ e); simpl; [reflexivity|exact IH].
    + intros entry H. apply filter_In in H. destruct H as [Hin Hp].
      unfold isDepreciationPosting in Hp. rewrite !andb_true_iff in Hp.
      destruct Hp as (((Hd & Hs) & Hf) & Hi). apply String.eqb_eq in Hd.
      unfold getDepreciationExpenseAccount, findAccountByName in He.
      apply find_some in He. destruct He as [Hacc Hname].
      apply String.eqb_eq in Hname.
      repeat split; auto. exists expense. auto.
  - split; [reflexivity|]. intros entry [].
Qed.

(** X14: generating the depreciation journals adds every draft to the
    journal and never looks at what is already there: when the drafts
    are dated inside the fiscal year, the depreciation journals of the
    year grow by the number of drafts, whatever was listed before - a
    second run counts every asset twice. *)
Theorem drafts_posted
        (journalEntries : list JournalEntry.t)
        (assets : list FixedAsset) (accounts : list Account.t)
        (fiscalYearStart fiscalYearEnd : string) (fiscalYear : Z) :
  let result := generateDepreciationJournals calculateDepreciationSchedule uuidv4 now
                  assets accounts fiscalYearStart fiscalYear in
  let posted := handleGenerateJournals calculateDepreciationSchedule uuidv4 now
                  storeUuid storeNow journalEntries assets accounts
                  fiscalYearStart fiscalYear in
  (forall entry, In entry (entries result) ->
     JS.le fiscalYearStart (JournalEntry.date entry)
     && JS.le (JournalEntry.date entry) fiscalYearEnd = true) ->
  List.length (getDepreciationJournals posted accounts fiscalYearStart fiscalYearEnd)
  = (List.length (getDepreciationJournals journalEntries accounts
                                          fiscalYearStart fiscalYearEnd)
     + List.length (entries result))%nat
  /\ map dataOf posted
     = (map dataOf journalEntries ++ map dataOf (entries result))%list.
Proof.
  intros result posted. subst result posted.
  unfold handleGenerateJournals, generateDepreciationJournals, getDepreciationJournals.
  destruct (getDepreciationExpenseAccount accounts) as [expense|] eqn:He;
    [|intros _; simpl; now rewrite app_nil_r].
  destruct (getAccumulatedDepreciationAccount accounts) as [accumulated|] eqn:Ha;
    [|intros _; simpl; rewrite app_nil_r; split; [lia|reflexivity]].
  destruct (assetStep_fold calculateDepreciationSchedule uuidv4 now
                           expense accumulated fiscalYearStart fiscalYear assets
                           (mkJournals [] 0 0 []))
    as (new & E & F & _ & _ & R).
  simpl in E, R. rewrite E, R. simpl. intros Hdates.
  destruct new as [|g new]; [simpl; rewrite app_nil_r; split; [lia|reflexivity]|].
  cbn [List.length Nat.eqb].
  destruct (addAll_data storeUuid storeNow (g :: new) journalEntries O)
    as (added & -> & D & _).
  rewrite filter_app, length_app, map_app, D. split; [|reflexivity].
  f_equal.
  rewrite (posting_data _ added (g :: new)).
  - rewrite <- (length_map dataOf added), D. apply length_map.
  - intros x y Exy. unfold isDepreciationPosting.
    assert (JournalEntry.debitAccountId x = JournalEntry.debitAccountId y
            /\ JournalEntry.date x = JournalEntry.date y
            /\ JournalEntry.description x = JournalEntry.description y) as (-> & -> & ->);
      [|reflexivity].
    unfold dataOf in Exy. inversion Exy. auto.
  - exact D.
  - intros x Hx. apply (drafted_posting expense accumulated _ _ _ _ F x Hx).
    now apply Hdates.
Qed.
End FixedAssetLedgerFacts.

Section FixedAssetLedgerScenario.
Import DepreciationJournal FixedAssetLedger JournalStore.

(** One depreciation journal is already in the books; generating again
    for the same year lists two. *)
Lemma drafts_posted_witness :
  let accounts := [Scenario.cash; Scenario.depreciationExpense;
                   Scenario.accumulatedDepreciation] in
  let posted := handleGenerateJournals Scenario.oneRow Scenario.ids Scenario.clock
                  Scenario.ids Scenario.clock [Scenario.depreciationPosting]
                  [Scenario.laptop; Scenario.soldVan] accounts "2025-04-01" 2025 in
  List.length (getDepreciationJournals posted accounts "2025-04-01" "2026-03-31") = 2%nat
  /\ map JournalEntry.amount posted = [40000; 40000].
Proof.
  destruct (drafts_posted Scenario.oneRow Scenario.ids Scenario.clock
              Scenario.ids Scenario.clock [Scenario.depreciationPosting]
              [Scenario.laptop; Scenario.soldVan]
              [Scenario.cash; Scenario.depreciationExpense;
               Scenario.accumulatedDepreciation]
              "2025-04-01" "2026-03-31" 2025) as [H _].
  - intros entry He. vm_compute in He. destruct He as [<-|[]]. reflexivity.
  - split; [exact H|reflexivity].
Defined.
End FixedAssetLedgerScenario.

(** ** The account store *)

Section AccountStoreFacts.
Import AccountStore DepreciationJournal TrialBalance Ledger.

Lemma missingDefaults_from (existingNames : list string) (uuid : nat -> string)
      (defaults : list Account.t) :
  forall k a,
    In a (missingDefaults existingNames defaults uuid k) ->
    ~ In (Account.name a) existingNames
    /\ exists d, In d defaults /\ Account.name a = Account.name d
                 /\ Account.code a = Account.code d /\ Account.type a = Account.type d.
Proof.
  induction defaults as [|d defaults IH]; simpl; intros k a H; [destruct H|].
  destruct (existsb (String.eqb (Account.name d)) existingNames) eqn:E; simpl in H.
  - destruct (IH k a H) as (N & d' & Hd & R). split; [exact N|]. exists d'. tauto.
  - destruct H as [<-|H].
    + simpl. split.
      * intros Hin. apply set_has_iff in Hin. unfold JSSet.has in Hin. congruence.
      * exists d. auto.
    + destruct (IH (S k) a H) as (N & d' & Hd & R). split; [exact N|]. exists d'. tauto.
Qed.

Lemma missingDefaults_covers (existingNames : list string) (uuid : nat -> string)
      (defaults : list Account.t) :
  forall k d,
    In d defaults ->
    In (Account.name d) existingNames
    \/ In (Account.name d) (map Account.name (missingDefaults existingNames defaults uuid k)).
Proof.
  induction defaults as [|x defaults IH]; simpl; intros k d H; [destruct H|].
  destruct (existsb (String.eqb (Account.name x)) existingNames) eqn:E; simpl.
  - destruct H as [<-|H]; [|now apply IH].
    left. apply set_has_iff. exact E.
  - destruct H as [<-|H]; [right; now left|].
    destruct (IH (S k) d H); [now left|right; now right].
Qed.

Lemma missingDefaults_none (existingNames : list string) (uuid : nat -> string)
      (defaults : list Account.t) (k : nat) :
  (forall d, In d defaults -> In (Account.name d) existingNames) ->
  missingDefaults existingNames defaults uuid k = [].
Proof.
  induction defaults as [|x defaults IH]; simpl; intros H; [reflexivity|].
  assert (existsb (String.eqb (Account.name x)) existingNames = true) as ->.
  { apply (set_has_iff existingNames). apply H. now left. }
  simpl. apply IH. intros d Hd. apply H. now right.
Qed.

Lemma named_account_found (accounts : list Account.t) (name : string) :
  In name (map Account.name accounts) -> findAccountByName accounts name <> None.
Proof.
  intros H E. apply in_map_iff in H. destruct H as (a & <- & Ha).
  pose proof (find_none _ _ E a Ha) as N. simpl in N.
  now rewrite String.eqb_refl in N.
Qed.

Lemma ensure_appends (accounts : list Account.t) (uuid : nat -> string) :
  ensureRequiredAccounts accounts uuid
  = (accounts
     ++ missingDefaults (map Account.name accounts) defaultAccounts uuid O)%list.
Proof.
  unfold ensureRequiredAccounts. cbv zeta.
  generalize (missingDefaults (map Account.name accounts) defaultAccounts uuid O).
  intros [|a l]; [now rewrite app_nil_r|reflexivity].
Qed.

Lemma default_names_present (accounts : list Account.t) (uuid : nat -> string) :
  forall d, In d defaultAccounts ->
            In (Account.name d) (map Account.name (ensureRequiredAccounts accounts uuid)).
Proof.
  intros d Hd. rewrite ensure_appends, map_app. apply in_or_app.
  apply (missingDefaults_covers (map Account.name accounts) uuid defaultAccounts O d Hd).
Qed.

Lemma expense_default : In (Account.mk "acc-508" "508" "減価償却費" expense) defaultAccounts.
Proof. unfold defaultAccounts. do 28 right. left. reflexivity. Qed.

Lemma accumulated_default :
  In (Account.mk "acc-159" "159" "減価償却累計額" asset) defaultAccounts.
Proof. unfold defaultAccounts. do 10 right. left. reflexivity. Qed.

(** X15: [ensureRequiredAccounts] keeps the chart and appends, under
    fresh ids, a copy of each default account whose name the chart
    lacked; afterwards every default name is in the chart, so the
    generation of depreciation journals no longer fails for a missing
    account, and running it again changes nothing. *)
Theorem ensure_required_accounts
        (accounts : list Account.t) (uuid uuid' : nat -> string)
        (calculateDepreciationSchedule :
           FixedAsset -> string -> Z -> list DepreciationSchedule)
        (uuidv4 now : nat -> string)
        (assets : list FixedAsset) (fiscalYearStart : string) (year : Z) :
  (exists added,
      ensureRequiredAccounts accounts uuid = (accounts ++ added)%list
      /\ forall a, In a added ->
           ~ In (Account.name a) (map Account.name accounts)
           /\ exists d, In d defaultAccounts /\ Account.name a = Account.name d
                        /\ Account.code a = Account.code d
                        /\ Account.type a = Account.type d)
  /\ (forall d, In d defaultAccounts ->
                In (Account.name d)
                   (map Account.name (ensureRequiredAccounts accounts uuid)))
  /\ errors (generateDepreciationJournals calculateDepreciationSchedule uuidv4 now
               assets (ensureRequiredAccounts accounts uuid) fiscalYearStart year) = []
  /\ ensureRequiredAccounts (ensureRequiredAccounts accounts uuid) uuid'
     = ensureRequiredAccounts accounts uuid.
Proof.
  pose proof (default_names_present accounts uuid) as Hall.
  split; [|split; [exact Hall|split]].
  - exists (missingDefaults (map Account.name accounts) defaultAccounts uuid O).
    split; [apply ensure_appends|]. intros a Ha.
    apply (missingDefaults_from _ _ _ _ _ Ha).
  - revert Hall. generalize (ensureRequiredAccounts accounts uuid). intros ensured Hall.
    unfold generateDepreciationJournals.
    destruct (getDepreciationExpenseAccount ensured) as [expense|] eqn:He.
    + destruct (getAccumulatedDepreciationAccount ensured) as [accumulated|] eqn:Ha.
      * destruct (assetStep_fold calculateDepreciationSchedule uuidv4 now
                                 expense accumulated fiscalYearStart year assets
                                 (mkJournals [] 0 0 []))
          as (new & _ & _ & _ & _ & R).
        exact R.
      * exfalso. revert Ha. apply named_account_found.
        apply (Hall _ accumulated_default).
    + exfalso. revert He. apply named_account_found.
      apply (Hall _ expense_default).
  - revert Hall. generalize (ensureRequiredAccounts accounts uuid). intros ensured Hall.
    rewrite ensure_appends.
    rewrite (missingDefaults_none (map Account.name ensured) uuid' defaultAccounts O Hall).
    apply app_nil_r.
Qed.
End AccountStoreFacts.

(** ** Deleting an account that entries still name *)

Section DeletedAccountFacts.
Import AccountStore TrialBalance Ledger.
Variable localeCompare : string -> string -> Z.

(** Where the rows of the report come from. *)
Lemma balanceData_in filtered accounts include balances row :
  let m := accountTotals filtered include balances in
  In row (balanceData localeCompare filtered accounts include balances) <->
  (exists account t,
      In account accounts /\ JSMap.get m (Account.id account) = Some t
      /\ row = setBalances (knownRow t account))
  \/ (exists missingId t,
         In missingId (missingAccountIds accounts filtered)
         /\ JSMap.get m missingId = Some t
         /\ row = setBalances (unknownRow t missingId)).
Proof.
  intros m. unfold balanceData. fold m. rewrite in_map_iff. split.
  - intros (r0 & <- & H). apply (Permutation_in _ (sort_perm _ _)) in H.
    unfold unsortedRows in H. apply in_app_or in H.
    destruct H as [H|H]; apply in_flat_map in H; destruct H as (x & Hx & H).
    + left. destruct (JSMap.get m (Account.id x)) as [t|] eqn:G; [|destruct H].
      destruct H as [<-|[]]. exists x, t. auto.
    + right. destruct (JSMap.get m x) as [t|] eqn:G; [|destruct H].
      destruct H as [<-|[]]. exists x, t. auto.
  - intros H.
    assert (exists r0, row = setBalances r0
                       /\ In r0 (unsortedRows m accounts
                                              (missingAccountIds accounts filtered)))
      as (r0 & -> & Hr0).
    { unfold unsortedRows.
      destruct H as [(x & t & Hx & G & ->)|(x & t & Hx & G & ->)];
        eexists; (split; [reflexivity|]); apply in_or_app; [left|right];
        apply in_flat_map; exists x; (split; [assumption|]); rewrite G; now left. }
    exists r0. split; [reflexivity|].
    apply (Permutation_in _ (Permutation_sym (sort_perm _ _))). exact Hr0.
Qed.

(** The balance columns of a row are fixed by its totals, whatever the
    account type. *)
Lemma setBalances_columns row :
  debitBalance (setBalances row) = Z.max 0 (debitTotal row - creditTotal row)
  /\ creditBalance (setBalances row) = Z.max 0 (creditTotal row - debitTotal row).
Proof.
  unfold setBalances. destruct (_ || _); simpl;
    repeat match goal with
           | |- context [if ?a <=? ?b then _ else _] => destruct (Z.leb_spec a b)
           | |- context [if ?a <? ?b then _ else _] => destruct (Z.ltb_spec a b)
           end; lia.
Qed.

Lemma deleteAccount_ids accounts id x :
  In x (map Account.id (deleteAccount accounts id))
  <-> In x (map Account.id accounts) /\ x <> id.
Proof.
  unfold deleteAccount. rewrite !in_map_iff. split.
  - intros (a & <- & Ha). apply filter_In in Ha. destruct Ha as [Ha N].
    apply negb_true_iff, String.eqb_neq in N. split; [|exact N]. now exists a.
  - intros ((a & <- & Ha) & N). exists a. split; [reflexivity|].
    apply filter_In. split; [exact Ha|]. now apply negb_true_iff, String.eqb_neq.
Qed.

(** X16: deleting an account leaves the entries that name it in the
    journal.  In the trial balance its row stays, with the same four
    amounts, but as an unknown account - code [???], listed as an asset
    whatever the type was - and the missing-account warning is raised;
    the rows of all other ids are unchanged. *)
Theorem deleted_account_row
        (entries : list JournalEntry.t) (accounts : list Account.t)
        (startDate endDate : string)
        (includeOpeningBalance : bool) (balances : list OpeningBalance.t)
        (id : string) :
  let filtered := filteredEntries entries startDate endDate in
  let rows := report localeCompare entries accounts startDate endDate
                     includeOpeningBalance balances in
  let rows' := report localeCompare entries (deleteAccount accounts id)
                      startDate endDate includeOpeningBalance balances in
  In id (map Account.id accounts) ->
  namedBy filtered id = true ->
  warning entries (deleteAccount accounts id) startDate endDate = true
  /\ (exists row row',
         In row rows /\ In row' rows'
         /\ accountId row = id /\ accountId row' = id
         /\ code row' = "???" /\ type row' = asset)
  /\ (forall row row',
         In row rows -> In row' rows' -> accountId row = id -> accountId row' = id ->
         debitTotal row' = debitTotal row /\ creditTotal row' = creditTotal row
         /\ debitBalance row' = debitBalance row
         /\ creditBalance row' = creditBalance row)
  /\ (forall row, accountId row <> id -> (In row rows <-> In row rows')).
Proof.
  intros filtered rows rows' Hid Hnamed.
  set (m := accountTotals filtered includeOpeningBalance balances).
  assert (In id (missingAccountIds (deleteAccount accounts id) filtered)) as Hmiss.
  { apply missingAccountIds_in. split.
    - rewrite deleteAccount_ids. tauto.
    - apply namedBy_in in Hnamed. destruct Hnamed as (e & He & Hs).
      exists e. split; [exact He|]. destruct Hs; auto. }
  assert (exists t, JSMap.get m id = Some t) as (t & G).
  { assert (JSMap.has m id = true) as Hh.
    { unfold m. rewrite accountTotals_has, Hnamed. apply orb_true_r. }
    unfold JSMap.has in Hh. destruct (JSMap.get m id) as [t|]; [now exists t|discriminate]. }
  split; [|split; [|split]].
  - unfold warning. fold filtered. unfold JSSet.size.
    destruct (missingAccountIds (deleteAccount accounts id) filtered);
      [destruct Hmiss|reflexivity].
  - apply in_map_iff in Hid. destruct Hid as (a & Ea & Ha).
    exists (setBalances (knownRow t a)), (setBalances (unknownRow t id)).
    destruct (setBalances_totals (knownRow t a)) as (-> & _).
    destruct (setBalances_totals (unknownRow t id)) as (-> & -> & -> & _).
    simpl. repeat split; auto.
    + unfold rows, report. fold filtered. apply balanceData_in. left.
      exists a, t. fold m. rewrite Ea. auto.
    + unfold rows', report. fold filtered. apply balanceData_in. right.
      exists id, t. fold m. auto.
  - intros row row' Hrow Hrow' E E'.
    assert (forall chart r,
               In r (balanceData localeCompare filtered chart
                                 includeOpeningBalance balances) ->
               debitBalance r = Z.max 0 (debitTotal r - creditTotal r)
               /\ creditBalance r = Z.max 0 (creditTotal r - debitTotal r)) as Hcols.
    { intros chart r Hr. unfold balanceData in Hr. apply in_map_iff in Hr.
      destruct Hr as (r0 & <- & _).
      destruct (setBalances_totals r0) as (_ & _ & _ & -> & ->).
      apply setBalances_columns. }
    unfold rows, report in Hrow. unfold rows', report in Hrow'.
    fold filtered in Hrow, Hrow'.
    destruct (Hcols _ _ Hrow) as [-> ->]. destruct (Hcols _ _ Hrow') as [-> ->].
    apply balanceData_row in Hrow, Hrow'.
    destruct Hrow as [-> ->]. destruct Hrow' as [-> ->].
    rewrite E, E'. auto.
  - intros row Hne. unfold rows, rows', report. fold filtered.
    rewrite !balanceData_in. fold m. split.
    + intros [(a & t0 & Ha & G0 & ->)|(x & t0 & Hx & G0 & ->)].
      * left. exists a, t0. repeat split; auto.
        unfold deleteAccount. apply filter_In. split; [exact Ha|].
        apply negb_true_iff, String.eqb_neq.
        destruct (setBalances_totals (knownRow t0 a)) as (Ei & _).
        rewrite Ei in Hne. exact Hne.
      * right. exists x, t0. repeat split; auto.
        apply missingAccountIds_in. apply missingAccountIds_in in Hx.
        destruct Hx as [Hn He]. split; [|exact He].
        rewrite deleteAccount_ids. tauto.
    + intros [(a & t0 & Ha & G0 & ->)|(x & t0 & Hx & G0 & ->)].
      * left. exists a, t0. repeat split; auto.
        unfold deleteAccount in Ha. apply filter_In in Ha. tauto.
      * right. exists x, t0. repeat split; auto.
        apply missingAccountIds_in. apply missingAccountIds_in in Hx.
        destruct Hx as [Hn He]. split; [|exact He].
        rewrite deleteAccount_ids in Hn.
        destruct (setBalances_totals (unknownRow t0 x)) as (Ei & _).
        rewrite Ei in Hne. simpl in Hne. tauto.
Qed.
End DeletedAccountFacts.

Section DeletedAccountScenario.
Import AccountStore TrialBalance Ledger.

(** The sales account is deleted after a cash sale was booked. *)
Lemma deleted_account_row_witness :
  let rows' := report Scenario.byCode Books.year2025
                      (deleteAccount Books.chart "acc-401") "" "" true
                      Scenario.openingB in
  warning Books.year2025 (deleteAccount Books.chart "acc-401") "" "" = true
  /\ In (mkRow "acc-401" "???" "不明な科目 (acc-401...)" asset 0 1000 0 1000) rows'.
Proof.
  destruct (deleted_account_row Scenario.byCode Books.year2025 Books.chart "" "" true
              Scenario.openingB "acc-401") as (W & _).
  - simpl. tauto.
  - reflexivity.
  - split; [exact W|]. vm_compute. tauto.
Defined.
End DeletedAccountScenario.

(** ** One posting rule, three reports *)

Section PostingFacts.
Import Postings Ledger.

Lemma postEntry_at accounts (m : JSMap.t Z) e k :
  JSMap.getOr (postEntry accounts m e) k 0
  = JSMap.getOr m k 0
    + (if String.eqb (JournalEntry.debitAccountId e) k
       then side (getAccountType accounts (JournalEntry.debitAccountId e))
            * JournalEntry.amount e
       else 0)
    - (if String.eqb (JournalEntry.creditAccountId e) k
       then side (getAccountType accounts (JournalEntry.creditAccountId e))
            * JournalEntry.amount e
       else 0).
Proof.
  unfold postEntry, bump.
  generalize (getAccountType accounts (JournalEntry.debitAccountId e)).
  generalize (getAccountType accounts (JournalEntry.creditAccountId e)).
  generalize (JournalEntry.debitAccountId e) (JournalEntry.creditAccountId e)
             (JournalEntry.amount e).
  intros d c amount ct dt.
  destruct dt as [[]|], ct as [[]|]; cbn [side isType AccountType_eqb];
    destruct (String.eqb_spec d k) as [->|Nd];
    destruct (String.eqb_spec c k) as [->|Nc];
    repeat (rewrite getOr_set_same || rewrite getOr_set_other by congruence);
    lia.
Qed.

Lemma postEntries_at accounts l (m : JSMap.t Z) k :
  JSMap.getOr (fold_left (postEntry accounts) l m) k 0
  = JSMap.getOr m k 0
    + side (getAccountType accounts k) * (postedDebit l k - postedCredit l k).
Proof.
  revert m. unfold postedDebit, postedCredit.
  induction l as [|e l IH]; intros m; simpl; [lia|].
  rewrite IH, postEntry_at.
  destruct (String.eqb_spec (JournalEntry.debitAccountId e) k) as [->|Nd];
    destruct (String.eqb_spec (JournalEntry.creditAccountId e) k) as [->|Nc]; lia.
Qed.

Lemma setOpening_last l (m : JSMap.t Z) k :
  JSMap.getOr (fold_left YearEndClosing.setOpening l m) k 0
  = match find (fun ob => String.eqb (OpeningBalance.accountId ob) k) (rev l) with
    | Some ob => OpeningBalance.amount ob
    | None => JSMap.getOr m k 0
    end.
Proof.
  induction l as [|ob l IH] using rev_ind; [reflexivity|].
  rewrite fold_left_app, rev_app_distr. simpl.
  unfold YearEndClosing.setOpening at 1.
  destruct (String.eqb_spec (OpeningBalance.accountId ob) k) as [->|N].
  - now rewrite getOr_set_same.
  - rewrite getOr_set_other by assumption. exact IH.
Qed.

Lemma closing_balances accounts l st :
  YearEndClosing.balances (fold_left (YearEndClosing.entryStep accounts) l st)
  = fold_left (postEntry accounts) l (YearEndClosing.balances st).
Proof. revert st. induction l as [|e l IH]; intros st; simpl; [reflexivity|apply IH]. Qed.

Lemma cashflow_balances accounts l st :
  CashFlow.endingBalances (fold_left (CashFlow.entryStep accounts) l st)
  = fold_left (postEntry accounts) l (CashFlow.endingBalances st).
Proof. revert st. induction l as [|e l IH]; intros st; simpl; [reflexivity|apply IH]. Qed.



End PostingFacts.

Section PostingReports.
Import Postings Ledger.

(** X17: the balance the closing keeps for an id, before the profit is
    transferred, is the last opening balance recorded under the id, moved
    by the entries of the fiscal year that name it: up by debits and down
    by credits when the id is an asset account of the chart, down by
    debits and up by credits when it is a liability or equity account,
    and not at all for a revenue or expense account or an id outside the
    chart. *)
Theorem closing_balance_formula
        (entries : list JournalEntry.t) (accounts : list Account.t)
        (openingBalances : list OpeningBalance.t)
        (fiscalYearStart fiscalYearEnd : string) (k : string) :
  let period := filter (YearEndClosing.inPeriod fiscalYearStart fiscalYearEnd) entries in
  Closing.aggregatedBalance entries accounts openingBalances
                            fiscalYearStart fiscalYearEnd k
  = lastOpening openingBalances k
    + side (getAccountType accounts k) * (postedDebit period k - postedCredit period k).
Proof.
  intros period. unfold Closing.aggregatedBalance, YearEndClosing.aggregate.
  fold period. rewrite closing_balances. simpl.
  rewrite postEntries_at, setOpening_last. reflexivity.
Qed.

(** The two maps of the cash-flow statement, read at an id. *)
Lemma cash_ledger
        (entries : list JournalEntry.t) (accounts : list Account.t)
        (openingBalances : list OpeningBalance.t) :
  let B := fold_left CashFlow.setOpening openingBalances JSMap.empty in
  let E := CashFlow.endingBalances
             (fold_left (CashFlow.entryStep accounts) entries (CashFlow.mkLedger B 0 0)) in
  forall k,
    JSMap.getOr B k 0 = lastOpening openingBalances k
    /\ JSMap.getOr E k 0
       = lastOpening openingBalances k
         + side (getAccountType accounts k)
           * (postedDebit entries k - postedCredit entries k).
Proof.
  intros B E k.
  assert (JSMap.getOr B k 0 = lastOpening openingBalances k) as HB.
  { unfold B. change CashFlow.setOpening with YearEndClosing.setOpening.
    rewrite setOpening_last. reflexivity. }
  split; [exact HB|].
  unfold E. rewrite cashflow_balances. simpl. now rewrite postEntries_at, HB.
Qed.

(** Cash at both ends of the statement, summed over the cash accounts. *)
Lemma cash_positions
        (entries : list JournalEntry.t) (accounts : list Account.t)
        (openingBalances : list OpeningBalance.t) :
  let cf := CashFlow.calculateCashFlow entries accounts openingBalances in
  let B := fold_left CashFlow.setOpening openingBalances JSMap.empty in
  let E := CashFlow.endingBalances
             (fold_left (CashFlow.entryStep accounts) entries (CashFlow.mkLedger B 0 0)) in
  CashFlow.beginningCash cf
  = sumZ (fun a => if CashFlow.isCashAccount accounts (Account.id a)
                   then JSMap.getOr B (Account.id a) 0 else 0) accounts
  /\ CashFlow.endingCash cf
     = sumZ (fun a => if CashFlow.isCashAccount accounts (Account.id a)
                      then JSMap.getOr E (Account.id a) 0 else 0) accounts
  /\ CashFlow.totalCashFlow cf = CashFlow.endingCash cf - CashFlow.beginningCash cf.
Proof.
  intros cf B E.
  destruct (accounts_cash accounts B E accounts CashFlow.noChanges) as [Hb He].
  unfold cf, CashFlow.calculateCashFlow. fold B. fold E. cbv zeta.
  cbn [CashFlow.beginningCash CashFlow.endingCash CashFlow.totalCashFlow].
  rewrite Hb, He. cbn [CashFlow.beginningCash_ CashFlow.endingCash_ CashFlow.noChanges].
  repeat split; lia.
Qed.

(** X18: the total cash flow is what the entries post to the cash
    accounts of the chart - accounts named 現金 or 小口現金 or with 預金 in
    the name - each in the direction of its account type; cash at the
    beginning is the sum of their last opening balances. *)
Theorem total_cash_flow_formula
        (entries : list JournalEntry.t) (accounts : list Account.t)
        (openingBalances : list OpeningBalance.t) :
  let cf := CashFlow.calculateCashFlow entries accounts openingBalances in
  CashFlow.beginningCash cf
  = sumZ (fun a => if CashFlow.isCashAccount accounts (Account.id a)
                   then lastOpening openingBalances (Account.id a) else 0) accounts
  /\ CashFlow.totalCashFlow cf
     = sumZ (fun a => if CashFlow.isCashAccount accounts (Account.id a)
                      then side (getAccountType accounts (Account.id a))
                           * (postedDebit entries (Account.id a)
                              - postedCredit entries (Account.id a))
                      else 0) accounts.
Proof.
  intros cf.
  destruct (cash_positions entries accounts openingBalances) as (Hb & He & Ht).
  pose proof (cash_ledger entries accounts openingBalances) as HL.
  cbv zeta in Hb, He, Ht, HL. fold cf in Hb, He, Ht.
  split.
  - rewrite Hb. apply sumZ_ext. intros a _.
    destruct (HL (Account.id a)) as [-> _]. reflexivity.
  - rewrite Ht, Hb, He, <- sumZ_minus. apply sumZ_ext. intros a _.
    destruct (HL (Account.id a)) as [-> ->].
    destruct (CashFlow.isCashAccount accounts (Account.id a)); lia.
Qed.


End PostingReports.

(** ** Books kept on a cash basis *)

Section CashBasis.
Import Postings Ledger CashFlow.






End CashBasis.

Section CashBasisScenario.
Import Postings CashFlow.

End CashBasisScenario.

(** ** The statements against the closing *)

Section StatementsAgainstClosing.
Import Postings Ledger FinancialStatements.
Variable localeCompare : string -> string -> Z.


Lemma le_not_lt (a b : string) : JS.le a b = negb (JS.lt b a).
Proof.
  unfold JS.le, JS.lt, String.leb, String.ltb.
  rewrite (String.compare_antisym b a). now destruct (String.compare a b).
Qed.

(** With both dates set, the filter of the report pages keeps the entries
    the closing reads. *)
Lemma filtered_period entries startDate endDate :
  startDate <> "" -> endDate <> "" ->
  filteredEntries entries startDate endDate
  = filter (YearEndClosing.inPeriod startDate endDate) entries.
Proof.
  intros Hs He. unfold filteredEntries. apply filter_ext. intros e.
  unfold YearEndClosing.inPeriod. rewrite !le_not_lt.
  destruct startDate; [congruence|]. destruct endDate; [congruence|].
  cbn [JS.truthy andb].
  destruct (JS.lt (JournalEntry.date e) _); [reflexivity|].
  now destruct (JS.lt _ (JournalEntry.date e)).
Qed.

Lemma find_own (accounts : list Account.t) (a : Account.t) :
  NoDup (map Account.id accounts) -> In a accounts ->
  findAccount accounts (Account.id a) = Some a.
Proof.
  unfold findAccount. induction accounts as [|x l IH]; simpl; intros H Ha; [destruct Ha|].
  apply NoDup_cons_iff in H. destruct H as [Hx Hl].
  destruct Ha as [->|Ha]; [now rewrite String.eqb_refl|].
  destruct (String.eqb_spec (Account.id x) (Account.id a)) as [E|N]; [|now apply IH].
  exfalso. apply Hx. rewrite E. now apply in_map.
Qed.



(** The raw balance of an account of the chart: the opening balances the
    statements let through, then debits minus credits. *)
Lemma statement_raw filtered accounts include openingBalances a :
  NoDup (map Account.id accounts) -> In a accounts ->
  rawBalance (rawBalances filtered accounts include openingBalances) a
  = (if include && isBalanceSheetType (Account.type a)
     then sumZ (fun ob => if String.eqb (OpeningBalance.accountId ob) (Account.id a)
                          then OpeningBalance.amount ob else 0) openingBalances
     else 0)
    + postedDebit filtered (Account.id a) - postedCredit filtered (Account.id a).
Proof.
  intros Hids Ha. unfold rawBalance, rawBalances. rewrite statement_entries.
  destruct include; simpl; [|reflexivity].
  rewrite statement_openings. simpl.
  assert (sumZ (fun ob => if String.eqb (OpeningBalance.accountId ob) (Account.id a)
                          then (if openingApplies accounts ob
                                then OpeningBalance.amount ob else 0)
                          else 0) openingBalances
          = if isBalanceSheetType (Account.type a)
            then sumZ (fun ob => if String.eqb (OpeningBalance.accountId ob) (Account.id a)
                                 then OpeningBalance.amount ob else 0) openingBalances
            else 0) as ->; [|lia].
  destruct (isBalanceSheetType (Account.type a)) eqn:T.
  - apply sumZ_ext. intros ob _.
    destruct (String.eqb_spec (OpeningBalance.accountId ob) (Account.id a)) as [E|N];
      [|reflexivity].
    unfold openingApplies. now rewrite E, (find_own accounts a Hids Ha), T.
  - apply sumZ_all_zero. intros ob _.
    destruct (String.eqb_spec (OpeningBalance.accountId ob) (Account.id a)) as [E|N];
      [|reflexivity].
    unfold openingApplies. now rewrite E, (find_own accounts a Hids Ha), T.
Qed.


End StatementsAgainstClosing.

Section ClosingAgainstStatements.
Import Postings Ledger FinancialStatements.

(** With one record per account, the opening balances recorded under an
    id add up to the last one. *)
Lemma opening_sum_last (openingBalances : list OpeningBalance.t) (k : string) :
  NoDup (map OpeningBalance.accountId openingBalances) ->
  sumZ (fun ob => if String.eqb (OpeningBalance.accountId ob) k
                  then OpeningBalance.amount ob else 0) openingBalances
  = lastOpening openingBalances k.
Proof.
  intros H. unfold lastOpening.
  rewrite (sumZ_perm _ _ _ (Permutation_rev openingBalances)).
  assert (NoDup (map OpeningBalance.accountId (rev openingBalances))) as Hr.
  { rewrite map_rev. now apply NoDup_rev. }
  revert Hr. generalize (rev openingBalances). clear H.
  induction l as [|ob l IH]; simpl; intros H; [reflexivity|].
  apply NoDup_cons_iff in H. destruct H as [Hob Hl].
  destruct (String.eqb_spec (OpeningBalance.accountId ob) k) as [E|N]; [|now apply IH].
  rewrite sumZ_all_zero; [lia|]. intros x Hx.
  destruct (String.eqb_spec (OpeningBalance.accountId x) k) as [E'|]; [|reflexivity].
  exfalso. apply Hob. rewrite E, <- E'. now apply in_map.
Qed.

(** X22: with distinct account ids and one opening balance per account,
    the closing and the statements agree on the balance of every asset
    account for the same period; for a liability or equity account the
    closing moves the opening balance by the same postings in the
    opposite direction, so the two balances lie on either side of the
    opening balance. *)
Theorem closing_against_statement
        (entries : list JournalEntry.t) (accounts : list Account.t)
        (openingBalances : list OpeningBalance.t)
        (fiscalYearStart fiscalYearEnd : string) (a : Account.t) :
  NoDup (map Account.id accounts) ->
  NoDup (map OpeningBalance.accountId openingBalances) ->
  In a accounts ->
  fiscalYearStart <> "" -> fiscalYearEnd <> "" ->
  let closing := Closing.aggregatedBalance entries accounts openingBalances
                                           fiscalYearStart fiscalYearEnd
                                           (Account.id a) in
  let statement :=
    rawBalance (rawBalances (filteredEntries entries fiscalYearStart fiscalYearEnd)
                            accounts true openingBalances) a in
  let opening := lastOpening openingBalances (Account.id a) in
  (Account.type a = asset -> closing = statement)
  /\ (Account.type a = liability \/ Account.type a = equity ->
      closing - opening = - (statement - opening)).
Proof.
  intros Hids Hob Ha Hs He closing statement opening.
  assert (closing
          = opening
            + side (Some (Account.type a))
              * (postedDebit (filter (YearEndClosing.inPeriod fiscalYearStart fiscalYearEnd)
                                     entries) (Account.id a)
                 - postedCredit (filter (YearEndClosing.inPeriod fiscalYearStart
                                                                 fiscalYearEnd)
                                        entries) (Account.id a))) as Hc.
  { unfold closing, Closing.aggregatedBalance, YearEndClosing.aggregate.
    rewrite closing_balances. simpl. rewrite postEntries_at, setOpening_last.
    unfold getAccountType. rewrite (find_own accounts a Hids Ha). reflexivity. }
  assert (isBalanceSheetType (Account.type a) = true ->
          statement
          = opening
            + (postedDebit (filter (YearEndClosing.inPeriod fiscalYearStart fiscalYearEnd)
                                   entries) (Account.id a)
               - postedCredit (filter (YearEndClosing.inPeriod fiscalYearStart
                                                               fiscalYearEnd)
                                      entries) (Account.id a))) as Hst.
  { intros T. unfold statement.
    rewrite (statement_raw _ accounts true openingBalances a Hids Ha), T.
    rewrite (filtered_period entries _ _ Hs He). simpl.
    rewrite (opening_sum_last openingBalances (Account.id a) Hob). unfold opening. lia. }
  split.
  - intros T. rewrite Hc, Hst by (now rewrite T). rewrite T. cbn [side]. lia.
  - intros T. rewrite Hc, Hst by (destruct T as [T|T]; now rewrite T).
    destruct T as [T|T]; rewrite T; cbn [side]; lia.
Qed.
End ClosingAgainstStatements.

Section StatementScenario.
Import Postings Ledger FinancialStatements.


(** A purchase on credit: the payable stands at -100 in the statements
    and at 100 in the closing. *)
Lemma closing_against_statement_witness :
  let accounts := [Scenario.payable; Scenario.retained; Scenario.purchases] in
  let closing := Closing.aggregatedBalance [Scenario.creditPurchase] accounts []
                                           "2025-04-01" "2026-03-31" "acc-201" in
  let statement :=
    rawBalance (rawBalances (filteredEntries [Scenario.creditPurchase]
                                             "2025-04-01" "2026-03-31")
                            accounts true []) Scenario.payable in
  closing = 100 /\ statement = -100
  /\ closing - lastOpening [] "acc-201" = - (statement - lastOpening [] "acc-201").
Proof.
  destruct (closing_against_statement [Scenario.creditPurchase]
              [Scenario.payable; Scenario.retained; Scenario.purchases] []
              "2025-04-01" "2026-03-31" Scenario.payable) as [_ H].
  - repeat constructor; simpl; intuition discriminate.
  - constructor.
  - left. reflexivity.
  - discriminate.
  - discriminate.
  - split; [reflexivity|]. split; [reflexivity|]. exact (H (or_introl eq_refl)).
Defined.
End StatementScenario.

(** ** The tax helpers *)

Section TaxHelperFacts.
Import Tax TaxHelpers.

Lemma holdsFrom_spec (p : Z -> bool) (n : nat) :
  forall a, holdsFrom a n p = true ->
            forall z, a <= z < a + Z.of_nat n -> p z = true.
Proof.
  induction n as [|n IH]; intros a H z Hz; [lia|].
  cbn [holdsFrom] in H. apply andb_true_iff in H. destruct H as [Ha Hrest].
  destruct (Z.eq_dec z a) as [->|N]; [exact Ha|].
  apply (IH (a + 1) Hrest). lia.
Qed.

Lemma whole_amounts_checked :
  holdsFrom 0 (Z.to_nat 10001)
            (fun a => wholeAmountChecks a rate8 && wholeAmountChecks a rate10) = true.
Proof. vm_compute. reflexivity. Qed.

(** The three helpers compute the fields of [calculateTax]: the base of
    a tax-included amount, and the tax and the total of a tax-excluded
    amount, for every amount and rate. *)
Lemma tax_helpers_agree (amount : float) (rate : TaxRate) :
  extractBaseAmount amount rate = baseAmount (calculateTax amount rate included)
  /\ calculateTaxAmount amount rate = taxAmount (calculateTax amount rate excluded)
  /\ calculateTotalAmount amount rate = totalAmount (calculateTax amount rate excluded).
Proof. destruct rate; repeat split. Qed.

(** X23: for every whole amount from 0 to 10000 and both non-zero rates,
    in binary64 arithmetic: the tax on a tax-excluded amount is exactly
    the floor of amount times rate over 100, and the total is the amount
    plus that tax; the base of a tax-included amount is the floor of
    amount times 100 over 100 plus rate, or one below it, and base and
    tax add up to the amount. *)
Theorem whole_amount_tax (a : Z) (rate : TaxRate) :
  0 <= a <= 10000 -> rate <> rate0 ->
  let x := Number.ofZ a in
  let exactBase := a * 100 / (100 + percent rate) in
  integerValue (calculateTaxAmount x rate) = Some (a * percent rate / 100)
  /\ integerValue (calculateTotalAmount x rate) = Some (a + a * percent rate / 100)
  /\ (exists b,
         integerValue (extractBaseAmount x rate) = Some b
         /\ (b = exactBase \/ b = exactBase - 1)
         /\ integerValue (taxAmount (calculateTax x rate included)) = Some (a - b)).
Proof.
  intros Ha Hr x exactBase.
  pose proof (holdsFrom_spec _ _ 0 whole_amounts_checked a) as H.
  cbv beta in H. rewrite andb_true_iff in H. destruct H as [H8 H10]; [lia|].
  assert (wholeAmountChecks a rate = true) as H
      by (destruct rate; [congruence|exact H8|exact H10]).
  clear H8 H10. unfold wholeAmountChecks in H. fold x in H. fold exactBase in H.
  rewrite !andb_true_iff in H. destruct H as (((Ht & Hs) & Hb) & Hsum).
  unfold isInteger in *.
  destruct (integerValue (calculateTaxAmount x rate)) as [t|]; [|discriminate].
  destruct (integerValue (calculateTotalAmount x rate)) as [s|]; [|discriminate].
  destruct (integerValue (extractBaseAmount x rate)) as [b|]; [|discriminate].
  destruct (integerValue (taxAmount (calculateTax x rate included))) as [u|];
    [|discriminate].
  apply Z.eqb_eq in Ht, Hs, Hsum. subst t s u.
  split; [reflexivity|]. split; [reflexivity|].
  exists b. split; [reflexivity|]. split; [|reflexivity].
  apply orb_true_iff in Hb. rewrite !Z.eqb_eq in Hb. exact Hb.
Qed.

(** 110 at 10%: the tax on 110 is 11; taken as tax included, the base is
    99, one below 100. *)
Lemma whole_amount_tax_witness :
  integerValue (calculateTaxAmount 110 rate10) = Some 11
  /\ integerValue (extractBaseAmount 110 rate10) = Some 99
  /\ integerValue (calculateTaxAmount (Number.ofZ 110) rate10)
     = Some (110 * percent rate10 / 100).
Proof.
  split; [reflexivity|]. split; [reflexivity|].
  destruct (whole_amount_tax 110 rate10) as (H & _).
  - lia.
  - discriminate.
  - exact H.
Defined.
End TaxHelperFacts.

(** ** General ledger *)

Section GeneralLedgerFacts.
Import GeneralLedger Ledger.
Variable localeCompare : string -> string -> Z.
Variable dateCompare : string -> string -> Z.





End GeneralLedgerFacts.

Section GeneralLedgerScenario.
Import GeneralLedger Ledger.

End GeneralLedgerScenario.

(** ** Dashboard *)

Section DashboardFacts.
Import Dashboard Postings.
Variable localeCompare : string -> string -> Z.








End DashboardFacts.

(** ** CSV: a written row read back *)

Section CsvFacts.
Import Csv.
Variable getAccountName : string -> string.
Variable numberToString : Z -> string.
Variable trim : string -> string.

Lemma append_char_assoc (a : string) (c : ascii) (b : string) :
  ((a ++ String c EmptyString) ++ b = a ++ String c b)%string.
Proof. induction a as [|x a IH]; simpl; [reflexivity|]. now rewrite IH. Qed.

Lemma append_empty (a : string) : (a ++ EmptyString = a)%string.
Proof. induction a as [|x a IH]; simpl; [reflexivity|]. now rewrite IH. Qed.

(** Outside quotes a field without comma and quote is copied. *)
Lemma scan_plain (field rest : string) (result : list string) (current : string) :
  plain field = true ->
  scan trim (field ++ rest) result current false
  = scan trim rest result (current ++ field) false.
Proof.
  revert current. induction field as [|c field IH]; intros current H.
  - simpl. now rewrite append_empty.
  - cbn [plain] in H. rewrite !andb_true_iff, !negb_true_iff in H.
    destruct H as [[Hq Hc] Hf].
    change (String c field ++ rest)%string with (String c (field ++ rest)).
    cbn [scan]. rewrite Hq, Hc, (IH _ Hf). now rewrite append_char_assoc.
Qed.

(** A comma outside quotes closes the field. *)
Lemma scan_comma (rest : string) (result : list string) (current : string) :
  scan trim (String comma rest) result current false
  = scan trim rest (result ++ [trim current]) EmptyString false.
Proof. reflexivity. Qed.

(** Inside quotes an escaped text is read back as it was, up to the
    closing quote at the end of the line. *)
Lemma scan_escaped (text : string) (result : list string) (current : string) :
  scan trim (escape text ++ String quote EmptyString) result current true
  = (result ++ [trim (current ++ text)])%list.
Proof.
  revert current. induction text as [|c text IH]; intros current.
  - simpl. now rewrite append_empty.
  - cbn [escape]. destruct (Ascii.eqb c quote) eqn:E.
    + apply Ascii.eqb_eq in E. subst c.
      change (String quote (String quote (escape text)) ++ String quote EmptyString)%string
        with (String quote (String quote (escape text ++ String quote EmptyString))).
      cbn [scan]. rewrite Ascii.eqb_refl. rewrite IH. now rewrite append_char_assoc.
    + change (String c (escape text) ++ String quote EmptyString)%string
        with (String c (escape text ++ String quote EmptyString)).
      cbn [scan]. rewrite E, IH. now rewrite append_char_assoc.
Qed.

(** X26: a journal row written by [journalToCSV] is read back by
    [parseCSVLine] as its five fields, each trimmed, whatever the
    description contains - commas and double quotes included - as long
    as the date, the two account names and the amount as printed hold
    neither a comma nor a double quote. *)
Theorem csv_row_read_back (entry : JournalEntry.t) :
  plain (JournalEntry.date entry) = true ->
  plain (getAccountName (JournalEntry.debitAccountId entry)) = true ->
  plain (getAccountName (JournalEntry.creditAccountId entry)) = true ->
  plain (numberToString (JournalEntry.amount entry)) = true ->
  parseCSVLine trim
    (join (String comma EmptyString) (csvRow getAccountName numberToString entry))
  = [trim (JournalEntry.date entry);
     trim (getAccountName (JournalEntry.debitAccountId entry));
     trim (getAccountName (JournalEntry.creditAccountId entry));
     trim (numberToString (JournalEntry.amount entry));
     trim (JournalEntry.description entry)].
Proof.
  intros Hd Hn Hc Ha. unfold parseCSVLine, csvRow, quoted. cbn [join].
  rewrite (scan_plain _ _ _ _ Hd).
  change (String comma EmptyString ++ ?r)%string with (String comma r).
  rewrite scan_comma. rewrite (scan_plain _ _ _ _ Hn).
  change (String comma EmptyString ++ ?r)%string with (String comma r).
  rewrite scan_comma. rewrite (scan_plain _ _ _ _ Hc).
  change (String comma EmptyString ++ ?r)%string with (String comma r).
  rewrite scan_comma. rewrite (scan_plain _ _ _ _ Ha).
  change (String comma EmptyString ++ ?r)%string with (String comma r).
  rewrite scan_comma.
  cbn [scan]. change (Ascii.eqb quote quote) with true. cbn iota.
  rewrite scan_escaped. reflexivity.
Qed.
End CsvFacts.

Section CsvScenario.
Import Csv.

(** Amounts printed in decimal, fields left untrimmed. *)
Lemma csv_row_read_back_witness :
  parseCSVLine (fun s => s)
    (join (String comma EmptyString)
          (csvRow (getAccountName Books.chart)
                  (fun z => NilZero.string_of_int (Z.to_int z)) Books.remarkSale))
  = ["2025-09-01"; "現金"; "売上"; "1000"; JournalEntry.description Books.remarkSale].
Proof.
  apply (csv_row_read_back (getAccountName Books.chart)
                           (fun z => NilZero.string_of_int (Z.to_int z))
                           (fun s => s) Books.remarkSale); reflexivity.
Defined.
End CsvScenario.

(** ** The opening-balance page against the trial balance *)

Section OpeningPageFacts.
Import OpeningBalancePage Ledger.
Variable localeCompare : string -> string -> Z.


End OpeningPageFacts.

Section OpeningPageScenario.
Import OpeningBalancePage.

End OpeningPageScenario.

(** ** Closing a year without entries *)

Section EmptyYear.
Import YearEndClosing Closing Postings.

Lemma opening_sum_find (l : list OpeningBalance.t) (k : string) :
  NoDup (map OpeningBalance.accountId l) ->
  sumZ (fun ob => if String.eqb (OpeningBalance.accountId ob) k
                  then OpeningBalance.amount ob else 0) l
  = match find (fun ob => String.eqb (OpeningBalance.accountId ob) k) l with
    | Some ob => OpeningBalance.amount ob
    | None => 0
    end.
Proof.
  induction l as [|ob l IH]; simpl; intros H; [reflexivity|].
  apply NoDup_cons_iff in H. destruct H as [Hob Hl].
  destruct (String.eqb_spec (OpeningBalance.accountId ob) k) as [E|N]; [|now apply IH].
  rewrite sumZ_all_zero; [lia|]. intros x Hx.
  destruct (String.eqb_spec (OpeningBalance.accountId x) k) as [E'|]; [|reflexivity].
  exfalso. apply Hob. rewrite E, <- E'. now apply in_map.
Qed.

Lemma map_filter_agree {A B : Type} (p q : A -> bool) (f g : A -> B) (l : list A) :
  (forall a, In a l -> p a = q a) ->
  (forall a, In a l -> q a = true -> f a = g a) ->
  map f (filter p l) = map g (filter q l).
Proof.
  induction l as [|a l IH]; intros Hp Hf; [reflexivity|].
  cbn [filter]. rewrite (Hp a (or_introl eq_refl)).
  assert (map f (filter p l) = map g (filter q l)) as IH'.
  { apply IH; intros x Hx; [apply Hp|apply Hf]; now right. }
  destruct (q a) eqn:K; [|exact IH'].
  cbn [map]. rewrite IH', (Hf a (or_introl eq_refl) K). reflexivity.
Qed.

(** Without an entry in the period nothing is earned and nothing is
    transferred: the ending balance of an id is its last opening
    balance. *)
Lemma empty_period entries accounts openingBalances fiscalYearStart fiscalYearEnd :
  filter (inPeriod fiscalYearStart fiscalYearEnd) entries = [] ->
  let r := calculateYearEndClosing entries accounts openingBalances
                                   fiscalYearStart fiscalYearEnd in
  netProfit r = 0 /\ closingEntry r = None
  /\ forall k, endingBalance entries accounts openingBalances
                             fiscalYearStart fiscalYearEnd k
               = lastOpening openingBalances k.
Proof.
  intros Hempty r.
  assert (aggregate entries accounts openingBalances fiscalYearStart fiscalYearEnd
          = mkClosing (fold_left setOpening openingBalances JSMap.empty) 0 0) as Hagg.
  { unfold aggregate. now rewrite Hempty. }
  unfold r. rewrite closing_result. cbv zeta. cbn [netProfit closingEntry].
  unfold endingBalance. rewrite Hagg. cbn [totalRevenue totalExpense balances].
  change (0 - 0) with 0.
  assert (transferProfit accounts (fold_left setOpening openingBalances JSMap.empty)
                         0 fiscalYearEnd
          = (None, fold_left setOpening openingBalances JSMap.empty)) as ->.
  { unfold transferProfit. now destruct (findRetainedEarningsAccount accounts). }
  split; [reflexivity|]. split; [reflexivity|].
  intros k. cbn [snd]. rewrite setOpening_last. reflexivity.
Qed.

(** X28: closing a year that has no entry carries the carried balances
    forward unchanged: when the opening balances are the carry-forward
    list of an earlier closing over the same chart, with distinct account
    ids, the closing of a period without entries reports no profit, makes
    no closing entry and returns that list again. *)
Theorem carry_forward_again
        (entries : list JournalEntry.t) (accounts : list Account.t)
        (openingBalances : list OpeningBalance.t)
        (fiscalYearStart fiscalYearEnd : string)
        (journal : list JournalEntry.t) (nextStart nextEnd : string) :
  NoDup (map Account.id accounts) ->
  filter (inPeriod nextStart nextEnd) journal = [] ->
  let carried := carryForwardBalances
                   (calculateYearEndClosing entries accounts openingBalances
                                            fiscalYearStart fiscalYearEnd) in
  let r := calculateYearEndClosing journal accounts carried nextStart nextEnd in
  netProfit r = 0 /\ closingEntry r = None /\ carryForwardBalances r = carried.
Proof.
  intros Hids Hempty carried0 r.
  destruct (closing_lists entries accounts openingBalances fiscalYearStart fiscalYearEnd)
    as [_ Hf].
  cbv zeta in Hf. fold carried0 in Hf.
  set (after := endingBalance entries accounts openingBalances
                              fiscalYearStart fiscalYearEnd) in *.
  destruct (empty_period journal accounts carried0 nextStart nextEnd Hempty)
    as (Hn & Hc & He).
  fold r in Hn, Hc. split; [exact Hn|]. split; [exact Hc|].
  destruct (closing_lists journal accounts carried0 nextStart nextEnd) as [_ Hf'].
  cbv zeta in Hf'. fold r in Hf'.
  set (after' := endingBalance journal accounts carried0 nextStart nextEnd) in *.
  assert (forall a, In a accounts ->
                    isBalanceSheetAccount (Account.type a) = true ->
                    after' (Account.id a) = after (Account.id a)) as Hsame.
  { intros a Ha Hbs. unfold after'. rewrite He.
    rewrite <- opening_sum_last, opening_sum_find;
      try (rewrite Hf, map_map; simpl; now apply kept_ids_distinct).
    rewrite Hf, (find_kept (Closing.carried after) (fun x => after (Account.id x))
                           accounts a Hids Ha).
    unfold Closing.carried. rewrite Hbs. simpl.
    destruct (Z.eqb_spec (after (Account.id a)) 0) as [E|N]; simpl; congruence. }
  rewrite Hf', Hf.
  assert (forall a, In a accounts -> Closing.carried after' a = Closing.carried after a)
    as Hkeep.
  { intros a Ha. unfold Closing.carried.
    destruct (isBalanceSheetAccount (Account.type a)) eqn:Hbs; [|reflexivity].
    now rewrite (Hsame a Ha Hbs). }
  apply map_filter_agree; [exact Hkeep|].
  intros a Ha K. f_equal. apply Hsame; [exact Ha|].
  unfold Closing.carried in K. apply andb_true_iff in K. tauto.
Qed.
End EmptyYear.

Section EmptyYearScenario.
Import YearEndClosing Closing.

(** Fiscal year 2025 is closed; fiscal year 2026 is closed before any
    entry is dated in it. *)
Lemma carry_forward_again_witness :
  let carried := carryForwardBalances
                   (calculateYearEndClosing Books.year2025 Books.chart Scenario.openingB
                                            "2025-04-01" "2026-03-31") in
  carried = [OpeningBalance.mk "acc-101" 1300; OpeningBalance.mk "acc-301" (-500);
             OpeningBalance.mk "acc-310" (-800)]
  /\ carryForwardBalances
       (calculateYearEndClosing Books.year2025 Books.chart carried
                                "2026-04-01" "2027-03-31")
     = carried.
Proof.
  destruct (carry_forward_again Books.year2025 Books.chart Scenario.openingB
              "2025-04-01" "2026-03-31" Books.year2025 "2026-04-01" "2027-03-31")
    as (_ & _ & H).
  - repeat constructor; simpl; intuition discriminate.
  - reflexivity.
  - split; [reflexivity|exact H].
Defined.
End EmptyYearScenario.
